(** * Keev: routing, dispatch and lifecycle core

    A shallow embedding of the request-routing core of the Keev framework
    ([keev/routing.py], [keev/responses.py], [keev/plugins.py],
    [keev/application.py]) together with the properties its specification
    states about it.

    Conventions of the embedding.
    - A Python [str] is a Rocq [string]; [str.lower] acts on the ASCII
      letters.
    - A Python [dict] whose iteration order is observable is an association
      list in insertion order ([Py.dict_set] keeps the position of a key that
      is already present); a [defaultdict] looked up by key only is a [gmap].
    - Objects that are mutated in place and shared by reference (responses,
      the header views handed out by [Response.headers], the caches of
      [Depends] objects) live in a store, and the program holds addresses.
    - Code that can raise runs in a state-and-exception monad.
    - [time.time()] is an input of the function that reads it, a rational
      number of seconds. *)

From Stdlib Require Import Ascii String QArith Lqa.
From stdpp Require Import base list strings gmap.

(** ** Python values the code relies on *)

Module Py.

Definition lower_ascii (c : ascii) : ascii :=
  let n := nat_of_ascii c in
  if (65 <=? n)%nat && (n <=? 90)%nat then ascii_of_nat (n + 32) else c.

Fixpoint map_string (f : ascii -> ascii) (s : string) : string :=
  match s with
  | EmptyString => EmptyString
  | String c s' => String (f c) (map_string f s')
  end.

(** [str.lower()] *)
Definition lower : string -> string := map_string lower_ascii.

(** [s.rstrip(c)] for a single character [c]. *)
Fixpoint rstrip (c : ascii) (s : string) : string :=
  match s with
  | EmptyString => EmptyString
  | String a s' =>
      match rstrip c s' with
      | EmptyString => if Ascii.eqb a c then EmptyString else String a EmptyString
      | r => String a r
      end
  end.

(** [sep.join(xs)]. *)
Fixpoint join (sep : string) (xs : list string) : string :=
  match xs with
  | [] => ""
  | [x] => x
  | x :: rest => x +:+ sep +:+ join sep rest
  end.

(** [d.get(k)] on an insertion-ordered dict. *)
Fixpoint dict_get {V : Type} (k : string) (d : list (string * V)) : option V :=
  match d with
  | [] => None
  | (k', v) :: d' => if String.eqb k k' then Some v else dict_get k d'
  end.

(** [d[k] = v]: an existing key keeps its position, a new key goes last. *)
Fixpoint dict_set {V : Type} (k : string) (v : V) (d : list (string * V))
  : list (string * V) :=
  match d with
  | [] => [(k, v)]
  | (k', v') :: d' =>
      if String.eqb k k' then (k', v) :: d' else (k', v') :: dict_set k v d'
  end.

(** [d.update(other)]: item assignment for each item of [other] in order. *)
Definition dict_update {V : Type} (other d : list (string * V)) : list (string * V) :=
  fold_left (fun acc kv => dict_set (fst kv) (snd kv) acc) other d.

(** [a < b] on the rationals, as a boolean. *)
Definition Qltb (a b : Q) : bool := negb (Qle_bool b a).

End Py.

(** ** The builtins [int] and [float] applied to a string

    What [Route._compile] installs as converters. Both are given for ASCII
    text (Python also accepts Unicode digits and spaces); [None] stands for
    the [ValueError] the builtin raises. *)

Module PyParse.

Definition is_space (c : ascii) : bool :=
  let n := nat_of_ascii c in
  ((9 <=? n)%nat && (n <=? 13)%nat) || ((28 <=? n)%nat && (n <=? 32)%nat).

Definition is_digit (c : ascii) : bool :=
  let n := nat_of_ascii c in (48 <=? n)%nat && (n <=? 57)%nat.

Definition digit_value (c : ascii) : Z := Z.of_nat (nat_of_ascii c) - 48.

Fixpoint lstrip (s : string) : string :=
  match s with
  | String c s' => if is_space c then lstrip s' else s
  | EmptyString => EmptyString
  end.

Fixpoint rstrip (s : string) : string :=
  match s with
  | EmptyString => EmptyString
  | String a s' =>
      match rstrip s' with
      | EmptyString => if is_space a then EmptyString else String a EmptyString
      | r => String a r
      end
  end.

(** [s.strip()] *)
Definition strip (s : string) : string := rstrip (lstrip s).

(** The value of [digit (["_"] digit)*] when [s] is exactly that. *)
Fixpoint digits_value (acc : Z) (after_digit : bool) (s : string) : option Z :=
  match s with
  | EmptyString => if after_digit then Some acc else None
  | String c s' =>
      if is_digit c then digits_value (acc * 10 + digit_value c) true s'
      else if Ascii.eqb c "_" && after_digit then digits_value acc false s'
      else None
  end.

(** [int(s)] *)
Definition int (s : string) : option Z :=
  match strip s with
  | String "+" r => digits_value 0 false r
  | String "-" r => Z.opp <$> digits_value 0 false r
  | r => digits_value 0 false r
  end.

(** Skips the longest [digit (["_"] digit)*] at the head of [s]; the
    boolean tells whether a digit was read. *)
Fixpoint skip_digits (seen : bool) (s : string) : bool * string :=
  match s with
  | EmptyString => (seen, EmptyString)
  | String c s' =>
      if is_digit c then skip_digits true s'
      else if Ascii.eqb c "_" && seen then
        match s' with
        | String d _ => if is_digit d then skip_digits true s' else (seen, s)
        | EmptyString => (seen, s)
        end
      else (seen, s)
  end.

Definition drop_sign (s : string) : string :=
  match s with
  | String "+" r => r
  | String "-" r => r
  | _ => s
  end.

(** [e] or [E], an optional sign, digits, and nothing after. *)
Definition is_exponent (s : string) : bool :=
  match s with
  | EmptyString => true
  | String c r =>
      if Ascii.eqb c "e" || Ascii.eqb c "E" then
        match skip_digits false (drop_sign r) with
        | (true, EmptyString) => true
        | _ => false
        end
      else false
  end.

(** Whether [float(s)] returns, by the grammar of the language reference. *)
Definition is_float (s : string) : bool :=
  let body := drop_sign (strip s) in
  let word := Py.lower body in
  if String.eqb word "inf" || String.eqb word "infinity" || String.eqb word "nan"
  then true
  else
    let '(int_digits, r1) := skip_digits false body in
    let '(frac_digits, r2) :=
      match r1 with
      | String "." r => skip_digits false r
      | _ => (false, r1)
      end in
    (int_digits || frac_digits) && is_exponent r2.

(** [float(s)] *)
Definition float (s : string) : option string :=
  if is_float s then Some (strip s) else None.

End PyParse.

(** ** The compiled pattern of a route

    [Route._compile] rewrites each [{name}] or [{name:type}] of a declared
    parameter into the group [(?P<name>[^/]+)] and compiles
    [^...(/)?$] with Python's [re]. The matcher below is that of the
    patterns this produces from a template whose other characters are
    ordinary ones or a dot; a template with another regex operator, or
    with a brace that is no declared parameter, is outside the model
    ([compile] gives [None], as it does where [re.compile] raises on a
    repeated group name). *)

Module PathRegex.

Inductive token :=
| Lit (c : ascii)
| Any                       (* [.]: any character but a newline *)
| Group (name : string).    (* [(?P<name>[^/]+)] *)

Definition is_operator (c : ascii) : bool :=
  bool_decide (c ∈ ["\"; "^"; "$"; "*"; "+"; "?"; "("; ")"; "["; "]"; "|"; "}"]%char).

Inductive scan_state :=
| Outside
| InName (name : string)
| InType (name : string) (nonempty : bool).

Fixpoint scan (names : list string) (state : scan_state) (s : string)
  : option (list token) :=
  match s with
  | EmptyString => match state with Outside => Some [] | _ => None end
  | String c s' =>
      match state with
      | Outside =>
          if Ascii.eqb c "{" then scan names (InName "") s'
          else if Ascii.eqb c "." then cons Any <$> scan names Outside s'
          else if is_operator c then None
          else cons (Lit c) <$> scan names Outside s'
      | InName name =>
          if Ascii.eqb c "}" then
            if bool_decide (name ∈ names)
            then cons (Group name) <$> scan names Outside s'
            else None
          else if Ascii.eqb c ":" then scan names (InType name false) s'
          else scan names (InName (name +:+ String c "")) s'
      | InType name nonempty =>
          if Ascii.eqb c "}" then
            if nonempty && bool_decide (name ∈ names)
            then cons (Group name) <$> scan names Outside s'
            else None
          else scan names (InType name true) s'
      end
  end.

Definition group_names (ts : list token) : list string :=
  omap (fun t => match t with Group n => Some n | _ => None end) ts.

(** [$]: the end of the string, or just before a final newline. *)
Definition at_end (s : string) : bool :=
  match s with
  | EmptyString => true
  | String c EmptyString => Ascii.eqb c "010"
  | _ => false
  end.

(** [/?$] *)
Definition match_end (s : string) : option (list (string * string)) :=
  match s with
  | String "/" s' => if at_end s' then Some [] else None
  | _ => if at_end s then Some [] else None
  end.

(** A greedy group: the longest run of non-slash characters for which
    the rest of the pattern matches. *)
Fixpoint match_group (name : string)
    (rest : string -> option (list (string * string)))
    (taken : string) (s : string) : option (list (string * string)) :=
  match s with
  | EmptyString => None
  | String c s' =>
      if Ascii.eqb c "/" then None
      else
        let taken' := taken +:+ String c "" in
        match match_group name rest taken' s' with
        | Some g => Some g
        | None => cons (name, taken') <$> rest s'
        end
  end.

(** [groupdict()] of the match of the tokens, then [/?$], against [s]. *)
Fixpoint match_tokens (ts : list token) (s : string)
  : option (list (string * string)) :=
  match ts with
  | [] => match_end s
  | Lit c :: ts' =>
      match s with
      | String c' s' => if Ascii.eqb c c' then match_tokens ts' s' else None
      | EmptyString => None
      end
  | Any :: ts' =>
      match s with
      | String c' s' => if Ascii.eqb c' "010" then None else match_tokens ts' s'
      | EmptyString => None
      end
  | Group name :: ts' => match_group name (match_tokens ts') "" s
  end.

(** [re.compile(...)]; the result's [.match(path)] followed by
    [.groupdict()]. *)
Definition compile (names : list string) (template : string)
  : option (string -> option (list (string * string))) :=
  ts ← scan names Outside template;
  if bool_decide (NoDup (group_names ts)) then Some (match_tokens ts) else None.

End PathRegex.

(** ** [RateLimit] and [RateLimiter] (routing.py, lines 58-74) *)

Module RateLimit.
Record t := mk { requests : Z; window : Z; by_ : string }.
End RateLimit.

Module RateLimiter.

(** The object is its one attribute, [self.requests = defaultdict(list)]. *)
Record t := mk { requests : gmap string (list Q) }.

Definition init : t := mk ∅.

(** [self.requests[key]] read through the [defaultdict]. *)
Definition timestamps (self : t) (key : string) : list Q :=
  default [] (requests self !! key).

(** [is_allowed(key, limit)], with [now] the value [time.time()] returned. *)
Definition is_allowed (now : Q) (key : string) (limit : RateLimit.t) (self : t)
  : bool * t :=
  let kept :=
    List.filter (fun ts => Py.Qltb (now - ts) (inject_Z (RateLimit.window limit)))
                (timestamps self key) in
  let self1 := mk (<[key := kept]> (requests self)) in
  if (RateLimit.requests limit <=? Z.of_nat (length kept))%Z
  then (false, self1)
  else (true, mk (<[key := kept ++ [now]]> (requests self1))).

(** Successive checks for one key, at the given clock readings. *)
Fixpoint checks (times : list Q) (key : string) (limit : RateLimit.t) (self : t)
  : list bool * t :=
  match times with
  | [] => ([], self)
  | now :: rest =>
      let '(b, self1) := is_allowed now key limit self in
      let '(bs, self2) := checks rest key limit self1 in
      (b :: bs, self2)
  end.

End RateLimiter.

(** ** Values, exceptions and requests *)

(** JSON-like data: response contents, validated models, dependency results. *)
Module Json.
#[local] Unset Elimination Schemes.
Inductive t :=
| Null
| Bool (b : bool)
| Int (z : Z)
| Str (s : string)
| List (items : list t)
| Obj (fields : list (string * t)).
End Json.

(** exceptions.py. [str_e] is what [str(e)] gives. *)
Module Exn.
Inductive t :=
| ValidationError (detail : string)
    (* keev.exceptions.ValidationError: HTTPException(422, detail) *)
| HTTPException (status_code : Z) (detail : string)
    (headers : list (string * string)) (str_e : string)
    (* HTTPException and its other subclasses *)
| PluginError (detail : string)
| Other (cls : string) (msg : string).
    (* any other Exception: TypeError, ValueError, AttributeError, ... *)

(** [isinstance(e, HTTPException)] *)
Definition is_http (e : t) : bool :=
  match e with
  | ValidationError _ | HTTPException _ _ _ _ => true
  | PluginError _ | Other _ _ => false
  end.

Definition str (e : t) : string :=
  match e with
  | ValidationError d => d
  | HTTPException _ _ _ s => s
  | PluginError d => d
  | Other _ m => m
  end.

(** [isinstance(e, cls)] for a class outside exceptions.py. *)
Definition is_a (cls : string) (e : t) : bool :=
  match e with
  | Other c _ => String.eqb c cls
  | _ => false
  end.

(** [InternalServerError(detail)], with [detail or "An error occurred"]
    applied by [HTTPException.__init__]; [None] is Python's [None]. *)
Definition InternalServerError (detail : option string) : t :=
  match detail with
  | None => HTTPException 500 "An error occurred" [] "None"
  | Some d =>
      HTTPException 500 (if String.eqb d "" then "An error occurred" else d) [] d
  end.
End Exn.

(** A converted path parameter. A float is kept as the text [float()]
    accepted: no claim computes with it. *)
Module PathValue.
Inductive t :=
| Int (z : Z)
| Float (literal : string)
| Bool (b : bool)
| Str (s : string).
End PathValue.

(** requests.py. [scope] is spread over the fields; the body is the
    concatenation of the chunks [receive] delivers. [id] stands for the
    identity of the Python object. *)
Module Request.
Record t := mk {
  id : nat;
  method : string;
  path : string;
  scope_headers : list (string * string);
  query_string : string;
  body : string
}.

(** The [headers] property: keys lowercased, a later duplicate wins. *)
Definition headers (self : t) : list (string * string) :=
  fold_left (fun acc kv => Py.dict_set (Py.lower (fst kv)) (snd kv) acc)
            (scope_headers self) [].
End Request.

Module Value.
Inductive t :=
| Path (v : PathValue.t)
| TheRequest (r : Request.t)
| Context (r : Request.t)          (* RequestContext(request) *)
| Data (j : Json.t).               (* a validated model, a dependency result *)
End Value.

(** ** The store and the monad *)

(** What the transport's [send] received. The body message carries the
    content; its encoding to bytes ([str.encode], orjson) is not modelled. *)
Module Message.
Inductive t :=
| Start (status : Z) (headers : list (string * string))
| Body (content : Json.t) (more_body : bool).
End Message.

Module Store.

(** A [Response] object: its attributes. *)
Record response := mk_response {
  content : Json.t;
  status_code : Z;
  _headers : list (string * string)
}.

(** A [CaseInsensitiveDict] object: the attribute [_store], and the
    items of the [dict] it inherits from ([items], untouched by
    [__init__], which does not call [dict.__init__]). *)
Record ci_dict := mk_ci_dict {
  _store : list (string * string);
  items : list (string * string)
}.

(** One entry per call of a user callable (handler, dependency, hook,
    lifecycle handler): who was called, with which keyword arguments. *)
Record call := mk_call {
  callee : nat;
  kwargs : list (string * Value.t)
}.

Record t := mk {
  responses : list response;                      (* by address *)
  views : list ci_dict;                           (* by address *)
  dep_caches : gmap nat (list (nat * Value.t));   (* Depends object -> its _cache *)
  path_params : gmap nat (list (string * PathValue.t));
                                                  (* request -> request.path_params *)
  calls : list call;                              (* oldest first *)
  sent : list Message.t                           (* oldest first *)
}.

Definition empty : t := mk [] [] ∅ ∅ [] [].

Definition set_responses (f : list response -> list response) (s : t) : t :=
  mk (f (responses s)) (views s) (dep_caches s) (path_params s) (calls s) (sent s).
Definition set_views (f : list ci_dict -> list ci_dict) (s : t) : t :=
  mk (responses s) (f (views s)) (dep_caches s) (path_params s) (calls s) (sent s).
Definition set_dep_caches
    (f : gmap nat (list (nat * Value.t)) -> gmap nat (list (nat * Value.t))) (s : t) : t :=
  mk (responses s) (views s) (f (dep_caches s)) (path_params s) (calls s) (sent s).
Definition set_path_params
    (f : gmap nat (list (string * PathValue.t)) -> gmap nat (list (string * PathValue.t)))
    (s : t) : t :=
  mk (responses s) (views s) (dep_caches s) (f (path_params s)) (calls s) (sent s).
Definition set_calls (f : list call -> list call) (s : t) : t :=
  mk (responses s) (views s) (dep_caches s) (path_params s) (f (calls s)) (sent s).
Definition set_sent (f : list Message.t -> list Message.t) (s : t) : t :=
  mk (responses s) (views s) (dep_caches s) (path_params s) (calls s) (f (sent s)).

End Store.

(** Computations that read and write the store and may raise. A raised
    exception keeps the writes made before it. *)
Module M.

Inductive result (A : Type) :=
| Ok (a : A)
| Raise (e : Exn.t).
Arguments Ok {A} a.
Arguments Raise {A} e.

Definition t (A : Type) : Type := Store.t -> result A * Store.t.

Definition ret {A} (a : A) : t A := fun s => (Ok a, s).

Definition bind {A B} (m : t A) (k : A -> t B) : t B :=
  fun s =>
    match m s with
    | (Ok a, s') => k a s'
    | (Raise e, s') => (Raise e, s')
    end.

Definition raise {A} (e : Exn.t) : t A := fun s => (Raise e, s).

(** [try: m  except Exception as e: h(e)] *)
Definition try_ {A} (m : t A) (h : Exn.t -> t A) : t A :=
  fun s =>
    match m s with
    | (Ok a, s') => (Ok a, s')
    | (Raise e, s') => h e s'
    end.

Definition get : t Store.t := fun s => (Ok s, s).
Definition modify (f : Store.t -> Store.t) : t unit := fun s => (Ok tt, f s).

(** [for x in xs: body(x)] *)
Fixpoint for_each {A} (xs : list A) (body : A -> t unit) : t unit :=
  match xs with
  | [] => ret tt
  | x :: rest => bind (body x) (fun _ => for_each rest body)
  end.

End M.

Notation "x <- m ;; k" := (M.bind m (fun x => k))
  (at level 20, m at level 99, k at level 200, only parsing).
Notation "m ;; k" := (M.bind m (fun _ => k))
  (at level 100, k at level 200, only parsing, right associativity).

(** ** responses.py *)

(** An address that names no object cannot arise in Python; the model
    raises there, so that every operation is total. *)
Definition dangling {A} : M.t A :=
  M.raise (Exn.Other "ReferenceError" "no object at this address").

Module CaseInsensitiveDict.

Definition deref (self : nat) : M.t Store.ci_dict :=
  fun s =>
    match Store.views s !! self with
    | Some o => (M.Ok o, s)
    | None => dangling s
    end.

Definition assign (self : nat) (o : Store.ci_dict) : M.t unit :=
  M.modify (Store.set_views (fun vs => <[self := o]> vs)).

(** The loop of [__init__]: [store[key.lower()] = value] for each item. *)
Definition lowered (data store : list (string * string)) : list (string * string) :=
  fold_left (fun acc kv => Py.dict_set (Py.lower (fst kv)) (snd kv) acc) data store.

(** [CaseInsensitiveDict(data)]: a new object with its own [_store]. *)
Definition init (data : list (string * string)) : M.t nat :=
  fun s =>
    (M.Ok (length (Store.views s)),
     Store.set_views (fun vs => vs ++ [Store.mk_ci_dict (lowered data []) []]) s).

(** [self[key]] *)
Definition getitem (self : nat) (key : string) : M.t string :=
  o <- deref self ;;
  match Py.dict_get (Py.lower key) (Store._store o) with
  | Some v => M.ret v
  | None => M.raise (Exn.Other "KeyError" (Py.lower key))
  end.

(** [self[key] = value] *)
Definition setitem (self : nat) (key value : string) : M.t unit :=
  o <- deref self ;;
  assign self (Store.mk_ci_dict (Py.dict_set (Py.lower key) value (Store._store o))
                                (Store.items o)).

(** [self.get(key)], with the default [None]. *)
Definition get (self : nat) (key : string) : M.t (option string) :=
  M.try_ (v <- getitem self key ;; M.ret (Some v))
         (fun e => if Exn.is_a "KeyError" e then M.ret None else M.raise e).

(** [key in self] *)
Definition contains (self : nat) (key : string) : M.t bool :=
  o <- deref self ;;
  M.ret (bool_decide (is_Some (Py.dict_get (Py.lower key) (Store._store o)))).

(** [self.update(other)]: not overridden, so it is [dict.update], which
    writes the inherited dict's items and never calls [__setitem__]. *)
Definition update (self : nat) (other : list (string * string)) : M.t unit :=
  o <- deref self ;;
  assign self (Store.mk_ci_dict (Store._store o) (Py.dict_update other (Store.items o))).

End CaseInsensitiveDict.

Module Response.

Definition deref (self : nat) : M.t Store.response :=
  fun s =>
    match Store.responses s !! self with
    | Some o => (M.Ok o, s)
    | None => dangling s
    end.

Definition assign (self : nat) (o : Store.response) : M.t unit :=
  M.modify (Store.set_responses (fun rs => <[self := o]> rs)).

(** The header dict [__init__] builds: the content type first, then the
    custom headers under lowercased keys. *)
Definition init_headers (headers : list (string * string)) (media_type : option string)
  : list (string * string) :=
  let content_type :=
    match media_type with
    | Some m => if String.eqb m "" then "text/plain" else m
    | None => "text/plain"
    end in
  fold_left (fun acc kv => Py.dict_set (Py.lower (fst kv)) (snd kv) acc)
            headers [("content-type", content_type)].

(** [Response(content, status_code, headers, media_type)]: the address of
    the new object. [headers=None] is the empty list. *)
Definition init (content : Json.t) (status_code : Z)
    (headers : list (string * string)) (media_type : option string) : M.t nat :=
  fun s =>
    (M.Ok (length (Store.responses s)),
     Store.set_responses
       (fun rs => rs ++ [Store.mk_response content status_code
                           (init_headers headers media_type)]) s).

(** [JSONResponse(content, status_code, headers)] *)
Definition JSONResponse (content : Json.t) (status_code : Z)
    (headers : list (string * string)) : M.t nat :=
  init content status_code headers (Some "application/json").

Definition status_code (self : nat) : M.t Z :=
  o <- deref self ;; M.ret (Store.status_code o).

Definition add_header (self : nat) (key value : string) : M.t unit :=
  o <- deref self ;;
  assign self (Store.mk_response (Store.content o) (Store.status_code o)
                 (Py.dict_set (Py.lower key) value (Store._headers o))).

(** The [headers] property: every read builds a new [CaseInsensitiveDict]. *)
Definition headers (self : nat) : M.t nat :=
  o <- deref self ;; CaseInsensitiveDict.init (Store._headers o).

(** The list comprehension of [_prepare_headers]. *)
Definition prepared (headers : list (string * string)) : list (string * string) :=
  map (fun kv => (Py.lower (fst kv), snd kv)) headers.

Definition _prepare_headers (self : nat) : M.t (list (string * string)) :=
  o <- deref self ;; M.ret (prepared (Store._headers o)).

Definition send (m : Message.t) : M.t unit :=
  M.modify (Store.set_sent (fun ms => ms ++ [m])).

(** [await self(scope, receive, send)] *)
Definition call (self : nat) : M.t unit :=
  o <- deref self ;;
  hs <- _prepare_headers self ;;
  send (Message.Start (Store.status_code o) hs) ;;
  send (Message.Body (Store.content o) false).

End Response.

(** ** routing.py: handlers, [Depends], [Route] *)

(** A parameter annotation, as [inspect.signature] and [get_type_hints]
    report it, and as [param_types] holds it. *)
Module Annotation.
Inductive t :=
| Empty                   (* inspect.Parameter.empty *)
| Int
| Float
| Bool
| Str
| OtherClass              (* a class that is no pydantic model *)
| Model (validate : string -> Json.t + string)
    (* a BaseModel subclass: [model_validate(json.loads(body))] on the
       request body, or the text of the error it raises *)
| NotAClass.              (* List[str], Optional[int], ...: issubclass raises *)

Definition is_empty (a : t) : bool :=
  match a with Empty => true | _ => false end.
End Annotation.

(** Records that a user callable is entered. *)
Definition enter (callee : nat) (kwargs : list (string * Value.t)) : M.t unit :=
  M.modify (Store.set_calls (fun cs => cs ++ [Store.mk_call callee kwargs])).

(** A call with keyword arguments binds: every keyword names a parameter,
    and every parameter without a default is given (callables that take
    [*args] or [**kwargs] are not modelled). *)
Definition binds {V} (params : list (string * bool)) (kwargs : list (string * V)) : bool :=
  forallb (fun kv => bool_decide (fst kv ∈ params.*1)) kwargs &&
  forallb (fun p => snd p || bool_decide (is_Some (Py.dict_get (fst p) kwargs))) params.

(** A route handler: an [async def] with a signature, returning a response. *)
Module Handler.

Record param := mk_param {
  name : string;
  annotation : Annotation.t;
  has_default : bool
}.

Record t := mk {
  id : nat;
  __name__ : string;
  parameters : list param;     (* inspect.signature(handler).parameters *)
  body : list (string * Value.t) -> M.t nat
}.

Definition has_parameter (h : t) (n : string) : bool :=
  bool_decide (n ∈ map name (parameters h)).

(** [await handler(...)] with the keyword arguments [kwargs] *)
Definition call (h : t) (kwargs : list (string * Value.t)) : M.t nat :=
  if binds (map (fun p => (name p, has_default p)) (parameters h)) kwargs
  then enter (id h) kwargs ;; body h kwargs
  else M.raise (Exn.Other "TypeError" "handler arguments do not bind").

End Handler.

Module Depends.

(** The default of a parameter of the dependency callable. *)
Inductive default_ (D : Type) :=
| NoDefault
| DependsDefault (d : D)     (* isinstance(param.default, Depends) *)
| OtherDefault.
Arguments NoDefault {D}.
Arguments DependsDefault {D} d.
Arguments OtherDefault {D}.

(** A [Depends] object ([obj_id]) around its callable [dependency]
    ([fn_id], its parameters, its body). *)
#[local] Unset Elimination Schemes.
Inductive t :=
| mk (obj_id : nat) (fn_id : nat)
     (parameters : list (string * default_ t))
     (body : list (string * Value.t) -> M.t Value.t).
#[local] Set Elimination Schemes.

Definition obj_id (d : t) : nat := match d with mk o _ _ _ => o end.
Definition fn_id (d : t) : nat := match d with mk _ f _ _ => f end.

(** [self._cache], a dict keyed by the callable. *)
Definition cache_of (s : Store.t) (obj : nat) : list (nat * Value.t) :=
  default [] (Store.dep_caches s !! obj).

Fixpoint assoc_get {V} (k : nat) (d : list (nat * V)) : option V :=
  match d with
  | [] => None
  | (k', v) :: d' => if Nat.eqb k k' then Some v else assoc_get k d'
  end.

Fixpoint assoc_set {V} (k : nat) (v : V) (d : list (nat * V)) : list (nat * V) :=
  match d with
  | [] => [(k, v)]
  | (k', v') :: d' =>
      if Nat.eqb k k' then (k', v) :: d' else (k', v') :: assoc_set k v d'
  end.

(** [self._cache.get(self.dependency)] *)
Definition cache_get (obj fn : nat) : M.t (option Value.t) :=
  s <- M.get ;; M.ret (assoc_get fn (cache_of s obj)).

(** [self._cache[self.dependency] = v] *)
Definition cache_set (obj fn : nat) (v : Value.t) : M.t unit :=
  M.modify (fun s =>
    Store.set_dep_caches (fun m => <[obj := assoc_set fn v (cache_of s obj)]> m) s).

Definition has_default {D} (d : default_ D) : bool :=
  match d with NoDefault => false | _ => true end.

(** The loop over [sig.parameters.items()] that fills [kwargs];
    [resolve] is [await param.default(request)]. *)
Fixpoint build_kwargs {D} (resolve : D -> M.t Value.t) (request : Request.t)
    (parameters : list (string * default_ D)) : M.t (list (string * Value.t)) :=
  match parameters with
  | [] => M.ret []
  | (param_name, dflt) :: rest =>
      if String.eqb param_name "request" then
        kwargs <- build_kwargs resolve request rest ;;
        M.ret ((param_name, Value.TheRequest request) :: kwargs)
      else
        match dflt with
        | DependsDefault d =>
            v <- resolve d ;;
            kwargs <- build_kwargs resolve request rest ;;
            M.ret ((param_name, v) :: kwargs)
        | _ => build_kwargs resolve request rest
        end
  end.

(** [self.dependency(kwargs)], awaited when it is a coroutine function. *)
Definition invoke {D} (fn : nat) (parameters : list (string * default_ D))
    (body : list (string * Value.t) -> M.t Value.t)
    (kwargs : list (string * Value.t)) : M.t Value.t :=
  if binds (map (fun p => (fst p, has_default (snd p))) parameters) kwargs
  then enter fn kwargs ;; body kwargs
  else M.raise (Exn.Other "TypeError" "dependency arguments do not bind").

(** [await self(request)] *)
Fixpoint call (self : t) (request : Request.t) : M.t Value.t :=
  match self with
  | mk obj fn parameters body =>
      cached <- cache_get obj fn ;;
      match cached with
      | Some v => M.ret v
      | None =>
          kwargs <- build_kwargs (fun d => call d request) request parameters ;;
          result <- invoke fn parameters body kwargs ;;
          cache_set obj fn result ;;
          M.ret result
      end
  end.

End Depends.

Module Route.

(** A converter stored by [_compile]; [None] is a raised [ValueError]. *)
Definition converter : Type := string -> option PathValue.t.

Definition converter_of (type_ : Annotation.t) : converter :=
  match type_ with
  | Annotation.Int => fun x => PathValue.Int <$> PyParse.int x
  | Annotation.Float => fun x => PathValue.Float <$> PyParse.float x
  | Annotation.Bool => fun x => Some (PathValue.Bool (String.eqb (Py.lower x) "true"))
  | _ => fun x => Some (PathValue.Str x)
  end.

(** The slots of a [Route]; [response_model] and [metadata] serve the
    documentation generator only and are left out. *)
Record t := mk {
  path : string;
  handler : Handler.t;
  methods : list string;
  param_types : list (string * Annotation.t);
  name : string;
  version : option string;
  dependencies : list Depends.t;
  rate_limit : option RateLimit.t;
  csrf_protect : bool;
  secure_headers : bool;
  _compiled_regex : string -> option (list (string * string));
  _param_converters : list (string * converter);
  _needs_request : bool
}.

(** The constructor, with [_compile]. [param_types] is first completed
    from the type hints of the handler's parameters (a hint for the
    return value, which would add the name [return], is not modelled).
    [None]: [re.compile] raised, or the template is outside [PathRegex]. *)
Definition init (path : string) (handler : Handler.t) (methods : list string)
    (param_types : list (string * Annotation.t))
    (dependencies : list Depends.t) (rate_limit : option RateLimit.t) : option t :=
  let hinted :=
    List.filter
      (fun p => negb (Annotation.is_empty (Handler.annotation p)) &&
                negb (bool_decide (Handler.name p ∈ ["request"; "ctx"])))
      (Handler.parameters handler) in
  let param_types :=
    fold_left
      (fun acc p =>
         match Py.dict_get (Handler.name p) acc with
         | Some _ => acc
         | None => Py.dict_set (Handler.name p) (Handler.annotation p) acc
         end)
      hinted param_types in
  regex ← PathRegex.compile param_types.*1 path;
  Some {|
    path := path;
    handler := handler;
    methods := methods;
    param_types := param_types;
    name := Handler.__name__ handler;
    version := None;
    dependencies := dependencies;
    rate_limit := rate_limit;
    csrf_protect := false;
    secure_headers := true;
    _compiled_regex := regex;
    _param_converters := map (fun nt => (fst nt, converter_of (snd nt))) param_types;
    _needs_request :=
      Handler.has_parameter handler "request" || Handler.has_parameter handler "ctx"
  |}.

(** The loop of [match] over [match.groupdict().items()]. *)
Fixpoint convert (converters : list (string * converter))
    (groups : list (string * string)) (params : list (string * PathValue.t))
  : option (list (string * PathValue.t)) :=
  match groups with
  | [] => Some params
  | (name, value) :: rest =>
      match Py.dict_get name converters with
      | Some converter =>
          match converter value with
          | Some v => convert converters rest (Py.dict_set name v params)
          | None => None
          end
      | None => convert converters rest (Py.dict_set name (PathValue.Str value) params)
      end
  end.

(** [match(path)]: the converted parameters, or [None]. *)
Definition match_ (self : t) (path : string) : option (list (string * PathValue.t)) :=
  match _compiled_regex self path with
  | None => None
  | Some groups => convert (_param_converters self) groups []
  end.

End Route.

(** ** routing.py: [Router] *)

Module Router.

(** The slots of a [Router] that dispatch reads ([logger] and the unused
    [_path_tree] are left out). *)
Record t := mk {
  routes : list Route.t;
  prefix : string;
  version : option string;
  _method_routes : gmap string (list Route.t)
}.

Definition init (prefix : string) (version : option string) : t :=
  mk [] prefix version ∅.

Definition add_route (route : Route.t) (self : t) : t :=
  mk (routes self ++ [route]) (prefix self) (version self)
     (fold_left
        (fun index method => <[method := default [] (index !! method) ++ [route]]> index)
        (Route.methods route) (_method_routes self)).

(** The first loop of [handle_request]: the first candidate whose
    [match] is not [None]. *)
Fixpoint first_match (candidates : list Route.t) (path : string)
  : option (Route.t * list (string * PathValue.t)) :=
  match candidates with
  | [] => None
  | route :: rest =>
      match Route.match_ route path with
      | Some route_params => Some (route, route_params)
      | None => first_match rest path
      end
  end.

(** [if route.match(path):] -- the truth value of the result: [None] and
    the empty dict are both false. *)
Definition truthy {A} (result : option (list A)) : bool :=
  match result with
  | Some (_ :: _) => true
  | _ => false
  end.

(** [allowed_methods.update(methods)] on a set, kept as a duplicate-free
    list in order of first insertion (Python leaves the iteration order
    of a set open; the properties below speak of membership only). *)
Definition set_update (methods : list string) (set : list string) : list string :=
  fold_left (fun acc m => if bool_decide (m ∈ acc) then acc else acc ++ [m]) methods set.

(** The second loop of [handle_request]. *)
Definition allowed_methods (self : t) (path : string) : list string :=
  fold_left
    (fun acc route =>
       if truthy (Route.match_ route path) then set_update (Route.methods route) acc
       else acc)
    (routes self) [].

Definition _extract_body_params (request : Request.t)
    (validate : string -> Json.t + string) : M.t Value.t :=
  match validate (Request.body request) with
  | inl model => M.ret (Value.Data model)
  | inr detail => M.raise (Exn.ValidationError detail)
  end.

(** The loop that adds the body parameters for models. *)
Fixpoint add_body_params (request : Request.t) (parameters : list Handler.param)
    (handler_params : list (string * Value.t)) : M.t (list (string * Value.t)) :=
  match parameters with
  | [] => M.ret handler_params
  | p :: rest =>
      if bool_decide (is_Some (Py.dict_get (Handler.name p) handler_params))
      then add_body_params request rest handler_params
      else
        match Handler.annotation p with
        | Annotation.Model validate =>
            v <- _extract_body_params request validate ;;
            add_body_params request rest (Py.dict_set (Handler.name p) v handler_params)
        | Annotation.NotAClass =>
            M.raise (Exn.Other "TypeError" "issubclass() arg 1 must be a class")
        | _ => add_body_params request rest handler_params
        end
  end.

(** [request.path_params = params] *)
Definition set_path_params (request : Request.t)
    (params : list (string * PathValue.t)) : M.t unit :=
  M.modify (Store.set_path_params (fun m => <[Request.id request := params]> m)).

(** "Process the matched route": the tail of [handle_request]. *)
Definition process (matched_route : Route.t) (params : list (string * PathValue.t))
    (request : Request.t) : M.t nat :=
  set_path_params request params ;;
  let handler := Route.handler matched_route in
  M.try_
    (let handler_params :=
       Py.dict_update (map (fun kv => (fst kv, Value.Path (snd kv))) params) [] in
     let handler_params :=
       if Handler.has_parameter handler "ctx"
       then Py.dict_set "ctx" (Value.Context request) handler_params
       else if Handler.has_parameter handler "request"
       then Py.dict_set "request" (Value.TheRequest request) handler_params
       else handler_params in
     handler_params <-
       add_body_params request (Handler.parameters handler) handler_params ;;
     Handler.call handler handler_params)
    (fun e =>
       match e with
       | Exn.ValidationError _ =>
           Response.JSONResponse (Json.Obj [("error", Json.Str (Exn.str e))]) 422 []
       | _ => M.raise e
       end).

Definition normalize (path : string) : string :=
  let path := Py.rstrip "/" path in
  if String.eqb path "" then "/" else path.

Definition handle_request (self : t) (request : Request.t) : M.t nat :=
  let path := normalize (Request.path request) in
  let method_routes := default [] (_method_routes self !! Request.method request) in
  match first_match method_routes path with
  | None =>
      let allowed_methods := allowed_methods self path in
      match allowed_methods with
      | _ :: _ =>
          Response.JSONResponse
            (Json.Obj [("error", Json.Str "Method Not Allowed");
                       ("allowed_methods", Json.List (map Json.Str allowed_methods))])
            405
            [("Allow", Py.join ", " allowed_methods)]
      | [] => Response.JSONResponse (Json.Obj [("error", Json.Str "Not Found")]) 404 []
      end
  | Some (matched_route, params) => process matched_route params request
  end.

End Router.

(** ** middleware.py *)

Module Middleware.

(** A middleware object: [await self(request, call_next)]. *)
Record t := mk {
  call : Request.t -> (Request.t -> M.t nat) -> M.t nat
}.

Definition BaseMiddleware : t :=
  mk (fun request call_next => call_next request).

End Middleware.

(** ** plugins.py *)

Module Plugin.
(** The four hooks of the [Plugin] protocol. *)
Record t := mk {
  pre_request : Request.t -> M.t unit;
  post_request : Request.t -> nat -> M.t unit;
  on_startup : M.t unit;
  on_shutdown : M.t unit
}.
End Plugin.

Module PluginManager.

Record t := mk { plugins : list Plugin.t }.

Definition init : t := mk [].

Definition register (plugin : Plugin.t) (self : t) : t :=
  mk (plugins self ++ [plugin]).

(** [except Exception as e:] log, print the traceback, go on. *)
Definition swallow (m : M.t unit) : M.t unit :=
  M.try_ m (fun _ => M.ret tt).

Definition run_pre_request (self : t) (request : Request.t) : M.t unit :=
  M.for_each (plugins self) (fun plugin => swallow (Plugin.pre_request plugin request)).

Definition run_post_request (self : t) (request : Request.t) (response : nat) : M.t unit :=
  M.for_each (plugins self)
             (fun plugin => swallow (Plugin.post_request plugin request response)).

Definition startup (self : t) : M.t unit :=
  M.for_each (plugins self) (fun plugin => swallow (Plugin.on_startup plugin)).

Definition shutdown (self : t) : M.t unit :=
  M.for_each (plugins self) (fun plugin => swallow (Plugin.on_shutdown plugin)).

End PluginManager.

Module SecurityPlugin.

Record t := mk {
  allowed_hosts : list string;
  max_content_length : Z;
  secure_headers : bool
}.

(** [allowed_hosts or ["*"]]; the default length limit is one mebibyte. *)
Definition init (allowed_hosts : list string) (max_content_length : Z)
    (secure_headers : bool) : t :=
  mk (match allowed_hosts with [] => ["*"] | _ => allowed_hosts end)
     max_content_length secure_headers.

Definition pre_request (self : t) (request : Request.t) : M.t unit :=
  let host := default "" (Py.dict_get "host" (Request.headers request)) in
  if negb (bool_decide ("*" ∈ allowed_hosts self)) &&
     negb (bool_decide (host ∈ allowed_hosts self))
  then M.raise (Exn.PluginError ("Host not allowed: " +:+ host))
  else
    content_length <-
      match Py.dict_get "content-length" (Request.headers request) with
      | None => M.ret 0%Z
      | Some text =>
          match PyParse.int text with
          | Some n => M.ret n
          | None => M.raise (Exn.Other "ValueError" "invalid literal for int()")
          end
      end ;;
    if (max_content_length self <? content_length)%Z
    then M.raise (Exn.PluginError "Content too large")
    else M.ret tt.

Definition security_headers : list (string * string) :=
  [("X-Content-Type-Options", "nosniff");
   ("X-Frame-Options", "DENY");
   ("X-XSS-Protection", "1; mode=block");
   ("Strict-Transport-Security", "max-age=31536000; includeSubDomains");
   ("Content-Security-Policy", "default-src 'self'")].

Definition post_request (self : t) (request : Request.t) (response : nat) : M.t unit :=
  if secure_headers self then
    view <- Response.headers response ;;
    CaseInsensitiveDict.update view security_headers
  else M.ret tt.

(** The object as a plugin; the start and stop hooks are the protocol's
    empty ones. *)
Definition plugin (self : t) : Plugin.t :=
  Plugin.mk (pre_request self) (post_request self) (M.ret tt) (M.ret tt).

End SecurityPlugin.

(** ** application.py *)

Module Application.

(** A function registered with [on_event]. *)
Record event_handler := mk_event_handler {
  handler_id : nat;
  run : M.t unit
}.

(** An externally supplied resource manager: [__aenter__], [__aexit__]. *)
Record lifespan_manager := mk_lifespan_manager {
  aenter : M.t unit;
  aexit : M.t unit
}.

(** The attributes the lifecycle and the dispatch read ([title],
    [version] and the [state] dict are left out). *)
Record t := mk {
  middleware : list Middleware.t;
  router : option Router.t;
  debug : bool;
  _lifespan_manager : option lifespan_manager;
  _startup_complete : bool;
  _shutdown_complete : bool;
  _startup_handlers : list event_handler;
  _shutdown_handlers : list event_handler;
  plugin_manager : option PluginManager.t;
  _plugins_enabled : bool
}.

Definition init (debug enable_plugins : bool) : t :=
  mk [] None debug None false false [] []
     (if enable_plugins then Some PluginManager.init else None) enable_plugins.

Definition set_startup_complete (self : t) : t :=
  mk (middleware self) (router self) (debug self) (_lifespan_manager self)
     true (_shutdown_complete self) (_startup_handlers self) (_shutdown_handlers self)
     (plugin_manager self) (_plugins_enabled self).

Definition set_shutdown_complete (self : t) : t :=
  mk (middleware self) (router self) (debug self) (_lifespan_manager self)
     (_startup_complete self) true (_startup_handlers self) (_shutdown_handlers self)
     (plugin_manager self) (_plugins_enabled self).

Definition add_middleware (m : Middleware.t) (self : t) : t :=
  mk (middleware self ++ [m]) (router self) (debug self) (_lifespan_manager self)
     (_startup_complete self) (_shutdown_complete self)
     (_startup_handlers self) (_shutdown_handlers self)
     (plugin_manager self) (_plugins_enabled self).

Definition set_router (r : Router.t) (self : t) : t :=
  mk (middleware self) (Some r) (debug self) (_lifespan_manager self)
     (_startup_complete self) (_shutdown_complete self)
     (_startup_handlers self) (_shutdown_handlers self)
     (plugin_manager self) (_plugins_enabled self).

(** [on_event(event_type)(func)]; [None] is the [ValueError] for an
    unknown event type. *)
Definition on_event (event_type : string) (func : event_handler) (self : t) : option t :=
if String.eqb event_type "startup" then
  Some (mk (middleware self) (router self) (debug self) (_lifespan_manager self)
          (_startup_complete self) (_shutdown_complete self)
          (_startup_handlers self ++ [func]) (_shutdown_handlers self)
          (plugin_manager self) (_plugins_enabled self))
else if String.eqb event_type "shutdown" then
  Some (mk (middleware self) (router self) (debug self) (_lifespan_manager self)
          (_startup_complete self) (_shutdown_complete self)
          (_startup_handlers self) (_shutdown_handlers self ++ [func])
          (plugin_manager self) (_plugins_enabled self))
else None.

(** [register_plugin]; [None] is the [RuntimeError] raised when plugins
    are disabled. *)
Definition register_plugin (plugin : Plugin.t) (self : t) : option t :=
  if _plugins_enabled self then
    Some (mk (middleware self) (router self) (debug self) (_lifespan_manager self)
            (_startup_complete self) (_shutdown_complete self)
            (_startup_handlers self) (_shutdown_handlers self)
            (PluginManager.register plugin <$> plugin_manager self)
            (_plugins_enabled self))
  else None.

(** [except Exception as e:] log, then [raise]. *)
Definition logged {A} (m : M.t A) : M.t A := M.try_ m (fun e => M.raise e).

(** [except Exception as e:] log, and go on. *)
Definition swallow (m : M.t unit) : M.t unit := M.try_ m (fun _ => M.ret tt).

(** [handler()], awaited when it is a coroutine function. *)
Definition run_handler (h : event_handler) : M.t unit :=
  enter (handler_id h) [] ;; run h.

(** [self.plugin_manager.<hook>(...)] *)
Definition with_plugin_manager (self : t) (hook : PluginManager.t -> M.t unit) : M.t unit :=
  match plugin_manager self with
  | Some manager => hook manager
  | None => M.raise (Exn.Other "AttributeError" "'NoneType' object has no attribute")
  end.

(** [startup()]: the application object as the call leaves it. *)
Definition startup (self : t) : M.t t :=
  if _startup_complete self then M.ret self
  else
    logged
      (M.for_each (_startup_handlers self) (fun handler => logged (run_handler handler)) ;;
       (if _plugins_enabled self then with_plugin_manager self PluginManager.startup
        else M.ret tt) ;;
       match _lifespan_manager self with
       | Some manager => logged (aenter manager)
       | None => M.ret tt
       end ;;
       M.ret (set_startup_complete self)).

(** [shutdown()]: the application object as the call leaves it. *)
Definition shutdown (self : t) : M.t t :=
  if _shutdown_complete self then M.ret self
  else
    logged
      (M.for_each (_shutdown_handlers self) (fun handler => swallow (run_handler handler)) ;;
       (if _plugins_enabled self then with_plugin_manager self PluginManager.shutdown
        else M.ret tt) ;;
       match _lifespan_manager self with
       | Some manager => swallow (aexit manager)
       | None => M.ret tt
       end ;;
       M.ret (set_shutdown_complete self)).

(** The loop over [reversed(self.middleware)]: each middleware is called
    with a [call_next] that returns the response computed so far. *)
Fixpoint apply_middleware (reversed : list Middleware.t) (request : Request.t)
    (response : nat) : M.t nat :=
  match reversed with
  | [] => M.ret response
  | middleware :: rest =>
      response' <- logged (Middleware.call middleware request (fun _ => M.ret response)) ;;
      apply_middleware rest request response'
  end.

Definition status_of (e : Exn.t) : Z :=
  match e with
  | Exn.ValidationError _ => 422
  | Exn.HTTPException status _ _ _ => status
  | _ => 500
  end.

Definition detail_of (e : Exn.t) : string :=
  match e with
  | Exn.HTTPException _ detail _ _ => detail
  | Exn.ValidationError detail => if String.eqb detail "" then "An error occurred" else detail
  | Exn.PluginError detail => detail
  | Exn.Other _ msg => msg
  end.

Definition headers_of (e : Exn.t) : list (string * string) :=
  match e with
  | Exn.HTTPException _ _ headers _ => headers
  | _ => []
  end.

Definition handle_request (self : t) (request : Request.t) : M.t nat :=
  M.try_
    (router <-
       match router self with
       | Some r => M.ret r
       | None => M.raise (Exn.Other "AttributeError" "'NoneType' object has no attribute")
       end ;;
     response <- Router.handle_request router request ;;
     apply_middleware (rev (middleware self)) request response)
    (fun e =>
       if Exn.is_http e then
         Response.JSONResponse
           (Json.Obj [("error", Json.Str (detail_of e));
                      ("status_code", Json.Int (status_of e))])
           (status_of e) (headers_of e)
       else
         M.raise (Exn.InternalServerError (if debug self then Some (Exn.str e) else None))).

(** [_handle_http] for the request built from [scope] and [receive]. *)
Definition _handle_http (self : t) (request : Request.t) : M.t unit :=
  M.try_
    ((if _plugins_enabled self
      then with_plugin_manager self (fun m => PluginManager.run_pre_request m request)
      else M.ret tt) ;;
     response <- handle_request self request ;;
     (if _plugins_enabled self
      then with_plugin_manager self (fun m => PluginManager.run_post_request m request response)
      else M.ret tt) ;;
     Response.call response)
    (fun e =>
       error_response <-
         Response.JSONResponse
           (Json.Obj [("error", Json.Str (if debug self then Exn.str e
                                          else "Internal Server Error"));
                      ("status_code", Json.Int 500);
                      ("path", Json.Str (Request.path request))])
           500 [] ;;
       Response.call error_response).

End Application.

(** ** Vocabulary of the properties *)

(** What a holder of a [CaseInsensitiveDict] can do with it. *)
Module ViewOp.

Inductive t :=
| SetItem (key value : string)
| Update (other : list (string * string))
| GetItem (key : string)
| Get (key : string)
| Contains (key : string).

Definition run (view : nat) (op : t) : M.t unit :=
  match op with
  | SetItem key value => CaseInsensitiveDict.setitem view key value
  | Update other => CaseInsensitiveDict.update view other
  | GetItem key => _ <- CaseInsensitiveDict.getitem view key ;; M.ret tt
  | Get key => _ <- CaseInsensitiveDict.get view key ;; M.ret tt
  | Contains key => _ <- CaseInsensitiveDict.contains view key ;; M.ret tt
  end.

(** The operations one after the other, whatever each one returns or
    raises. *)
Fixpoint run_all (view : nat) (ops : list t) (s : Store.t) : Store.t :=
  match ops with
  | [] => s
  | op :: rest => run_all view rest (snd (run view op s))
  end.

End ViewOp.

(** A router with the given routes registered in order. *)
Definition registered (routes : list Route.t) : Router.t :=
  fold_left (fun router route => Router.add_route route router) routes (Router.init "" None).

(** The pattern and the methods of a route both match a request. *)
Definition accepts (route : Route.t) (request : Request.t) : Prop :=
  Request.method request ∈ Route.methods route /\
  is_Some (Route.match_ route (Router.normalize (Request.path request))).

(** [self._method_routes.get(method, [])] *)
Definition method_list (router : Router.t) (method : string) : list Route.t :=
  default [] (Router._method_routes router !! method).

(** What registering [route] adds under [method]: one entry per
    occurrence of [method] among the route's methods. *)
Definition occurrences (method : string) (route : Route.t) : list Route.t :=
  flat_map (fun m => if decide (m = method) then [route] else []) (Route.methods route).

Definition candidates (method : string) (routes : list Route.t) : list Route.t :=
  flat_map (occurrences method) routes.

(** A route with its rate limit, or its dependency list, taken away. *)
Definition without_rate_limit (r : Route.t) : Route.t :=
  Route.mk (Route.path r) (Route.handler r) (Route.methods r) (Route.param_types r)
    (Route.name r) (Route.version r) (Route.dependencies r) None
    (Route.csrf_protect r) (Route.secure_headers r)
    (Route._compiled_regex r) (Route._param_converters r) (Route._needs_request r).


(** A middleware that appends [marker] to the header [header] of the
    response it gets from [call_next]:
      [response = await call_next(request)]
      [old = response.headers.get(header)]
      [response.add_header(header, marker if old is None else old + "," + marker)]
      [return response] *)
Definition append_marker (header marker : string) : Middleware.t :=
  Middleware.mk (fun request call_next =>
    response <- call_next request ;;
    view <- Response.headers response ;;
    old <- CaseInsensitiveDict.get view header ;;
    Response.add_header response header
      (match old with
       | None => marker
       | Some value => value +:+ "," +:+ marker
       end) ;;
    M.ret response).

(** ** Fixtures: the applications of the test suite *)

Module Fixture.

(** The object a call that did not raise returns. *)
Definition built {A} (o : option A) : is_Some o -> A :=
match o with
| Some a => fun _ => a
| None => fun H => False_rect _ (is_Some_None H)
end.

(** [async def home(): return JSONResponse({"status": "ok"})] *)
Definition home : Handler.t :=
Handler.mk 1 "home" []
  (fun _ => Response.JSONResponse (Json.Obj [("status", Json.Str "ok")]) 200 []).

(** [async def get_item(item_id: int): return JSONResponse({"id": item_id})] *)
Definition get_item : Handler.t :=
Handler.mk 2 "get_item" [Handler.mk_param "item_id" Annotation.Int false]
  (fun kwargs =>
     match Py.dict_get "item_id" kwargs with
     | Some (Value.Path (PathValue.Int n)) =>
         Response.JSONResponse (Json.Obj [("id", Json.Int n)]) 200 []
     | _ => M.raise (Exn.Other "TypeError" "item_id")
     end).

(** [async def search(item_id: str): return JSONResponse({"query": item_id})] *)
Definition search : Handler.t :=
Handler.mk 3 "search" [Handler.mk_param "item_id" Annotation.Str false]
  (fun kwargs =>
     match Py.dict_get "item_id" kwargs with
     | Some (Value.Path (PathValue.Str q)) =>
         Response.JSONResponse (Json.Obj [("query", Json.Str q)]) 200 []
     | _ => M.raise (Exn.Other "TypeError" "item_id")
     end).

(** [Route("/", home, ["GET"])] *)
Definition home_route : Route.t :=
built (Route.init "/" home ["GET"] [] [] None) ltac:(vm_compute; eauto).

(** [Route("/items/{item_id:int}", get_item, ["GET"])] *)
Definition items_route : Route.t :=
built (Route.init "/items/{item_id:int}" get_item ["GET"] [] [] None)
      ltac:(vm_compute; eauto).

(** The same path again, for a string parameter:
    [Route("/items/{item_id}", search, ["GET"])] *)
Definition search_route : Route.t :=
built (Route.init "/items/{item_id}" search ["GET"] [] [] None)
      ltac:(vm_compute; eauto).

(** A route limited to one request per minute:
    [Route("/limited", home, ["GET"], rate_limit=RateLimit(1, 60))] *)
Definition one_per_minute : RateLimit.t := RateLimit.mk 1 60 "ip".

Definition limited_route : Route.t :=
built (Route.init "/limited" home ["GET"] [] [] (Some one_per_minute))
      ltac:(vm_compute; eauto).





Definition request (id : nat) (method path : string)
    (headers : list (string * string)) : Request.t :=
Request.mk id method path headers "" "".

(** [app = Application(enable_plugins=True)], the home route, and
    [app.register_plugin(SecurityPlugin(allowed_hosts=["example.com"]))]. *)
Definition security : SecurityPlugin.t :=
SecurityPlugin.init ["example.com"] 1048576 true.

Definition guarded_app : Application.t :=
built (Application.register_plugin (SecurityPlugin.plugin security)
         (Application.set_router (registered [home_route])
            (Application.init false true)))
      ltac:(vm_compute; eauto).

(** An application with one startup and one shutdown handler, registered
    with [on_event]. *)
Definition on_startup : Application.event_handler :=
Application.mk_event_handler 20 (M.ret tt).

Definition on_shutdown : Application.event_handler :=
Application.mk_event_handler 21 (M.ret tt).

Definition lifecycle_app : Application.t :=
built (Application.on_event "startup" on_startup
         (Application.set_router (registered [home_route]) (Application.init true true))
       ≫= Application.on_event "shutdown" on_shutdown)
      ltac:(eexists; reflexivity).

(** An application with the middlewares A and B added in that order, both
    appending to the header [X-Trace]. *)
Definition traced_app : Application.t :=
Application.add_middleware (append_marker "X-Trace" "B")
  (Application.add_middleware (append_marker "X-Trace" "A")
     (Application.set_router (registered [home_route]) (Application.init false false))).

End Fixture.

(** ** Further code of the same files *)

(** More of [str]: [upper], and [strip] and [lstrip] for one character. *)
Module PyStr.

Definition upper_ascii (c : ascii) : ascii :=
  let n := nat_of_ascii c in
  if (97 <=? n)%nat && (n <=? 122)%nat then ascii_of_nat (n - 32) else c.

(** [str.upper()], on the ASCII letters. *)
Definition upper : string -> string := Py.map_string upper_ascii.

(** [s.lstrip(c)] *)
Fixpoint lstrip (c : ascii) (s : string) : string :=
  match s with
  | String a s' => if Ascii.eqb a c then lstrip c s' else s
  | EmptyString => EmptyString
  end.

(** [s.strip(c)] *)
Definition strip (c : ascii) (s : string) : string := Py.rstrip c (lstrip c s).

End PyStr.

(** routing.py: [Router._build_path] and the decorator [Router.route]. *)
Module Registration.

(** [_build_path(path)] *)
Definition _build_path (self : Router.t) (path : string) : string :=
  let parts :=
    match Router.version self with
    | Some v => if String.eqb v "" then [] else ["/v" +:+ v]
    | None => []
    end ++
    (if String.eqb (Router.prefix self) "" then []
     else [PyStr.strip "/" (Router.prefix self)]) ++
    [PyStr.lstrip "/" path] in
  "/" +:+ Py.join "/" (List.filter (fun part => negb (String.eqb part "")) parts).

(** The [param_types] the decorator collects from the signature: every
    parameter but [request] and [ctx], with [str] for a missing
    annotation. *)
Definition signature_types (handler : Handler.t) : list (string * Annotation.t) :=
  fold_left
    (fun acc p =>
       if bool_decide (Handler.name p ∈ ["request"; "ctx"]) then acc
       else Py.dict_set (Handler.name p)
              (if Annotation.is_empty (Handler.annotation p) then Annotation.Str
               else Handler.annotation p)
              acc)
    (Handler.parameters handler) [].

(** [methods or ["GET"]], uppercased. *)
Definition route_methods (methods : list string) : list string :=
  map PyStr.upper (match methods with [] => ["GET"] | _ => methods end).

(** [self.route(path, methods, name, dependencies, rate_limit)(handler)]:
    the router after the decoration; [None] when [Route(...)] raises. *)
Definition route (path : string) (methods : list string) (name : option string)
    (dependencies : list Depends.t) (rate_limit : option RateLimit.t)
    (handler : Handler.t) (self : Router.t) : option Router.t :=
  r ← Route.init (_build_path self path) handler (route_methods methods)
         (signature_types handler) dependencies rate_limit;
  Some (Router.add_route
          (Route.mk (Route.path r) (Route.handler r) (Route.methods r)
             (Route.param_types r)
             (match name with
              | Some n => if String.eqb n "" then Handler.__name__ handler else n
              | None => Handler.__name__ handler
              end)
             (Router.version self) (Route.dependencies r) (Route.rate_limit r)
             (Route.csrf_protect r) (Route.secure_headers r)
             (Route._compiled_regex r) (Route._param_converters r)
             (Route._needs_request r))
          self).

(** [self.get(path)(handler)] *)
Definition get (path : string) (handler : Handler.t) (self : Router.t) : option Router.t :=
  route path ["GET"] None [] None handler self.

(** [self.post(path)(handler)] *)
Definition post (path : string) (handler : Handler.t) (self : Router.t) : option Router.t :=
  route path ["POST"] None [] None handler self.

End Registration.

(** middleware.py: [CORSMiddleware]. *)
Module CORSMiddleware.

Record t := mk { allow_origins : list string }.

(** [allow_origins or ["*"]] *)
Definition init (allow_origins : list string) : t :=
  mk (match allow_origins with [] => ["*"] | _ => allow_origins end).

(** The first header of the scope named [origin], in any case. *)
Definition origin_of (request : Request.t) : option string :=
  snd <$> List.find (fun kv => String.eqb (Py.lower (fst kv)) "origin")
                    (Request.scope_headers request).

Definition call (self : t) (request : Request.t) (call_next : Request.t -> M.t nat)
  : M.t nat :=
  response <- call_next request ;;
  let origin := origin_of request in
  if String.eqb (Request.method request) "OPTIONS" then
    Response.add_header response "access-control-allow-origin"
      (if bool_decide ("*" ∈ allow_origins self) then "*" else default "" origin) ;;
    Response.add_header response "access-control-allow-methods"
      "GET, POST, PUT, DELETE, PATCH, OPTIONS" ;;
    Response.add_header response "access-control-allow-headers"
      "Content-Type, Authorization" ;;
    Response.add_header response "access-control-max-age" "3600" ;;
    M.ret response
  else if bool_decide ("*" ∈ allow_origins self) then
    Response.add_header response "access-control-allow-origin" "*" ;;
    M.ret response
  else
    match origin with
    | Some o =>
        if negb (String.eqb o "") && bool_decide (o ∈ allow_origins self) then
          Response.add_header response "access-control-allow-origin" o ;;
          Response.add_header response "vary" "Origin" ;;
          M.ret response
        else M.ret response
    | None => M.ret response
    end.

Definition middleware (self : t) : Middleware.t := Middleware.mk (call self).

End CORSMiddleware.

(** plugins.py: [CachePlugin]. The plugin object is passed and returned:
    [post_request] gives the object as the call leaves it. *)
Module CachePlugin.

Record t := mk {
  cache : list (string * nat);      (* key -> response, in insertion order *)
  max_size : Z
}.

Definition init (max_size : Z) : t := mk [] max_size.

Definition _get_cache_key (request : Request.t) : string :=
  Request.method request +:+ ":" +:+ Request.path request.

(** A hit assigns to [request.state], an attribute a [Request] does not
    have: [AttributeError]. *)
Definition pre_request (self : t) (request : Request.t) : M.t unit :=
  if String.eqb (Request.method request) "GET" then
    if bool_decide (is_Some (Py.dict_get (_get_cache_key request) (cache self)))
    then M.raise (Exn.Other "AttributeError" "'Request' object has no attribute 'state'")
    else M.ret tt
  else M.ret tt.

(** [self.cache.pop(next(iter(self.cache)))]; on an empty dict [next]
    raises [StopIteration], which leaves the coroutine as a
    [RuntimeError]. *)
Definition pop_first (cache : list (string * nat)) : M.t (list (string * nat)) :=
  match cache with
  | [] => M.raise (Exn.Other "RuntimeError" "coroutine raised StopIteration")
  | _ :: rest => M.ret rest
  end.

Definition post_request (self : t) (request : Request.t) (response : nat) : M.t t :=
  if String.eqb (Request.method request) "GET" then
    status <- Response.status_code response ;;
    if (status =? 200)%Z then
      let key := _get_cache_key request in
      cache1 <-
        (if (max_size self <=? Z.of_nat (length (cache self)))%Z
         then pop_first (cache self)
         else M.ret (cache self)) ;;
      M.ret (mk (Py.dict_set key response cache1) (max_size self))
    else M.ret self
  else M.ret self.

End CachePlugin.

(** requests.py: [Request.body]. [receive] is the list of the messages it
    will deliver; awaiting it when none is left does not return, which is
    [None] here. *)
Module RequestBody.

(** An [http.request] message: [message.get("body")] and
    [message.get("more_body")]. *)
Record message := mk_message {
  chunk : option string;
  more_body : option bool
}.

Record t := mk {
  incoming : list message;
  _body : option string
}.

(** The [while more_body] loop. *)
Fixpoint read (incoming : list message) (body : string)
  : option (string * list message) :=
  match incoming with
  | [] => None
  | m :: rest =>
      let body := body +:+ default "" (chunk m) in
      if default false (more_body m) then read rest body else Some (body, rest)
  end.

(** The chunks of the messages, one after the other. *)
Definition joined (messages : list message) : string :=
  fold_right (fun m rest => default "" (chunk m) +:+ rest) "" messages.

(** [await self.body()]: the bytes, and the request as the call leaves it. *)
Definition body (self : t) : option (string * t) :=
  match _body self with
  | Some b => Some (b, self)
  | None =>
      match read (incoming self) "" with
      | Some (b, rest) => Some (b, mk rest (Some b))
      | None => None
      end
  end.

End RequestBody.

(** The keys of a header dict are lowercase and pairwise distinct. *)
Definition well_formed_headers (headers : list (string * string)) : Prop :=
  Forall (fun kv => Py.lower (fst kv) = fst kv) headers /\ NoDup headers.*1.





(** Sample handlers for the properties of the second part. *)
Module Sample.

(** A body model with a required field, which the empty object lacks. *)
Definition item_model (body : string) : Json.t + string :=
  if String.eqb body "{}" then inr "Field required" else inl (Json.Obj [("name", Json.Str body)]).

(** [async def create_item(item: Item): return JSONResponse({"created": True}, 201)] *)
Definition create_item : Handler.t :=
Handler.mk 30 "create_item" [Handler.mk_param "item" (Annotation.Model item_model) false]
  (fun _ => Response.JSONResponse (Json.Obj [("created", Json.Bool true)]) 201 []).

Definition create_route : Route.t :=
Fixture.built (Route.init "/items" create_item ["POST"] [] [] None) ltac:(vm_compute; eauto).

(** [async def failing(): raise ValueError("boom")] *)
Definition failing : Handler.t :=
Handler.mk 31 "failing" [] (fun _ => M.raise (Exn.Other "ValueError" "boom")).

Definition failing_route : Route.t :=
Fixture.built (Route.init "/fail" failing ["GET"] [] [] None) ltac:(vm_compute; eauto).

(** [async def teapot(): raise HTTPException(418, "short and stout", {"X-Pot": "tea"})] *)
Definition teapot : Handler.t :=
Handler.mk 32 "teapot" []
  (fun _ => M.raise (Exn.HTTPException 418 "short and stout" [("X-Pot", "tea")] "418")).

Definition teapot_route : Route.t :=
Fixture.built (Route.init "/teapot" teapot ["GET"] [] [] None) ltac:(vm_compute; eauto).

(** Lifecycle handlers that raise, between two that do not. *)
Definition broken_startup : Application.event_handler :=
Application.mk_event_handler 22 (M.raise (Exn.Other "RuntimeError" "no database")).

Definition broken_shutdown : Application.event_handler :=
Application.mk_event_handler 23 (M.raise (Exn.Other "RuntimeError" "already closed")).

Definition late_startup : Application.event_handler :=
Application.mk_event_handler 24 (M.ret tt).

Definition broken_app : Application.t :=
Fixture.built
  ((((Application.on_event "startup" Fixture.on_startup (Application.init false false)
      ≫= Application.on_event "startup" broken_startup)
     ≫= Application.on_event "startup" late_startup)
    ≫= Application.on_event "shutdown" broken_shutdown)
   ≫= Application.on_event "shutdown" Fixture.on_shutdown)
  ltac:(eexists; reflexivity).

End Sample.

(* ===================================================================== *)
(** * Properties *)
(* ===================================================================== *)

(** ** The embedding on the inputs of the test suite *)

Example int_accepts :
  PyParse.int "123" = Some 123%Z /\ PyParse.int " -1_000 " = Some (-1000)%Z.
Proof. split; reflexivity. Qed.

Example int_rejects :
  PyParse.int "abc" = None /\ PyParse.int "" = None /\ PyParse.int "1__0" = None /\
  PyParse.int "12_" = None /\ PyParse.int "1.5" = None.
Proof. repeat split; reflexivity. Qed.

Example float_accepts_and_rejects :
  PyParse.float "1.5" = Some "1.5" /\ PyParse.float ".5e-3" = Some ".5e-3" /\
  PyParse.float "-Inf" = Some "-Inf" /\ PyParse.float "." = None /\
  PyParse.float "1e" = None /\ PyParse.float "abc" = None.
Proof. repeat split; reflexivity. Qed.

Example home_route_is_built :
  Route.init "/" Fixture.home ["GET"] [] [] None = Some Fixture.home_route.
Proof. reflexivity. Qed.

Example items_route_is_built :
  Route.init "/items/{item_id:int}" Fixture.get_item ["GET"] [] [] None
  = Some Fixture.items_route.
Proof. reflexivity. Qed.

Example items_route_matches :
  Route.match_ Fixture.items_route "/items/123" = Some [("item_id", PathValue.Int 123)] /\
  Route.match_ Fixture.items_route "/items/123/" = Some [("item_id", PathValue.Int 123)] /\
  Route.match_ Fixture.items_route "/items/abc" = None /\
  Route.match_ Fixture.items_route "/items/1/2" = None /\
  Route.match_ Fixture.items_route "/items" = None.
Proof. repeat split; reflexivity. Qed.

Example home_route_matches :
  Route.match_ Fixture.home_route "/" = Some [] /\
  Route.match_ Fixture.home_route "/items" = None.
Proof. split; reflexivity. Qed.

Example normalize_examples :
  Router.normalize "/items/12/" = "/items/12" /\ Router.normalize "/" = "/" /\
  Router.normalize "" = "/" /\ Router.normalize "//" = "/".
Proof. repeat split; reflexivity. Qed.

(** The round trip of the test suite: [GET /items/123] is answered 200
    with [{"id": 123}], the handler entered with the converted parameter. *)
Example get_item_round_trip :
  exists s,
    Router.handle_request (registered [Fixture.home_route; Fixture.items_route])
      (Fixture.request 0 "GET" "/items/123" []) Store.empty = (M.Ok 0, s) /\
    Store.responses s =
      [Store.mk_response (Json.Obj [("id", Json.Int 123)]) 200
         [("content-type", "application/json")]] /\
    Store.calls s = [Store.mk_call 2 [("item_id", Value.Path (PathValue.Int 123))]] /\
    Store.path_params s !! 0 = Some [("item_id", PathValue.Int 123)].
Proof.
  eexists. split; [vm_compute; reflexivity |]. repeat split; reflexivity.
Qed.

Section RateLimiterFacts.
Import RateLimiter.

Variable limit : RateLimit.t.
Variable key : string.

Local Abbreviation n := (RateLimit.requests limit).
Local Abbreviation w := (inject_Z (RateLimit.window limit)).

Lemma Qltb_lt a b : Py.Qltb a b = true <-> (a < b)%Q.
Proof.
  unfold Py.Qltb. rewrite negb_true_iff.
  destruct (Qle_bool b a) eqn:E.
  - apply Qle_bool_iff in E. split; [discriminate | intros H; exfalso; lra].
  - split; [intros _ | reflexivity].
    destruct (Qlt_le_dec a b) as [H | H]; [exact H |].
    apply Qle_bool_iff in H. congruence.
Qed.

Lemma timestamps_insert k l m : timestamps (mk (<[k := l]> m)) k = l.
Proof. unfold timestamps. simpl. by rewrite lookup_insert_eq. Qed.

(** Pruning keeps exactly the timestamps younger than the window. *)
Lemma filter_all_within now (l : list Q) :
  Forall (fun ts => (now - ts < w)%Q) l ->
  List.filter (fun ts => Py.Qltb (now - ts) w) l = l.
Proof.
  induction 1 as [| ts l Hts _ IH]; simpl; [reflexivity |].
  apply Qltb_lt in Hts. rewrite Hts, IH. reflexivity.
Qed.

Lemma filter_none_within now (l : list Q) :
  Forall (fun ts => (w <= now - ts)%Q) l ->
  List.filter (fun ts => Py.Qltb (now - ts) w) l = [].
Proof.
  induction 1 as [| ts l Hts _ IH]; simpl; [reflexivity |].
  destruct (Py.Qltb (now - ts) w) eqn:E; [| exact IH].
  apply Qltb_lt in E. exfalso. lra.
Qed.

Lemma is_allowed_accept now self :
  Forall (fun ts => (now - ts < w)%Q) (timestamps self key) ->
  (Z.of_nat (length (timestamps self key)) < n)%Z ->
  exists self',
    is_allowed now key limit self = (true, self') /\
    timestamps self' key = timestamps self key ++ [now].
Proof.
  intros Hin Hlen. unfold is_allowed. fold w. rewrite filter_all_within by exact Hin.
  fold n. destruct (Z.leb_spec n (Z.of_nat (length (timestamps self key)))); [lia |].
  eexists. split; [reflexivity |]. simpl. apply timestamps_insert.
Qed.

Lemma is_allowed_reject now self :
  Forall (fun ts => (now - ts < w)%Q) (timestamps self key) ->
  (n <= Z.of_nat (length (timestamps self key)))%Z ->
  exists self',
    is_allowed now key limit self = (false, self') /\
    timestamps self' key = timestamps self key.
Proof.
  intros Hin Hlen. unfold is_allowed. fold w. rewrite filter_all_within by exact Hin.
  fold n. destruct (Z.leb_spec n (Z.of_nat (length (timestamps self key)))); [| lia].
  eexists. split; [reflexivity |]. apply timestamps_insert.
Qed.

End RateLimiterFacts.

Section RateLimiterRuns.
Import RateLimiter.

Variable limit : RateLimit.t.
Variable key : string.

Lemma ordpairs_before {A} (R : A -> A -> Prop) (l1 l2 : list A) (x : A) :
  ForallOrdPairs R (l1 ++ x :: l2) -> Forall (fun a => R a x) l1.
Proof.
  induction l1 as [| a l1 IH]; simpl; intros H; [constructor |].
  inversion H as [| a' l' Ha Hl]; subst. constructor.
  - apply List.Forall_forall with (x := x) in Ha; [exact Ha |].
    apply in_or_app. right. left. reflexivity.
  - apply IH. exact Hl.
Qed.

(** While every earlier timestamp is still inside the window and the
    limit is not reached, each check is accepted and recorded. *)
Lemma checks_within (times : list Q) :
  forall self,
    ForallOrdPairs (fun a b => (b - a < inject_Z (RateLimit.window limit))%Q)
                   (timestamps self key ++ times) ->
    (Z.of_nat (length (timestamps self key ++ times)) <= RateLimit.requests limit)%Z ->
    exists self',
      checks times key limit self = (repeat true (length times), self') /\
      timestamps self' key = timestamps self key ++ times.
Proof.
  induction times as [| now rest IH]; intros self Hord Hlen.
  - exists self. split; [reflexivity |]. by rewrite app_nil_r.
  - destruct (is_allowed_accept limit key now self) as (s1 & Hs1 & Hts1).
    + exact (ordpairs_before _ _ _ _ Hord).
    + rewrite length_app in Hlen. simpl in Hlen. lia.
    + destruct (IH s1) as (s2 & Hs2 & Hts2).
      * rewrite Hts1, <- app_assoc. exact Hord.
      * rewrite Hts1, <- app_assoc. exact Hlen.
      * exists s2. simpl. rewrite Hs1, Hs2. split; [reflexivity |].
        rewrite Hts2, Hts1, <- app_assoc. reflexivity.
Qed.

(** Lazy pruning: whatever the state, the list left behind by a check
    holds no timestamp older than [now - window]. *)
Lemma is_allowed_prunes now self :
  (0 <= inject_Z (RateLimit.window limit))%Q ->
  Forall (fun ts => (now - inject_Z (RateLimit.window limit) <= ts)%Q)
         (timestamps (snd (is_allowed now key limit self)) key).
Proof.
  intros Hw. unfold is_allowed.
  set (kept := List.filter _ _).
  assert (Hkept : Forall (fun ts => (now - inject_Z (RateLimit.window limit) <= ts)%Q) kept).
  { apply List.Forall_forall. intros ts Hts. apply List.filter_In in Hts.
    destruct Hts as [_ Hts]. apply Qltb_lt in Hts. lra. }
  destruct (_ <=? _)%Z; simpl; rewrite timestamps_insert.
  - exact Hkept.
  - apply Forall_app. split; [exact Hkept |]. constructor; [lra | constructor].
Qed.

End RateLimiterRuns.

(** C8. A limiter of [n] requests per [w]-second window, on a key with no
    recorded timestamp: the first [n] checks inside one window are allowed;
    the next check inside that window is rejected and records nothing; a
    check made more than [w] seconds after all of them is allowed again (for
    [n >= 1]); and after any check at time [now], in any state, the key's
    list holds no timestamp older than [now - w]. *)
Theorem C8_sliding_window
    (limit : RateLimit.t) (key : string) (self : RateLimiter.t)
    (times : list Q) (t_next t_late : Q) :
  RateLimiter.timestamps self key = [] ->
  Z.of_nat (length times) = RateLimit.requests limit ->
  ForallOrdPairs (fun a b => (b - a < inject_Z (RateLimit.window limit))%Q)
                 (times ++ [t_next]) ->
  Forall (fun ts => (inject_Z (RateLimit.window limit) < t_late - ts)%Q) times ->
  (1 <= RateLimit.requests limit)%Z ->
  (0 <= inject_Z (RateLimit.window limit))%Q ->
  exists s1 s2 s3,
    RateLimiter.checks times key limit self = (repeat true (length times), s1) /\
    RateLimiter.timestamps s1 key = times /\
    RateLimiter.is_allowed t_next key limit s1 = (false, s2) /\
    RateLimiter.timestamps s2 key = RateLimiter.timestamps s1 key /\
    RateLimiter.is_allowed t_late key limit s2 = (true, s3) /\
    (forall now s,
        Forall (fun ts => (now - inject_Z (RateLimit.window limit) <= ts)%Q)
               (RateLimiter.timestamps
                  (snd (RateLimiter.is_allowed now key limit s)) key)).
Proof.
  intros Hfresh Hn Hord Hlate Hpos Hw.
  destruct (checks_within limit key times self) as (s1 & Hs1 & Hts1).
  { rewrite Hfresh. simpl.
    clear -Hord. induction times as [| a l IH]; simpl in *; [constructor |].
    inversion Hord as [| a' l' Ha Hl]; subst. constructor.
    - apply Forall_app in Ha. tauto.
    - apply IH. exact Hl. }
  { rewrite Hfresh. simpl. lia. }
  rewrite Hfresh in Hts1. simpl in Hts1.
  destruct (is_allowed_reject limit key t_next s1) as (s2 & Hs2 & Hts2).
  { rewrite Hts1. exact (ordpairs_before _ _ _ _ Hord). }
  { rewrite Hts1. lia. }
  exists s1, s2.
  assert (Hs3 : exists s3, RateLimiter.is_allowed t_late key limit s2 = (true, s3)).
  { unfold RateLimiter.is_allowed. rewrite filter_none_within.
    - simpl. destruct (Z.leb_spec (RateLimit.requests limit) (Z.of_nat 0)); [lia |]. eauto.
    - rewrite Hts2, Hts1. eapply Forall_impl; [exact Hlate |]. simpl. intros; lra. }
  destruct Hs3 as [s3 Hs3]. exists s3.
  repeat split; try assumption.
  intros now s. apply is_allowed_prunes. exact Hw.
Qed.

(** The fixture of the specification: two requests per one-second window,
    three rapid calls, and a fourth after the window has passed. *)
Lemma C8_sliding_window_witness :
  exists s1 s2 s3,
    RateLimiter.checks [0; 1 # 10]%Q "client" (RateLimit.mk 2 1 "ip") RateLimiter.init
      = ([true; true], s1) /\
    RateLimiter.timestamps s1 "client" = [0; 1 # 10]%Q /\
    RateLimiter.is_allowed (2 # 10) "client" (RateLimit.mk 2 1 "ip") s1 = (false, s2) /\
    RateLimiter.timestamps s2 "client" = RateLimiter.timestamps s1 "client" /\
    RateLimiter.is_allowed (3 # 2) "client" (RateLimit.mk 2 1 "ip") s2 = (true, s3) /\
    (forall now s,
        Forall (fun ts => (now - inject_Z 1 <= ts)%Q)
               (RateLimiter.timestamps
                  (snd (RateLimiter.is_allowed now "client" (RateLimit.mk 2 1 "ip") s))
                  "client")).
Proof.
  apply (C8_sliding_window (RateLimit.mk 2 1 "ip") "client" RateLimiter.init
           [0; 1 # 10]%Q (2 # 10)%Q (3 # 2)%Q).
  - reflexivity.
  - reflexivity.
  - repeat constructor; simpl; lra.
  - repeat constructor; simpl; lra.
  - simpl. lia.
  - unfold Qle. simpl. lia.
Defined.

(** ** The monad *)

Lemma bind_ret {A B} (a : A) (k : A -> M.t B) : M.bind (M.ret a) k = k a.
Proof. reflexivity. Qed.

Lemma bind_run {A B} (m : M.t A) (k : A -> M.t B) (s : Store.t) :
  M.bind m k s =
  match m s with
  | (M.Ok a, s') => k a s'
  | (M.Raise e, s') => (M.Raise e, s')
  end.
Proof. reflexivity. Qed.

Lemma bind_ok {A B} (m : M.t A) (k : A -> M.t B) (s s' : Store.t) (b : B) :
  M.bind m k s = (M.Ok b, s') ->
  exists a s1, m s = (M.Ok a, s1) /\ k a s1 = (M.Ok b, s').
Proof.
  rewrite bind_run. destruct (m s) as [[a | e] s1]; [eauto | discriminate].
Qed.

(** ** Responses and their header views *)

Section ResponseFacts.

(** No operation of a [CaseInsensitiveDict] writes a response or sends. *)
Lemma view_op_frame (view : nat) (op : ViewOp.t) (s : Store.t) :
  Store.responses (snd (ViewOp.run view op s)) = Store.responses s /\
  Store.sent (snd (ViewOp.run view op s)) = Store.sent s.
Proof.
  destruct op; unfold ViewOp.run, CaseInsensitiveDict.get;
    unfold CaseInsensitiveDict.setitem, CaseInsensitiveDict.update, CaseInsensitiveDict.getitem,
    CaseInsensitiveDict.contains, CaseInsensitiveDict.deref, CaseInsensitiveDict.assign,
    M.try_, M.bind, M.modify, M.ret, M.raise, dangling;
    destruct (Store.views s !! view) as [o |]; simpl; auto;
    try destruct (@Py.dict_get string _ _); simpl; auto.
Qed.

Lemma view_ops_frame (view : nat) (ops : list ViewOp.t) :
  forall s,
    Store.responses (ViewOp.run_all view ops s) = Store.responses s /\
    Store.sent (ViewOp.run_all view ops s) = Store.sent s.
Proof.
  induction ops as [| op rest IH]; intros s; simpl; [auto |].
  destruct (IH (snd (ViewOp.run view op s))) as [H1 H2].
  destruct (view_op_frame view op s) as [H3 H4].
  split; congruence.
Qed.

Lemma headers_alloc (r : nat) (o : Store.response) (s : Store.t) :
  Store.responses s !! r = Some o ->
  exists s1,
    Response.headers r s = (M.Ok (length (Store.views s)), s1) /\
    Store.responses s1 = Store.responses s /\
    Store.sent s1 = Store.sent s /\
    Store.views s1 = Store.views s ++
      [Store.mk_ci_dict (CaseInsensitiveDict.lowered (Store._headers o) []) []].
Proof.
  intros Hr. unfold Response.headers, Response.deref, M.bind. rewrite Hr.
  eexists. split; [reflexivity |]. simpl. auto.
Qed.

Lemma call_sends (r : nat) (o : Store.response) (s : Store.t) :
  Store.responses s !! r = Some o ->
  exists s', Response.call r s = (M.Ok tt, s') /\
    Store.responses s' = Store.responses s /\
    Store.sent s' = Store.sent s ++
      [Message.Start (Store.status_code o) (Response.prepared (Store._headers o));
       Message.Body (Store.content o) false].
Proof.
  intros Hr. unfold Response.call, Response._prepare_headers, Response.deref, M.bind, M.ret.
  rewrite Hr. simpl. rewrite Hr. simpl. eexists. split; [reflexivity |].
  simpl. rewrite <- app_assoc. split; reflexivity.
Qed.

End ResponseFacts.

(** C10. The mapping the [headers] property returns is a new object built
    from a copy of the stored headers: whatever is done through it (item
    assignment, [update], reads), the response's stored headers, and with
    them the start message sent for the response, stay as they were. That
    covers the [update] of the security plugin's post hook. The stored
    headers are what the constructor put there, as changed by
    [add_header]. *)
Theorem C10_headers_view_is_detached
    (s : Store.t) (r : nat) (o : Store.response) (ops : list ViewOp.t)
    (plugin : SecurityPlugin.t) (request : Request.t) :
  Store.responses s !! r = Some o ->
  exists view s1,
    Response.headers r s = (M.Ok view, s1) /\
    Store.views s !! view = None /\
    is_Some (Store.views s1 !! view) /\
    Store.responses (ViewOp.run_all view ops s1) = Store.responses s /\
    Response._prepare_headers r (ViewOp.run_all view ops s1)
      = (M.Ok (Response.prepared (Store._headers o)), ViewOp.run_all view ops s1) /\
    (exists s3,
        Response.call r (ViewOp.run_all view ops s1) = (M.Ok tt, s3) /\
        Store.responses s3 = Store.responses s /\
        Store.sent s3 = Store.sent s ++
          [Message.Start (Store.status_code o) (Response.prepared (Store._headers o));
           Message.Body (Store.content o) false]) /\
    (exists s4,
        SecurityPlugin.post_request plugin request r s = (M.Ok tt, s4) /\
        Store.responses s4 = Store.responses s) /\
    (forall key value, exists s5,
        Response.add_header r key value s = (M.Ok tt, s5) /\
        Store.responses s5 !! r =
          Some (Store.mk_response (Store.content o) (Store.status_code o)
                  (Py.dict_set (Py.lower key) value (Store._headers o)))) /\
    (forall content status headers media_type, exists s6,
        Response.init content status headers media_type s
          = (M.Ok (length (Store.responses s)), s6) /\
        Store.responses s6 !! length (Store.responses s) =
          Some (Store.mk_response content status
                  (Response.init_headers headers media_type))).
Proof.
  intros Hr.
  destruct (headers_alloc r o s Hr) as (s1 & Hh & Hresp1 & Hsent1 & Hviews1).
  destruct (view_ops_frame (length (Store.views s)) ops s1) as [Hresp2 Hsent2].
  assert (Hr2 : Store.responses (ViewOp.run_all (length (Store.views s)) ops s1) !! r = Some o)
    by (rewrite Hresp2, Hresp1; exact Hr).
  exists (length (Store.views s)), s1.
  split; [exact Hh |].
  split; [apply lookup_ge_None; lia |].
  split; [rewrite Hviews1, lookup_app_r, Nat.sub_diag by lia; eauto |].
  split; [congruence |].
  split.
  { unfold Response._prepare_headers, Response.deref, M.bind, M.ret. rewrite Hr2. reflexivity. }
  split.
  { destruct (call_sends r o _ Hr2) as (s3 & Hc & Hr3 & Hs3). exists s3.
    split; [exact Hc |]. split; [congruence |].
    rewrite Hs3, Hsent2, Hsent1. reflexivity. }
  split.
  { unfold SecurityPlugin.post_request. destruct (SecurityPlugin.secure_headers plugin).
    - unfold M.bind. rewrite Hh.
      pose proof (view_op_frame (length (Store.views s))
                    (ViewOp.Update SecurityPlugin.security_headers) s1) as [Hf _].
      simpl in Hf.
      assert (Hv : is_Some (Store.views s1 !! length (Store.views s)))
        by (rewrite Hviews1, lookup_app_r, Nat.sub_diag by lia; eauto).
      destruct Hv as [v Hv].
      unfold CaseInsensitiveDict.update, CaseInsensitiveDict.deref,
        CaseInsensitiveDict.assign, M.bind, M.modify in *.
      rewrite Hv in *. simpl in *. eexists. split; [reflexivity |]. simpl. congruence.
    - exists s. split; reflexivity. }
  split.
  { intros key value. unfold Response.add_header, Response.deref, Response.assign,
      M.bind, M.modify. rewrite Hr. eexists. split; [reflexivity |]. simpl.
    apply list_lookup_insert_eq. eapply lookup_lt_Some. exact Hr. }
  intros content status headers media_type. unfold Response.init.
  eexists. split; [reflexivity |]. simpl.
  rewrite lookup_app_r, Nat.sub_diag by lia. reflexivity.
Qed.

(** ** Registration order and the method index *)

Section RouterIndex.

Lemma index_fold (route : Route.t) (method : string) (ms : list string) :
  forall index : gmap string (list Route.t),
    default [] (fold_left
                  (fun index m => <[m := default [] (index !! m) ++ [route]]> index)
                  ms index !! method)
    = default [] (index !! method) ++
      flat_map (fun m => if decide (m = method) then [route] else []) ms.
Proof.
  induction ms as [| m ms IH]; intros index; simpl.
  - by rewrite app_nil_r.
  - rewrite IH. destruct (decide (m = method)) as [-> | Hne].
    + rewrite lookup_insert_eq. simpl. by rewrite <- app_assoc.
    + rewrite lookup_insert_ne by done. reflexivity.
Qed.

Lemma add_route_method_list (route : Route.t) (router : Router.t) (method : string) :
  method_list (Router.add_route route router) method
  = method_list router method ++ occurrences method route.
Proof. unfold method_list, Router.add_route. simpl. apply index_fold. Qed.

Lemma add_route_routes (route : Route.t) (router : Router.t) :
  Router.routes (Router.add_route route router) = Router.routes router ++ [route].
Proof. reflexivity. Qed.

Lemma fold_add_route (routes : list Route.t) :
  forall router method,
    let router' :=
      fold_left (fun router route => Router.add_route route router) routes router in
    Router.routes router' = Router.routes router ++ routes /\
    method_list router' method = method_list router method ++ candidates method routes.
Proof.
  induction routes as [| r rs IH]; intros router method; simpl.
  - by rewrite !app_nil_r.
  - destruct (IH (Router.add_route r router) method) as [H1 H2]. split.
    + rewrite H1, add_route_routes, <- app_assoc. reflexivity.
    + rewrite H2, add_route_method_list, <- app_assoc. reflexivity.
Qed.

(** The two structures of a router built by registration. *)
Lemma registered_routes (routes : list Route.t) :
  Router.routes (registered routes) = routes.
Proof. unfold registered. by destruct (fold_add_route routes (Router.init "" None) ""). Qed.

Lemma registered_method_list (routes : list Route.t) (method : string) :
  method_list (registered routes) method = candidates method routes.
Proof.
  unfold registered. destruct (fold_add_route routes (Router.init "" None) method) as [_ H].
  rewrite H. reflexivity.
Qed.

Lemma occurrences_nil (method : string) (route : Route.t) :
  method ∉ Route.methods route -> occurrences method route = [].
Proof.
  unfold occurrences. induction (Route.methods route) as [| m ms IH]; simpl; [done |].
  intros Hnot. rewrite not_elem_of_cons in Hnot. destruct Hnot as [Hne Hnot].
  destruct (decide (m = method)); [congruence |]. simpl. by apply IH.
Qed.

Lemma occurrences_cons (method : string) (route : Route.t) :
  method ∈ Route.methods route ->
  exists n, occurrences method route = route :: replicate n route.
Proof.
  unfold occurrences. induction (Route.methods route) as [| m ms IH]; simpl.
  - intros H. by apply elem_of_nil in H.
  - intros H. destruct (decide (m = method)) as [-> | Hne]; simpl.
    + destruct (decide (method ∈ ms)) as [Hin | Hnot].
      * destruct (IH Hin) as [n Hn]. exists (S n). rewrite Hn. reflexivity.
      * exists 0. f_equal.
        clear -Hnot. induction ms as [| m' ms IH]; simpl; [done |].
        rewrite not_elem_of_cons in Hnot. destruct Hnot as [Hne Hnot].
        destruct (decide (m' = method)); [congruence |]. simpl. by apply IH.
    + apply elem_of_cons in H. destruct H as [-> | H]; [congruence |]. by apply IH.
Qed.

Lemma first_match_app (l1 l2 : list Route.t) (path : string) :
  Router.first_match (l1 ++ l2) path =
  match Router.first_match l1 path with
  | Some found => Some found
  | None => Router.first_match l2 path
  end.
Proof.
  induction l1 as [| r l1 IH]; simpl; [reflexivity |].
  destruct (Route.match_ r path); [reflexivity | exact IH].
Qed.

Lemma first_match_replicate_none (n : nat) (route : Route.t) (path : string) :
  Route.match_ route path = None ->
  Router.first_match (replicate n route) path = None.
Proof. intros H. induction n as [| n IH]; simpl; [reflexivity |]. by rewrite H. Qed.

(** The first loop selects the earliest registered route that accepts
    the request, if there is one. *)
Lemma first_match_candidates (routes : list Route.t) (request : Request.t) :
  match Router.first_match (candidates (Request.method request) routes)
                           (Router.normalize (Request.path request)) with
  | Some (route, params) =>
      exists k,
        routes !! k = Some route /\
        Request.method request ∈ Route.methods route /\
        Route.match_ route (Router.normalize (Request.path request)) = Some params /\
        (forall k' route', k' < k -> routes !! k' = Some route' ->
                           ~ accepts route' request)
  | None => forall route, route ∈ routes -> ~ accepts route request
  end.
Proof.
  induction routes as [| r rs IH]; simpl.
  - intros route H. by apply elem_of_nil in H.
  - rewrite first_match_app.
    destruct (decide (Request.method request ∈ Route.methods r)) as [Hin | Hnot].
    + destruct (occurrences_cons _ _ Hin) as [n Hn]. rewrite Hn. simpl.
      destruct (Route.match_ r (Router.normalize (Request.path request))) as [ps |] eqn:Hm.
      * exists 0. repeat split; auto. intros k' route' Hlt. lia.
      * rewrite first_match_replicate_none by exact Hm.
        destruct (Router.first_match _ _) as [[route params] |].
        -- destruct IH as (k & Hk & Hmeth & Hmatch & Hmin).
           exists (S k). repeat split; auto.
           intros [| k'] route' Hlt Hlook.
           ++ simpl in Hlook. injection Hlook as <-. intros [_ [x Hx]]. congruence.
           ++ simpl in Hlook. apply (Hmin k' route'); [lia | exact Hlook].
        -- intros route Hroute. apply elem_of_cons in Hroute.
           destruct Hroute as [-> | Hroute]; [| by apply IH].
           intros [_ [x Hx]]. congruence.
    + rewrite occurrences_nil by exact Hnot. simpl.
      destruct (Router.first_match _ _) as [[route params] |].
      * destruct IH as (k & Hk & Hmeth & Hmatch & Hmin).
        exists (S k). repeat split; auto.
        intros [| k'] route' Hlt Hlook.
        -- simpl in Hlook. injection Hlook as <-. intros [Hmeth' _]. contradiction.
        -- simpl in Hlook. apply (Hmin k' route'); [lia | exact Hlook].
      * intros route Hroute. apply elem_of_cons in Hroute.
        destruct Hroute as [-> | Hroute]; [| by apply IH].
        intros [Hmeth' _]. contradiction.
Qed.

End RouterIndex.

(** C1. When two distinct registered routes both accept a request, the
    router processes the earliest registered route that accepts it: a
    route registered no later than the first of the two, never the second,
    and the first of the two itself when no route registered before it
    accepts the request. *)
Theorem C1_first_registered_route_wins
    (routes : list Route.t) (request : Request.t) (i j : nat) (R1 R2 : Route.t) :
  i < j ->
  routes !! i = Some R1 ->
  routes !! j = Some R2 ->
  accepts R1 request ->
  accepts R2 request ->
  exists k route params,
    k <= i /\
    routes !! k = Some route /\
    Request.method request ∈ Route.methods route /\
    Route.match_ route (Router.normalize (Request.path request)) = Some params /\
    (forall k' route', k' < k -> routes !! k' = Some route' -> ~ accepts route' request) /\
    Router.handle_request (registered routes) request
      = Router.process route params request /\
    ((forall k' route', k' < i -> routes !! k' = Some route' -> ~ accepts route' request) ->
     k = i /\
     Router.handle_request (registered routes) request
       = Router.process R1 params request /\
     Route.match_ R1 (Router.normalize (Request.path request)) = Some params).
Proof.
  intros Hij Hi Hj Hacc1 Hacc2.
  pose proof (first_match_candidates routes request) as Hsel.
  unfold Router.handle_request.
  change (default [] (Router._method_routes (registered routes) !! Request.method request))
    with (method_list (registered routes) (Request.method request)).
  rewrite registered_method_list.
  destruct (Router.first_match _ _) as [[route params] |].
  - destruct Hsel as (k & Hk & Hmeth & Hmatch & Hmin).
    assert (Hle : k <= i).
    { destruct (decide (k <= i)) as [| Hgt]; [done |].
      exfalso. apply (Hmin i R1); [lia | exact Hi | exact Hacc1]. }
    exists k, route, params. repeat split; auto.
    + assert (k = i) as ->; [| done].
      destruct (decide (k = i)) as [| Hne]; [done |].
      exfalso. apply (H k route); [lia | exact Hk |]. split; [exact Hmeth | eauto].
    + assert (k = i) as Hki.
      { destruct (decide (k = i)) as [| Hne]; [done |].
        exfalso. apply (H k route); [lia | exact Hk |]. split; [exact Hmeth | eauto]. }
      subst k. rewrite Hi in Hk. injection Hk as ->. reflexivity.
    + assert (k = i) as Hki.
      { destruct (decide (k = i)) as [| Hne]; [done |].
        exfalso. apply (H k route); [lia | exact Hk |]. split; [exact Hmeth | eauto]. }
      subst k. rewrite Hi in Hk. injection Hk as ->. exact Hmatch.
  - exfalso. apply (Hsel R1); [| exact Hacc1].
    apply list_elem_of_lookup. eauto.
Qed.

(** ** Dispatch reads four fields of a route *)

Section RouteFields.

Variable f : Route.t -> Route.t.
Hypothesis f_handler : forall r, Route.handler (f r) = Route.handler r.
Hypothesis f_methods : forall r, Route.methods (f r) = Route.methods r.
Hypothesis f_regex : forall r, Route._compiled_regex (f r) = Route._compiled_regex r.
Hypothesis f_converters :
  forall r, Route._param_converters (f r) = Route._param_converters r.

Lemma match_ext (r : Route.t) (path : string) :
  Route.match_ (f r) path = Route.match_ r path.
Proof. unfold Route.match_. by rewrite f_regex, f_converters. Qed.

Lemma occurrences_ext (method : string) (r : Route.t) :
  occurrences method (f r) = map f (occurrences method r).
Proof.
  unfold occurrences. rewrite f_methods.
  induction (Route.methods r) as [| m ms IH]; simpl; [reflexivity |].
  rewrite IH, map_app. by destruct (decide (m = method)).
Qed.

Lemma candidates_ext (method : string) (routes : list Route.t) :
  candidates method (map f routes) = map f (candidates method routes).
Proof.
  unfold candidates. induction routes as [| r rs IH]; simpl; [reflexivity |].
  by rewrite IH, occurrences_ext, map_app.
Qed.

Lemma first_match_ext (l : list Route.t) (path : string) :
  Router.first_match (map f l) path =
  match Router.first_match l path with
  | Some (r, params) => Some (f r, params)
  | None => None
  end.
Proof.
  induction l as [| r l IH]; simpl; [reflexivity |].
  rewrite match_ext. destruct (Route.match_ r path); [reflexivity | exact IH].
Qed.

Lemma allowed_methods_ext (routes : list Route.t) (path : string) :
  Router.allowed_methods (registered (map f routes)) path =
  Router.allowed_methods (registered routes) path.
Proof.
  unfold Router.allowed_methods. rewrite !registered_routes.
  generalize (@nil string). induction routes as [| r rs IH]; intros acc; simpl.
  - reflexivity.
  - by rewrite match_ext, f_methods, IH.
Qed.

Lemma process_ext (r : Route.t) (params : list (string * PathValue.t))
    (request : Request.t) :
  Router.process (f r) params request = Router.process r params request.
Proof. unfold Router.process. by rewrite f_handler. Qed.

(** Dispatch does not depend on any other field. *)
Lemma handle_request_ext (routes : list Route.t) (request : Request.t) :
  Router.handle_request (registered (map f routes)) request =
  Router.handle_request (registered routes) request.
Proof.
  unfold Router.handle_request.
  change (default [] (Router._method_routes ?r !! ?m)) with (method_list r m).
  rewrite !registered_method_list, candidates_ext, first_match_ext, allowed_methods_ext.
  destruct (Router.first_match _ _) as [[r params] |]; [apply process_ext | reflexivity].
Qed.

End RouteFields.

(** ** A route that does not match is passed over *)

Section NoMatch.

Lemma convert_fails (converters : list (string * Route.converter))
    (name value : string) (converter : Route.converter)
    (groups : list (string * string)) :
  (name, value) ∈ groups ->
  Py.dict_get name converters = Some converter ->
  converter value = None ->
  forall params, Route.convert converters groups params = None.
Proof.
  intros Hin Hget Hfail.
  induction groups as [| [n v] rest IH]; intros params; simpl.
  - by apply elem_of_nil in Hin.
  - apply elem_of_cons in Hin. destruct Hin as [Heq | Hin].
    + injection Heq as <- <-. by rewrite Hget, Hfail.
    + destruct (Py.dict_get n converters) as [c |]; [| by apply IH].
      destruct (c v); [by apply IH | reflexivity].
Qed.

Lemma first_match_occurrences_none (method : string) (r : Route.t) (path : string) :
  Route.match_ r path = None ->
  Router.first_match (occurrences method r) path = None.
Proof.
  intros Hm. destruct (decide (method ∈ Route.methods r)) as [Hin | Hnot].
  - destruct (occurrences_cons _ _ Hin) as [n ->]. simpl. rewrite Hm.
    by apply first_match_replicate_none.
  - by rewrite occurrences_nil.
Qed.

Lemma handle_request_delete (routes : list Route.t) (request : Request.t)
    (i : nat) (R : Route.t) :
  routes !! i = Some R ->
  Route.match_ R (Router.normalize (Request.path request)) = None ->
  Router.handle_request (registered routes) request =
  Router.handle_request (registered (delete i routes)) request.
Proof.
  intros Hi Hm.
  apply list_elem_of_split_length in Hi as (l1 & l2 & -> & ->).
  rewrite delete_middle. unfold Router.handle_request.
  change (default [] (Router._method_routes ?r !! ?m)) with (method_list r m).
  rewrite !registered_method_list. unfold candidates, Router.allowed_methods.
  rewrite !registered_routes, !flat_map_app, !fold_left_app. simpl.
  rewrite !first_match_app, first_match_occurrences_none by exact Hm.
  rewrite Hm. simpl. reflexivity.
Qed.

Lemma handle_request_not_found (routes : list Route.t) (request : Request.t) :
  (forall R, R ∈ routes ->
             Route.match_ R (Router.normalize (Request.path request)) = None) ->
  Router.handle_request (registered routes) request =
  Response.JSONResponse (Json.Obj [("error", Json.Str "Not Found")]) 404 [].
Proof.
  intros Hnone. unfold Router.handle_request.
  change (default [] (Router._method_routes ?r !! ?m)) with (method_list r m).
  rewrite registered_method_list.
  assert (Hfirst : Router.first_match (candidates (Request.method request) routes)
                     (Router.normalize (Request.path request)) = None).
  { unfold candidates. induction routes as [| r rs IH]; simpl; [reflexivity |].
    rewrite first_match_app, first_match_occurrences_none.
    - apply IH. intros R HR. apply Hnone. by right.
    - apply Hnone. by left. }
  rewrite Hfirst.
  assert (Hallowed : Router.allowed_methods (registered routes)
                       (Router.normalize (Request.path request)) = []).
  { clear Hfirst. unfold Router.allowed_methods. rewrite registered_routes.
    induction routes as [| r rs IH]; simpl; [reflexivity |].
    rewrite (Hnone r) by (by left). simpl. apply IH.
    intros R HR. apply Hnone. by right. }
  rewrite Hallowed. reflexivity.
Qed.

(** The earliest registered route that accepts the request is the one
    that is processed, wherever it stands among the routes. *)
Lemma handle_request_first_accepting (routes : list Route.t) (request : Request.t)
    (j : nat) (R' : Route.t) (params : list (string * PathValue.t)) :
  routes !! j = Some R' ->
  Request.method request ∈ Route.methods R' ->
  Route.match_ R' (Router.normalize (Request.path request)) = Some params ->
  (forall k R'', k < j -> routes !! k = Some R'' -> ~ accepts R'' request) ->
  Router.handle_request (registered routes) request = Router.process R' params request.
Proof.
  intros Hj Hmeth Hmatch Hearlier.
  pose proof (first_match_candidates routes request) as Hsel.
  unfold Router.handle_request.
  change (default [] (Router._method_routes (registered routes) !! Request.method request))
    with (method_list (registered routes) (Request.method request)).
  rewrite registered_method_list.
  destruct (Router.first_match _ _) as [[route ps] |].
  - destruct Hsel as (k & Hk & Hkmeth & Hkmatch & Hmin).
    destruct (lt_eq_lt_dec k j) as [[Hlt | ->] | Hgt].
    + exfalso. apply (Hearlier k route Hlt Hk). split; [exact Hkmeth | eauto].
    + rewrite Hj in Hk. injection Hk as <-. rewrite Hmatch in Hkmatch.
      injection Hkmatch as <-. reflexivity.
    + exfalso. apply (Hmin j R' Hgt Hj). split; [exact Hmeth | eauto].
  - exfalso. apply (Hsel R'); [apply list_elem_of_lookup; eauto |].
    split; [exact Hmeth | eauto].
Qed.

End NoMatch.

(** C5. When a captured segment fails the converter of its parameter,
    [Route.match] returns "no match" and the matching pass goes on: the
    router behaves exactly as if that route were not registered, the
    earliest of the other routes that accepts the request is the one that
    is processed, whether it was registered before or after the failing
    route, and when no other route matches the path the outcome is the 404
    "Not Found" response (no 422, no exception). *)
Theorem C5_conversion_failure_is_no_match
    (routes : list Route.t) (request : Request.t) (i : nat) (R : Route.t)
    (groups : list (string * string)) (name value : string)
    (converter : Route.converter) :
  routes !! i = Some R ->
  Route._compiled_regex R (Router.normalize (Request.path request)) = Some groups ->
  (name, value) ∈ groups ->
  Py.dict_get name (Route._param_converters R) = Some converter ->
  converter value = None ->
  Route.match_ R (Router.normalize (Request.path request)) = None /\
  Router.handle_request (registered routes) request
    = Router.handle_request (registered (delete i routes)) request /\
  ((forall j R', j <> i -> routes !! j = Some R' ->
                 Route.match_ R' (Router.normalize (Request.path request)) = None) ->
   Router.handle_request (registered routes) request
     = Response.JSONResponse (Json.Obj [("error", Json.Str "Not Found")]) 404 []) /\
  (forall j R' params,
      routes !! j = Some R' ->
      Request.method request ∈ Route.methods R' ->
      Route.match_ R' (Router.normalize (Request.path request)) = Some params ->
      (forall k R'', k < j -> k <> i -> routes !! k = Some R'' ->
                     ~ accepts R'' request) ->
      Router.handle_request (registered routes) request
        = Router.process R' params request).
Proof.
  intros Hi Hre Hin Hget Hfail.
  assert (Hm : Route.match_ R (Router.normalize (Request.path request)) = None).
  { unfold Route.match_. rewrite Hre. eapply convert_fails; eauto. }
  split; [exact Hm |]. split; [by eapply handle_request_delete |].
  split.
  - intros Hothers. apply handle_request_not_found.
    intros R' HR'. apply list_elem_of_lookup in HR' as [j Hj].
    destruct (decide (j = i)) as [-> | Hne].
    + rewrite Hi in Hj. by injection Hj as <-.
    + by eapply Hothers.
  - intros j R' params Hj Hmeth Hmatch Hearlier.
    apply (handle_request_first_accepting routes request j R' params Hj Hmeth Hmatch).
    intros k R'' Hlt Hk. destruct (decide (k = i)) as [-> | Hne].
    + rewrite Hi in Hk. injection Hk as <-. intros [_ [x Hx]]. congruence.
    + by apply (Hearlier k R'').
Qed.

(** The round trip of the specification: [/items/abc] against an [int]
    parameter is a 404; with a second route for the same pattern and a
    string parameter registered after it, that second route is tried and
    serves the request: its handler is entered with the text. *)
Lemma C5_conversion_failure_is_no_match_witness :
  Route.match_ Fixture.items_route "/items/abc" = None /\
  Router.handle_request (registered [Fixture.items_route])
                        (Fixture.request 0 "GET" "/items/abc" [])
    = Response.JSONResponse (Json.Obj [("error", Json.Str "Not Found")]) 404 [] /\
  Router.handle_request (registered [Fixture.items_route; Fixture.search_route])
                        (Fixture.request 0 "GET" "/items/abc" [])
    = Router.process Fixture.search_route [("item_id", PathValue.Str "abc")]
                     (Fixture.request 0 "GET" "/items/abc" []) /\
  exists s,
    Router.handle_request (registered [Fixture.items_route; Fixture.search_route])
                          (Fixture.request 0 "GET" "/items/abc" []) Store.empty
      = (M.Ok 0, s) /\
    Store.responses s =
      [Store.mk_response (Json.Obj [("query", Json.Str "abc")]) 200
         [("content-type", "application/json")]] /\
    Store.calls s =
      [Store.mk_call 3 [("item_id", Value.Path (PathValue.Str "abc"))]].
Proof.
  destruct (C5_conversion_failure_is_no_match
              [Fixture.items_route] (Fixture.request 0 "GET" "/items/abc" [])
              0 Fixture.items_route [("item_id", "abc")] "item_id" "abc"
              (Route.converter_of Annotation.Int)) as (H1 & _ & H3 & _);
    [reflexivity | reflexivity | by left | reflexivity | reflexivity |].
  destruct (C5_conversion_failure_is_no_match
              [Fixture.items_route; Fixture.search_route]
              (Fixture.request 0 "GET" "/items/abc" [])
              0 Fixture.items_route [("item_id", "abc")] "item_id" "abc"
              (Route.converter_of Annotation.Int)) as (_ & _ & _ & H4);
    [reflexivity | reflexivity | by left | reflexivity | reflexivity |].
  split; [exact H1 |]. split.
  { apply H3. intros [| j] R' Hj Hlook; [done | discriminate]. }
  assert (Hserved :
            Router.handle_request (registered [Fixture.items_route; Fixture.search_route])
                                  (Fixture.request 0 "GET" "/items/abc" [])
            = Router.process Fixture.search_route [("item_id", PathValue.Str "abc")]
                             (Fixture.request 0 "GET" "/items/abc" [])).
  { apply (H4 1 Fixture.search_route [("item_id", PathValue.Str "abc")]).
    - reflexivity.
    - vm_compute. left.
    - reflexivity.
    - intros k R'' Hlt Hne. lia. }
  split; [exact Hserved |].
  rewrite Hserved. eexists. split; [vm_compute; reflexivity |].
  split; reflexivity.
Defined.

(** C4, as the code has it. The loop that collects the allowed methods
    tests the truth value of [route.match(path)], and the parameters of a
    route without path parameters are the empty dict, which is false: a
    POST to the registered path [/], whose only route is for GET, is
    answered 404 "Not Found", not 405. A route with a path parameter, in
    the same situation, is answered 405 with [Allow: GET]. *)
Theorem C4_parameterless_route_is_not_found :
  Route.match_ Fixture.home_route "/" = Some [] /\
  Route.methods Fixture.home_route = ["GET"] /\
  Router.handle_request (registered [Fixture.home_route])
                        (Fixture.request 0 "POST" "/" [])
    = Response.JSONResponse (Json.Obj [("error", Json.Str "Not Found")]) 404 [] /\
  Router.handle_request (registered [Fixture.items_route])
                        (Fixture.request 0 "POST" "/items/1" [])
    = Response.JSONResponse
        (Json.Obj [("error", Json.Str "Method Not Allowed");
                   ("allowed_methods", Json.List [Json.Str "GET"])])
        405 [("Allow", "GET")].
Proof. repeat split; reflexivity. Qed.

(** ** Rate limits and dependencies in dispatch *)

(** C2, refuted as stated. The route carries a limit of one request per
    minute. A limiter given the same two attempts rejects the second: the
    window for the key is exhausted. The router answers both requests 200
    and enters the handler twice. *)
Lemma C2_rate_limit_not_enforced :
  Route.rate_limit Fixture.limited_route = Some Fixture.one_per_minute /\
  fst (RateLimiter.is_allowed 1 "10.0.0.1" Fixture.one_per_minute
         (snd (RateLimiter.is_allowed 0 "10.0.0.1" Fixture.one_per_minute
                 RateLimiter.init))) = false /\
  exists s1 s2,
    Router.handle_request (registered [Fixture.limited_route])
      (Fixture.request 0 "GET" "/limited" []) Store.empty = (M.Ok 0, s1) /\
    Router.handle_request (registered [Fixture.limited_route])
      (Fixture.request 1 "GET" "/limited" []) s1 = (M.Ok 1, s2) /\
    Store.status_code <$> Store.responses s2 !! 1 = Some 200%Z /\
    Store.calls s2 = [Store.mk_call 1 []; Store.mk_call 1 []].
Proof.
  split; [reflexivity |]. split; [reflexivity |].
  eexists. eexists. split; [vm_compute; reflexivity |].
  split; [vm_compute; reflexivity |]. split; reflexivity.
Qed.

(** C2, as the code has it. Dispatch does not consult a rate limiter: a
    request is handled exactly as if no route carried a rate limit, so
    the handler of the matched route is invoked whatever the state of any
    window. [RateLimiter.is_allowed], when it is called, prunes the key's
    list; it rejects, recording nothing, when the pruned list has reached
    the limit, and otherwise records the attempt and allows it. *)
Theorem C2_dispatch_ignores_rate_limit
    (routes : list Route.t) (request : Request.t) :
  Router.handle_request (registered routes) request
    = Router.handle_request (registered (map without_rate_limit routes)) request /\
  (forall now key limit self,
      let kept :=
        List.filter (fun ts => Py.Qltb (now - ts) (inject_Z (RateLimit.window limit)))
                    (RateLimiter.timestamps self key) in
      ((RateLimit.requests limit <= Z.of_nat (length kept))%Z ->
       fst (RateLimiter.is_allowed now key limit self) = false /\
       RateLimiter.timestamps (snd (RateLimiter.is_allowed now key limit self)) key = kept) /\
      ((Z.of_nat (length kept) < RateLimit.requests limit)%Z ->
       fst (RateLimiter.is_allowed now key limit self) = true /\
       RateLimiter.timestamps (snd (RateLimiter.is_allowed now key limit self)) key
         = kept ++ [now])).
Proof.
  split.
  - symmetry. by apply handle_request_ext.
  - intros now key limit self kept. unfold RateLimiter.is_allowed. fold kept.
    destruct (Z.leb_spec (RateLimit.requests limit) (Z.of_nat (length kept)));
      split; intros Hk; try lia; simpl; rewrite timestamps_insert; auto.
Qed.


Section DependsFacts.




End DependsFacts.



(** ** The middleware chain *)

Section MiddlewareFacts.

Lemma lower_ascii_idem (c : ascii) :
  Py.lower_ascii (Py.lower_ascii c) = Py.lower_ascii c.
Proof. destruct c as [[] [] [] [] [] [] [] []]; reflexivity. Qed.

Lemma lower_idem (s : string) : Py.lower (Py.lower s) = Py.lower s.
Proof.
  unfold Py.lower. induction s as [| c s IH]; simpl; [reflexivity |].
  by rewrite lower_ascii_idem, IH.
Qed.

Lemma dict_get_set_eq {V} (k : string) (v : V) (d : list (string * V)) :
  Py.dict_get k (Py.dict_set k v d) = Some v.
Proof.
  induction d as [| [k' v'] d IH]; simpl.
  - by rewrite String.eqb_refl.
  - destruct (String.eqb k k') eqn:E; simpl; rewrite E; [reflexivity | exact IH].
Qed.

Lemma dict_get_set_ne {V} (k k' : string) (v : V) (d : list (string * V)) :
  k <> k' -> Py.dict_get k (Py.dict_set k' v d) = Py.dict_get k d.
Proof.
  intros Hne. induction d as [| [k0 v0] d IH]; simpl.
  - apply String.eqb_neq in Hne. by rewrite Hne.
  - destruct (String.eqb k' k0) eqn:E; simpl.
    + apply String.eqb_eq in E. subst k0.
      apply String.eqb_neq in Hne. by rewrite Hne.
    + by rewrite IH.
Qed.

Lemma dict_set_fresh {V} (k : string) (v : V) (d : list (string * V)) :
  Py.dict_get k d = None -> Py.dict_set k v d = d ++ [(k, v)].
Proof.
  induction d as [| [k' v'] d IH]; simpl; [reflexivity |].
  destruct (String.eqb k k'); [discriminate |]. intros H. by rewrite IH.
Qed.

Lemma lowered_absent (k : string) (data : list (string * string)) :
  (forall kv, kv ∈ data -> Py.lower (fst kv) <> k) ->
  forall acc, Py.dict_get k acc = None -> Py.dict_get k (CaseInsensitiveDict.lowered data acc) = None.
Proof.
  unfold CaseInsensitiveDict.lowered. induction data as [| [k' v'] data IH]; intros Hno acc Hacc; simpl.
  - exact Hacc.
  - apply IH.
    + intros kv Hkv. apply Hno. by right.
    + rewrite dict_get_set_ne; [exact Hacc |].
      intros ->. by apply (Hno (k', v')); [left |].
Qed.

Lemma absent_stored (k : string) (data : list (string * string)) :
  (forall kv, kv ∈ data -> Py.lower (fst kv) <> Py.lower k) ->
  Py.dict_get (Py.lower k) data = None.
Proof.
  induction data as [| [k' v'] data IH]; intros Hno; simpl; [reflexivity |].
  destruct (String.eqb (Py.lower k) k') eqn:E.
  - apply String.eqb_eq in E. exfalso. apply (Hno (k', v')); [by left |].
    simpl. rewrite <- E. apply lower_idem.
  - apply IH. intros kv Hkv. apply Hno. by right.
Qed.

(** One run of the marker middleware over a response that is in the
    store: the header becomes the old value, a comma and the marker, or
    the marker alone when the view has no such header. *)
Lemma append_marker_run (header marker : string) (request : Request.t)
    (resp : nat) (o : Store.response) (s : Store.t) :
  Store.responses s !! resp = Some o ->
  exists s',
    Application.logged
      (Middleware.call (append_marker header marker) request (fun _ => M.ret resp)) s
      = (M.Ok resp, s') /\
    Store.responses s' =
      <[resp := Store.mk_response (Store.content o) (Store.status_code o)
                  (Py.dict_set (Py.lower header)
                     (match Py.dict_get (Py.lower header) (CaseInsensitiveDict.lowered (Store._headers o) []) with
                      | None => marker
                      | Some value => value +:+ "," +:+ marker
                      end)
                     (Store._headers o))]> (Store.responses s).
Proof.
  intros Hr.
  destruct (headers_alloc resp o s Hr) as (s1 & Hh & Hresp1 & _ & Hviews1).
  unfold Application.logged, append_marker, M.try_. simpl.
  unfold M.bind at 1. unfold M.ret at 1. unfold M.bind at 1. rewrite Hh.
  unfold M.bind at 1, CaseInsensitiveDict.get, CaseInsensitiveDict.getitem,
    CaseInsensitiveDict.deref, M.try_.
  unfold M.bind at 1. unfold M.bind at 1.
  rewrite Hviews1, lookup_app_r, Nat.sub_diag by lia. simpl.
  
  destruct (Py.dict_get (Py.lower header) (CaseInsensitiveDict.lowered (Store._headers o) [])) as [old |];
    simpl; unfold M.bind, Response.add_header, Response.deref, Response.assign,
      M.modify, M.bind; rewrite Hresp1, Hr; simpl;
    (eexists; split; [reflexivity |]); simpl; by rewrite Hresp1.
Qed.

End MiddlewareFacts.

(** C6. With the middlewares A then B registered, the response of the
    router is handed to B first and B's result to A: the loop runs over
    the reversed list. When both append their marker to one header that the
    router's response does not carry, the header ends as B's marker, a
    comma, A's marker. *)
Theorem C6_middleware_order
    (app : Application.t) (router : Router.t) (request : Request.t)
    (header a b : string) (s s1 : Store.t) (resp : nat) (o : Store.response) :
  Application.router app = Some router ->
  Application.middleware app = [append_marker header a; append_marker header b] ->
  Router.handle_request router request s = (M.Ok resp, s1) ->
  Store.responses s1 !! resp = Some o ->
  (forall kv, kv ∈ Store._headers o -> Py.lower (fst kv) <> Py.lower header) ->
  (exists s2 o2,
      Application.handle_request app request s = (M.Ok resp, s2) /\
      Store.responses s2 !! resp = Some o2 /\
      Py.dict_get (Py.lower header) (Store._headers o2) = Some (b +:+ "," +:+ a)) /\
  (forall (A B : Middleware.t) (response : nat),
      Application.apply_middleware (rev [A; B]) request response
      = (r1 <- Application.logged (Middleware.call B request (fun _ => M.ret response)) ;;
         r2 <- Application.logged (Middleware.call A request (fun _ => M.ret r1)) ;;
         M.ret r2)).
Proof.
  intros Hrouter Hmw Hroute Hresp Habsent. split; [| reflexivity].
  destruct (append_marker_run header b request resp o s1 Hresp) as (s2 & HB & HrespB).
  rewrite (lowered_absent (Py.lower header) (Store._headers o)) in HrespB
    by (auto using lower_idem).
  rewrite (dict_set_fresh (Py.lower header)) in HrespB by (by apply absent_stored).
  assert (Hlt : resp < length (Store.responses s1)) by (by eapply lookup_lt_Some).
  assert (Hresp2 : Store.responses s2 !! resp =
            Some (Store.mk_response (Store.content o) (Store.status_code o)
                    (Store._headers o ++ [(Py.lower header, b)]))).
  { rewrite HrespB. by apply list_lookup_insert_eq. }
  destruct (append_marker_run header a request resp _ s2 Hresp2) as (s3 & HA & HrespA).
  simpl in HrespA.
  assert (Hold : Py.dict_get (Py.lower header)
                   (CaseInsensitiveDict.lowered (Store._headers o ++ [(Py.lower header, b)]) []) = Some b).
  { unfold CaseInsensitiveDict.lowered. rewrite fold_left_app. simpl. rewrite lower_idem.
    apply dict_get_set_eq. }
  rewrite Hold in HrespA.
  exists s3. eexists. split; [| split].
  - unfold Application.handle_request, M.try_. rewrite Hrouter, Hmw.
    cbn [rev List.app Application.apply_middleware].
    rewrite bind_ret, bind_run, Hroute. cbv beta iota.
    rewrite bind_run, HB. cbv beta iota. rewrite bind_run, HA. reflexivity.
  - rewrite HrespA. apply list_lookup_insert_eq.
    rewrite HrespB, length_insert. exact Hlt.
  - simpl. apply dict_get_set_eq.
Qed.

Lemma C6_middleware_order_witness :
  exists s2 o2,
    Application.handle_request Fixture.traced_app (Fixture.request 0 "GET" "/" [])
                               Store.empty = (M.Ok 0, s2) /\
    Store.responses s2 !! 0 = Some o2 /\
    Py.dict_get "x-trace" (Store._headers o2) = Some "B,A".
Proof.
  destruct (C6_middleware_order Fixture.traced_app (registered [Fixture.home_route])
              (Fixture.request 0 "GET" "/" []) "X-Trace" "A" "B" Store.empty
              (snd (Router.handle_request (registered [Fixture.home_route])
                      (Fixture.request 0 "GET" "/" []) Store.empty))
              0
              (Store.mk_response (Json.Obj [("status", Json.Str "ok")]) 200
                 [("content-type", "application/json")])) as [H _].
  - reflexivity.
  - reflexivity.
  - reflexivity.
  - reflexivity.
  - intros kv Hkv. apply list_elem_of_singleton in Hkv. subst kv. discriminate.
  - exact H.
Defined.

(** ** Plugin hooks *)

Section PluginFacts.

Lemma swallow_ok (m : M.t unit) (s : Store.t) :
  exists s', PluginManager.swallow m s = (M.Ok tt, s').
Proof.
  unfold PluginManager.swallow, M.try_, M.ret.
  destruct (m s) as [[[] | e] s']; eauto.
Qed.

Lemma for_each_swallow {A} (xs : list A) (hook : A -> M.t unit) :
  forall s, exists s',
    M.for_each xs (fun x => PluginManager.swallow (hook x)) s = (M.Ok tt, s').
Proof.
  induction xs as [| x xs IH]; intros s; simpl.
  - unfold M.ret. eauto.
  - rewrite bind_run. destruct (swallow_ok (hook x) s) as [s1 ->]. apply IH.
Qed.

End PluginFacts.

(** C7, as the code has it. [run_pre_request] catches whatever a
    pre-request hook raises, so it returns normally for every list of
    plugins. With the security plugin restricted to [example.com], a
    request for another host makes the hook raise [PluginError]; the
    request is dispatched all the same: the handler is entered and the
    client is sent the handler's 200 response. *)
Theorem C7_pre_request_failure_is_swallowed :
  (forall manager request s, exists s',
      PluginManager.run_pre_request manager request s = (M.Ok tt, s')) /\
  SecurityPlugin.pre_request Fixture.security
    (Fixture.request 0 "GET" "/" [("Host", "evil.test")]) Store.empty
    = (M.Raise (Exn.PluginError "Host not allowed: evil.test"), Store.empty) /\
  exists s',
    Application._handle_http Fixture.guarded_app
      (Fixture.request 0 "GET" "/" [("Host", "evil.test")]) Store.empty = (M.Ok tt, s') /\
    Store.calls s' = [Store.mk_call 1 []] /\
    Store.sent s' =
      [Message.Start 200 [("content-type", "application/json")];
       Message.Body (Json.Obj [("status", Json.Str "ok")]) false].
Proof.
  split.
  { intros manager request s. unfold PluginManager.run_pre_request.
    apply (for_each_swallow (PluginManager.plugins manager)
             (fun plugin => Plugin.pre_request plugin request)). }
  split; [reflexivity |].
  eexists. split; [vm_compute; reflexivity |]. split; reflexivity.
Qed.

(** ** The lifecycle *)

Section LifecycleFacts.

Lemma logged_ok {A} (m : M.t A) (s s' : Store.t) (a : A) :
  Application.logged m s = (M.Ok a, s') -> m s = (M.Ok a, s').
Proof.
  unfold Application.logged, M.try_, M.raise.
  destruct (m s) as [[a0 | e] s0]; [done | discriminate].
Qed.

Lemma startup_completes (app app1 : Application.t) (s s1 : Store.t) :
  Application.startup app s = (M.Ok app1, s1) ->
  Application._startup_complete app1 = true.
Proof.
  unfold Application.startup.
  destruct (Application._startup_complete app) eqn:Hflag.
  - intros H. injection H as <- <-. exact Hflag.
  - intros H. apply logged_ok in H.
    apply bind_ok in H as (? & ? & _ & H).
    apply bind_ok in H as (? & ? & _ & H).
    apply bind_ok in H as (? & ? & _ & H).
    injection H as <- <-. reflexivity.
Qed.

Lemma shutdown_completes (app app1 : Application.t) (s s1 : Store.t) :
  Application.shutdown app s = (M.Ok app1, s1) ->
  Application._shutdown_complete app1 = true.
Proof.
  unfold Application.shutdown.
  destruct (Application._shutdown_complete app) eqn:Hflag.
  - intros H. injection H as <- <-. exact Hflag.
  - intros H. apply logged_ok in H.
    apply bind_ok in H as (? & ? & _ & H).
    apply bind_ok in H as (? & ? & _ & H).
    apply bind_ok in H as (? & ? & _ & H).
    injection H as <- <-. reflexivity.
Qed.

End LifecycleFacts.

(** C9. Once [startup()] has completed, a further [startup()] returns at
    once: it leaves the application and the store as they are, so no
    startup handler is entered again. The same holds of [shutdown()]. *)
Theorem C9_startup_shutdown_idempotent
    (app app1 : Application.t) (s s1 : Store.t)
    (app' app2 : Application.t) (s' s2 : Store.t) :
  Application.startup app s = (M.Ok app1, s1) ->
  Application.shutdown app' s' = (M.Ok app2, s2) ->
  (forall t, Application.startup app1 t = (M.Ok app1, t)) /\
  (forall t, Application.shutdown app2 t = (M.Ok app2, t)) /\
  Store.calls (snd (Application.startup app1 s1)) = Store.calls s1 /\
  Store.calls (snd (Application.shutdown app2 s2)) = Store.calls s2.
Proof.
  intros Hup Hdown.
  apply startup_completes in Hup. apply shutdown_completes in Hdown.
  assert (H1 : forall t, Application.startup app1 t = (M.Ok app1, t))
    by (intros t; unfold Application.startup; by rewrite Hup).
  assert (H2 : forall t, Application.shutdown app2 t = (M.Ok app2, t))
    by (intros t; unfold Application.shutdown; by rewrite Hdown).
  repeat split; auto; [rewrite H1 | rewrite H2]; reflexivity.
Qed.

(** Two calls of each: the startup handler (20) and the shutdown handler
    (21) are entered once. *)
Lemma C9_startup_shutdown_idempotent_witness :
  Store.calls
    (snd ((a1 <- Application.startup Fixture.lifecycle_app ;;
           a2 <- Application.startup a1 ;;
           a3 <- Application.shutdown a2 ;;
           Application.shutdown a3) Store.empty))
  = [Store.mk_call 20 []; Store.mk_call 21 []].
Proof.
  pose proof (C9_startup_shutdown_idempotent
                Fixture.lifecycle_app
                (Application.set_startup_complete Fixture.lifecycle_app)
                Store.empty
                (Store.set_calls (fun _ => [Store.mk_call 20 []]) Store.empty)
                (Application.set_startup_complete Fixture.lifecycle_app)
                (Application.set_shutdown_complete
                   (Application.set_startup_complete Fixture.lifecycle_app))
                (Store.set_calls (fun _ => [Store.mk_call 20 []]) Store.empty)
                (Store.set_calls (fun _ => [Store.mk_call 20 []; Store.mk_call 21 []])
                   Store.empty)
                eq_refl eq_refl) as (H1 & H2 & _).
  rewrite bind_run.
  change (Application.startup Fixture.lifecycle_app Store.empty)
    with (M.Ok (Application.set_startup_complete Fixture.lifecycle_app),
          Store.set_calls (fun _ => [Store.mk_call 20 []]) Store.empty).
  cbv beta iota. rewrite bind_run, H1. cbv beta iota. rewrite bind_run.
  change (Application.shutdown (Application.set_startup_complete Fixture.lifecycle_app)
            (Store.set_calls (fun _ => [Store.mk_call 20 []]) Store.empty))
    with (M.Ok (Application.set_shutdown_complete
                  (Application.set_startup_complete Fixture.lifecycle_app)),
          Store.set_calls (fun _ => [Store.mk_call 20 []; Store.mk_call 21 []])
            Store.empty).
  cbv beta iota. rewrite H2. reflexivity.
Defined.

(** ** Instances of the first and the last property *)

(** Two routes for one pattern and method: the first registered serves. *)
Lemma C1_first_registered_route_wins_witness :
  exists params,
    Router.handle_request (registered [Fixture.items_route; Fixture.search_route])
                          (Fixture.request 0 "GET" "/items/12" [])
      = Router.process Fixture.items_route params
                       (Fixture.request 0 "GET" "/items/12" []) /\
    Route.match_ Fixture.items_route "/items/12" = Some params.
Proof.
  destruct (C1_first_registered_route_wins
              [Fixture.items_route; Fixture.search_route]
              (Fixture.request 0 "GET" "/items/12" []) 0 1
              Fixture.items_route Fixture.search_route)
    as (k & route & params & _ & _ & _ & _ & _ & _ & Hfirst).
  - lia.
  - reflexivity.
  - reflexivity.
  - split; [by left | by eexists].
  - split; [by left | by eexists].
  - destruct Hfirst as (_ & H1 & H2); [intros k' route' Hlt; lia |].
    exists params. split; [exact H1 | exact H2].
Defined.

(** A JSON response, a view of its headers written through three ways:
    what is sent for the response carries the constructor's headers only. *)
Lemma C10_headers_view_is_detached_witness :
  exists view s1,
    Response.headers 0
      (snd (Response.JSONResponse (Json.Obj [("status", Json.Str "ok")]) 200
              [("X-Test", "test")] Store.empty)) = (M.Ok view, s1) /\
    Response._prepare_headers 0
      (ViewOp.run_all view
         [ViewOp.SetItem "X-Process-Time" "0.001";
          ViewOp.Update SecurityPlugin.security_headers;
          ViewOp.Get "x-test"] s1)
    = (M.Ok [("content-type", "application/json"); ("x-test", "test")],
       ViewOp.run_all view
         [ViewOp.SetItem "X-Process-Time" "0.001";
          ViewOp.Update SecurityPlugin.security_headers;
          ViewOp.Get "x-test"] s1).
Proof.
  destruct (C10_headers_view_is_detached
              (snd (Response.JSONResponse (Json.Obj [("status", Json.Str "ok")]) 200
                      [("X-Test", "test")] Store.empty))
              0
              (Store.mk_response (Json.Obj [("status", Json.Str "ok")]) 200
                 [("content-type", "application/json"); ("x-test", "test")])
              [ViewOp.SetItem "X-Process-Time" "0.001";
               ViewOp.Update SecurityPlugin.security_headers;
               ViewOp.Get "x-test"]
              Fixture.security (Fixture.request 0 "GET" "/" []) eq_refl)
    as (view & s1 & H1 & _ & _ & _ & H5 & _).
  exists view, s1. split; [exact H1 | exact H5].
Defined.

(* ===================================================================== *)
(** * Further properties of the code *)
(* ===================================================================== *)

(** ** The method index of a router *)

Section IndexFacts.

Lemma occurrences_elem (method : string) (route r : Route.t) :
  r ∈ occurrences method route <-> r = route /\ method ∈ Route.methods route.
Proof.
  unfold occurrences. induction (Route.methods route) as [| m ms IH]; simpl.
  - split; [intros H; by apply elem_of_nil in H | intros [_ H]; by apply elem_of_nil in H].
  - rewrite elem_of_app, IH, elem_of_cons. destruct (decide (m = method)) as [-> | Hne].
    + rewrite list_elem_of_singleton. tauto.
    + split.
      * intros [H | H]; [by apply elem_of_nil in H | tauto].
      * intros [Hr [Hm | Hm]]; [congruence | tauto].
Qed.

Lemma candidates_elem (method : string) (routes : list Route.t) (r : Route.t) :
  r ∈ candidates method routes <-> r ∈ routes /\ method ∈ Route.methods r.
Proof.
  unfold candidates. induction routes as [| route routes IH]; simpl.
  - split; [intros H; by apply elem_of_nil in H | intros [H _]; by apply elem_of_nil in H].
  - rewrite elem_of_app, IH, occurrences_elem, elem_of_cons. split.
    + intros [[-> H] | [H1 H2]]; tauto.
    + intros [[-> | H1] H2]; tauto.
Qed.

Lemma occurrences_once (method : string) (route : Route.t) :
  NoDup (Route.methods route) ->
  occurrences method route
  = if decide (method ∈ Route.methods route) then [route] else [].
Proof.
  unfold occurrences. induction (Route.methods route) as [| m ms IH]; intros Hnd; simpl.
  - destruct (decide (method ∈ [])) as [H |]; [by apply elem_of_nil in H | reflexivity].
  - apply NoDup_cons in Hnd as [Hm Hnd]. rewrite IH by exact Hnd.
    destruct (decide (m = method)) as [-> | Hne].
    + destruct (decide (method ∈ ms)); [contradiction |].
      destruct (decide (method ∈ method :: ms)) as [| Hn]; [reflexivity |].
      exfalso. apply Hn. by left.
    + destruct (decide (method ∈ ms)) as [Hin | Hnin];
        destruct (decide (method ∈ m :: ms)) as [Hin' | Hnin']; try reflexivity.
      * exfalso. apply Hnin'. by right.
      * apply elem_of_cons in Hin' as [-> | ?]; [congruence | contradiction].
Qed.

End IndexFacts.

(** X1. For a router built by registration, [routes] is the list of the
    registered routes, and the list kept under a method holds exactly the
    registered routes that declare the method; when no route repeats a
    method in its own list, it is those routes in registration order, each
    once. A method no route declares has an empty list. *)
Theorem index_is_projection_of_routes (routes : list Route.t) (method : string) :
  Forall (fun r => NoDup (Route.methods r)) routes ->
  Router.routes (registered routes) = routes /\
  (forall r, r ∈ method_list (registered routes) method <->
             r ∈ routes /\ method ∈ Route.methods r) /\
  method_list (registered routes) method
    = filter (fun r => method ∈ Route.methods r) routes /\
  ((forall r, r ∈ routes -> method ∉ Route.methods r) ->
   Router._method_routes (registered routes) !! method = None).
Proof.
  intros Hnd. split; [apply registered_routes |]. split; [| split].
  - intros r. rewrite registered_method_list. apply candidates_elem.
  - rewrite registered_method_list. unfold candidates.
    induction Hnd as [| r rs Hr _ IH]; simpl; [reflexivity |].
    rewrite IH, occurrences_once by exact Hr. rewrite filter_cons.
    by destruct (decide (method ∈ Route.methods r)).
  - intros Hnone. clear Hnd. unfold registered.
    assert (Hgen : forall router,
               Router._method_routes router !! method = None ->
               Router._method_routes
                 (fold_left (fun router route => Router.add_route route router)
                            routes router) !! method = None).
    { induction routes as [| r rs IH]; intros router Hr; simpl; [exact Hr |].
      apply IH.
      - intros r' Hr'. apply Hnone. by right.
      - unfold Router.add_route. simpl.
        assert (Hm : method ∉ Route.methods r) by (apply Hnone; by left).
        revert Hr. generalize (Router._method_routes router).
        induction (Route.methods r) as [| m ms IHm]; intros index Hi; simpl; [exact Hi |].
        apply not_elem_of_cons in Hm as [Hne Hm]. apply IHm; [exact Hm |].
        by rewrite lookup_insert_ne. }
    apply Hgen. reflexivity.
Qed.

Lemma index_is_projection_of_routes_witness :
  method_list (registered [Fixture.home_route; Fixture.items_route; Fixture.search_route])
              "GET"
    = [Fixture.home_route; Fixture.items_route; Fixture.search_route] /\
  Router._method_routes
    (registered [Fixture.home_route; Fixture.items_route; Fixture.search_route])
    !! "POST" = None.
Proof.
  destruct (index_is_projection_of_routes
              [Fixture.home_route; Fixture.items_route; Fixture.search_route] "GET")
    as (_ & _ & H & _).
  { repeat (apply Forall_cons; split; [simpl; apply NoDup_singleton |]).
    constructor. }
  destruct (index_is_projection_of_routes
              [Fixture.home_route; Fixture.items_route; Fixture.search_route] "POST")
    as (_ & _ & _ & H').
  { repeat (apply Forall_cons; split; [simpl; apply NoDup_singleton |]).
    constructor. }
  split.
  - rewrite H. reflexivity.
  - apply H'. intros r Hr. apply list_elem_of_In in Hr. simpl in Hr.
    destruct Hr as [<- | [<- | [<- | []]]]; simpl;
      rewrite list_elem_of_singleton; discriminate.
Defined.

(** ** The two fallbacks of dispatch *)

Section FallbackFacts.

Lemma set_update_spec (methods : list string) :
  forall set,
    NoDup set ->
    NoDup (Router.set_update methods set) /\
    (forall m, m ∈ Router.set_update methods set <-> m ∈ set \/ m ∈ methods).
Proof.
  unfold Router.set_update.
  induction methods as [| x xs IH]; intros set Hnd; simpl.
  - split; [exact Hnd |]. intros m. rewrite elem_of_nil. tauto.
  - destruct (bool_decide (x ∈ set)) eqn:E.
    + apply bool_decide_eq_true in E. destruct (IH set Hnd) as [H1 H2].
      split; [exact H1 |]. intros m. rewrite H2, elem_of_cons.
      split; [tauto |]. intros [? | [-> | ?]]; tauto.
    + apply bool_decide_eq_false in E.
      assert (Hnd' : NoDup (set ++ [x])).
      { apply NoDup_app. split; [exact Hnd |]. split; [| apply NoDup_singleton].
        intros y Hy Hy'. apply list_elem_of_singleton in Hy'. by subst. }
      destruct (IH _ Hnd') as [H1 H2]. split; [exact H1 |].
      intros m. rewrite H2, elem_of_app, list_elem_of_singleton, elem_of_cons. tauto.
Qed.

Lemma allowed_methods_spec (routes : list Route.t) (path : string) :
  NoDup (Router.allowed_methods (registered routes) path) /\
  (forall m, m ∈ Router.allowed_methods (registered routes) path <->
             exists r, r ∈ routes /\ Router.truthy (Route.match_ r path) = true /\
                       m ∈ Route.methods r).
Proof.
  unfold Router.allowed_methods. rewrite registered_routes.
  assert (Hgen : forall acc,
             NoDup acc ->
             NoDup (fold_left
                      (fun acc route =>
                         if Router.truthy (Route.match_ route path)
                         then Router.set_update (Route.methods route) acc else acc)
                      routes acc) /\
             (forall m,
                 m ∈ fold_left
                       (fun acc route =>
                          if Router.truthy (Route.match_ route path)
                          then Router.set_update (Route.methods route) acc else acc)
                       routes acc <->
                 m ∈ acc \/
                 exists r, r ∈ routes /\ Router.truthy (Route.match_ r path) = true /\
                           m ∈ Route.methods r)).
  { induction routes as [| r rs IH]; intros acc Hnd; simpl.
    - split; [exact Hnd |]. intros m. split; [tauto |].
      intros [? | (r & Hr & _)]; [done | by apply elem_of_nil in Hr].
    - destruct (Router.truthy (Route.match_ r path)) eqn:E.
      + destruct (set_update_spec (Route.methods r) acc Hnd) as [Hnd' Hin].
        destruct (IH _ Hnd') as [H1 H2]. split; [exact H1 |].
        intros m. rewrite H2, Hin. split.
        * intros [[? | ?] | (r' & Hr' & Ht & Hm)]; [tauto | | ].
          -- right. exists r. split; [by left | done].
          -- right. exists r'. split; [by right | done].
        * intros [? | (r' & Hr' & Ht & Hm)]; [tauto |].
          apply elem_of_cons in Hr' as [-> | Hr']; [tauto |].
          right. exists r'. done.
      + destruct (IH _ Hnd) as [H1 H2]. split; [exact H1 |].
        intros m. rewrite H2. split.
        * intros [? | (r' & Hr' & Ht & Hm)]; [tauto |].
          right. exists r'. split; [by right | done].
        * intros [? | (r' & Hr' & Ht & Hm)]; [tauto |].
          apply elem_of_cons in Hr' as [-> | Hr']; [congruence |].
          right. exists r'. done. }
  destruct (Hgen [] (NoDup_nil_2)) as [H1 H2]. split; [exact H1 |].
  intros m. rewrite H2, elem_of_nil. tauto.
Qed.

Lemma no_candidate_no_first_match (routes : list Route.t) (request : Request.t) :
  (forall r, r ∈ routes -> ~ accepts r request) ->
  Router.first_match (candidates (Request.method request) routes)
                     (Router.normalize (Request.path request)) = None.
Proof.
  intros Hnone. pose proof (first_match_candidates routes request) as H.
  destruct (Router.first_match _ _) as [[route params] |]; [| reflexivity].
  destruct H as (k & Hk & Hmeth & Hmatch & _). exfalso.
  apply (Hnone route); [apply list_elem_of_lookup; eauto |].
  split; [exact Hmeth | eauto].
Qed.

End FallbackFacts.

(** X2. A request whose path matches the pattern of no registered route
    is answered with the 404 "Not Found" JSON response, whatever its
    method: the store gains that response and nothing else (no handler is
    entered, no path parameters are attached). *)
Theorem unregistered_path_is_not_found
    (routes : list Route.t) (request : Request.t) (s : Store.t) :
  (forall r, r ∈ routes ->
             Route._compiled_regex r (Router.normalize (Request.path request)) = None) ->
  Router.handle_request (registered routes) request s
  = (M.Ok (length (Store.responses s)),
     Store.set_responses
       (fun rs => rs ++ [Store.mk_response (Json.Obj [("error", Json.Str "Not Found")])
                           404 [("content-type", "application/json")]]) s).
Proof.
  intros Hnone. rewrite handle_request_not_found; [reflexivity |].
  intros r Hr. unfold Route.match_. by rewrite (Hnone r Hr).
Qed.

Lemma unregistered_path_is_not_found_witness :
  Router.handle_request (registered [Fixture.home_route; Fixture.items_route])
    (Fixture.request 0 "DELETE" "/nonexistent" []) Store.empty
  = (M.Ok 0,
     Store.set_responses
       (fun rs => rs ++ [Store.mk_response (Json.Obj [("error", Json.Str "Not Found")])
                           404 [("content-type", "application/json")]]) Store.empty).
Proof.
  apply (unregistered_path_is_not_found [Fixture.home_route; Fixture.items_route]
           (Fixture.request 0 "DELETE" "/nonexistent" []) Store.empty).
  intros r Hr. apply list_elem_of_In in Hr. simpl in Hr.
  destruct Hr as [<- | [<- | []]]; reflexivity.
Defined.

(** X3. When no route registered for the request's method matches, but
    some route with a method matches with at least one path parameter, the
    answer is the 405 JSON response. The methods it lists, in the body and
    in the [Allow] header, are without repetition exactly the methods of
    the routes whose match gives a non-empty parameter dict; the request's
    own method is not among them. *)
Theorem method_not_allowed_lists_matching_methods
    (routes : list Route.t) (request : Request.t) (R0 : Route.t) (m0 : string) :
  (forall r, r ∈ routes -> ~ accepts r request) ->
  R0 ∈ routes ->
  Router.truthy (Route.match_ R0 (Router.normalize (Request.path request))) = true ->
  m0 ∈ Route.methods R0 ->
  exists allowed,
    Router.handle_request (registered routes) request
    = Response.JSONResponse
        (Json.Obj [("error", Json.Str "Method Not Allowed");
                   ("allowed_methods", Json.List (map Json.Str allowed))])
        405 [("Allow", Py.join ", " allowed)] /\
    NoDup allowed /\
    (forall m, m ∈ allowed <->
               exists r, r ∈ routes /\
                         Router.truthy
                           (Route.match_ r (Router.normalize (Request.path request))) = true /\
                         m ∈ Route.methods r) /\
    Request.method request ∉ allowed.
Proof.
  intros Hnone HR0 Htruthy Hm0.
  destruct (allowed_methods_spec routes (Router.normalize (Request.path request)))
    as [Hnd Hin].
  exists (Router.allowed_methods (registered routes)
            (Router.normalize (Request.path request))).
  split; [| split; [exact Hnd | split; [exact Hin |]]].
  - unfold Router.handle_request.
    change (default [] (Router._method_routes ?r !! ?m)) with (method_list r m).
    rewrite registered_method_list, no_candidate_no_first_match by exact Hnone.
    destruct (Router.allowed_methods _ _) as [| a l] eqn:E; [| reflexivity].
    exfalso. apply (proj1 (elem_of_nil m0)). apply Hin. eauto.
  - intros Hmem. apply Hin in Hmem as (r & Hr & Ht & Hm).
    apply (Hnone r Hr). split; [exact Hm |].
    destruct (Route.match_ r _); [eauto | discriminate].
Qed.

Lemma method_not_allowed_lists_matching_methods_witness :
  exists allowed,
    Router.handle_request
      (registered [Fixture.home_route; Fixture.items_route; Fixture.search_route])
      (Fixture.request 0 "POST" "/items/7" [])
    = Response.JSONResponse
        (Json.Obj [("error", Json.Str "Method Not Allowed");
                   ("allowed_methods", Json.List (map Json.Str allowed))])
        405 [("Allow", Py.join ", " allowed)] /\
    NoDup allowed /\ "GET" ∈ allowed /\ "POST" ∉ allowed.
Proof.
  destruct (method_not_allowed_lists_matching_methods
              [Fixture.home_route; Fixture.items_route; Fixture.search_route]
              (Fixture.request 0 "POST" "/items/7" []) Fixture.items_route "GET")
    as (allowed & H & Hnd & Hin & Hnot).
  - intros r Hr [Hm _]. apply list_elem_of_In in Hr. simpl in Hr.
    destruct Hr as [<- | [<- | [<- | []]]]; simpl in Hm;
      apply list_elem_of_singleton in Hm; discriminate.
  - right. by left.
  - reflexivity.
  - by left.
  - exists allowed. repeat split; try assumption.
    apply Hin. exists Fixture.items_route. split; [right; by left |].
    split; [reflexivity | by left].
Defined.

(** ** What a match binds *)

Section MatchFacts.

Lemma str_app_assoc (a b c : string) : (a +:+ b) +:+ c = a +:+ (b +:+ c).
Proof.
  induction a as [| x a IH]; [reflexivity |].
  change (String x ((a +:+ b) +:+ c) = String x (a +:+ (b +:+ c))). by rewrite IH.
Qed.

Lemma str_app_nil_r (a : string) : a +:+ "" = a.
Proof.
  induction a as [| x a IH]; [reflexivity |].
  change (String x (a +:+ "") = String x a). by rewrite IH.
Qed.




Lemma dict_get_absent {V} (k : string) (d : list (string * V)) :
  k ∉ d.*1 -> Py.dict_get k d = None.
Proof.
  induction d as [| [k' v'] d IH]; simpl; [reflexivity |].
  intros Hk. apply not_elem_of_cons in Hk as [Hne Hk].
  apply String.eqb_neq in Hne. rewrite Hne. by apply IH.
Qed.




End MatchFacts.

Section SpellFacts.



End SpellFacts.



(** ** Path normalisation *)

Section NormalizeFacts.

Lemma str_snoc_not_empty (t : string) (c : ascii) : t +:+ String c "" <> "".
Proof. destruct t; discriminate. Qed.

Lemma rstrip_snoc (c : ascii) (s : string) :
  Py.rstrip c (s +:+ String c "") = Py.rstrip c s.
Proof.
  induction s as [| a s IH].
  - simpl. by rewrite Ascii.eqb_refl.
  - change (String a s +:+ String c "") with (String a (s +:+ String c "")).
    simpl. by rewrite IH.
Qed.

Lemma rstrip_idem (c : ascii) (s : string) :
  Py.rstrip c (Py.rstrip c s) = Py.rstrip c s.
Proof.
  induction s as [| a s IH]; [reflexivity |]. simpl.
  destruct (Py.rstrip c s) as [| b r] eqn:E.
  - destruct (Ascii.eqb a c) eqn:Ea; [reflexivity |]. simpl. by rewrite Ea.
  - simpl in *. by rewrite IH.
Qed.

Lemma rstrip_no_trailing (c : ascii) (s : string) :
  forall t, Py.rstrip c s <> t +:+ String c "".
Proof.
  induction s as [| a s IH]; intros t; simpl.
  - intros H. symmetry in H. by apply str_snoc_not_empty in H.
  - destruct (Py.rstrip c s) as [| b r] eqn:E.
    + destruct (Ascii.eqb a c) eqn:Ea.
      * intros H. symmetry in H. by apply str_snoc_not_empty in H.
      * destruct t as [| x t]; intros H.
        -- injection H as ->. by rewrite Ascii.eqb_refl in Ea.
        -- injection H as _ H. symmetry in H. by apply str_snoc_not_empty in H.
    + destruct t as [| x t]; intros H; [discriminate |].
      injection H as _ H. by apply (IH t).
Qed.

End NormalizeFacts.

(** X5. Dispatch looks a path up after normalising it: trailing slashes
    do not count (a path and the same path with one more slash normalise
    alike), normalising twice changes nothing, and a normalised path is
    never empty and ends with a slash only when it is the root [/]. *)
Theorem normalize_ignores_trailing_slashes (path : string) :
  Router.normalize (path +:+ "/") = Router.normalize path /\
  Router.normalize (Router.normalize path) = Router.normalize path /\
  Router.normalize path <> "" /\
  (forall t, Router.normalize path = t +:+ "/" -> t = "").
Proof.
  unfold Router.normalize. rewrite rstrip_snoc. split; [reflexivity |].
  destruct (Py.rstrip "/" path) as [| a r] eqn:E.
  - simpl. repeat split; [discriminate |].
    intros [| x t] H; [reflexivity |]. injection H as _ H.
    symmetry in H. by apply str_snoc_not_empty in H.
  - change (String.eqb (String a r) "") with false. cbv iota.
    rewrite <- E, rstrip_idem, E.
    change (String.eqb (String a r) "") with false. cbv iota.
    repeat split; [discriminate |].
    intros t H. exfalso. apply (rstrip_no_trailing "/" path t). by rewrite E.
Qed.

(** ** The rate limiter over many checks *)

Section LimiterFacts.

Variable limit : RateLimit.t.
Variable key : string.

Lemma filter_keeps_recorded (now : Q) (old new : list Q) :
  Forall (fun ts => (now - ts < inject_Z (RateLimit.window limit))%Q) new ->
  List.filter (fun ts => Py.Qltb (now - ts) (inject_Z (RateLimit.window limit)))
              (old ++ new)
  = List.filter (fun ts => Py.Qltb (now - ts) (inject_Z (RateLimit.window limit))) old
    ++ new.
Proof.
  intros H. rewrite List.filter_app, (filter_all_within limit now new H). reflexivity.
Qed.

(** While the checks made stay inside one window, the timestamps they
    record are never pruned, so their number stays within the limit. *)
Lemma checks_recorded (times : list Q) :
  forall self old new,
    RateLimiter.timestamps self key = old ++ new ->
    Forall (fun ts =>
              Forall (fun t => (t - ts < inject_Z (RateLimit.window limit))%Q) times) new ->
    ForallOrdPairs (fun a b => (b - a < inject_Z (RateLimit.window limit))%Q) times ->
    (Z.of_nat (length new) <= Z.max 0 (RateLimit.requests limit))%Z ->
    (Z.of_nat (length new +
               length (List.filter (fun b : bool => b)
                         (fst (RateLimiter.checks times key limit self))))
     <= Z.max 0 (RateLimit.requests limit))%Z.
Proof.
  induction times as [| now rest IH]; intros self old new Hts Hnew Hord Hlen.
  - simpl. rewrite Nat.add_0_r. exact Hlen.
  - inversion Hord as [| a l Hnow Hrest]; subst.
    assert (Hnew_now : Forall (fun ts =>
                         (now - ts < inject_Z (RateLimit.window limit))%Q) new).
    { eapply Forall_impl; [exact Hnew |]. intros ts H. by inversion H. }
    assert (Hnew_rest : Forall (fun ts =>
                          Forall (fun t => (t - ts < inject_Z (RateLimit.window limit))%Q)
                                 rest) new).
    { eapply Forall_impl; [exact Hnew |]. intros ts H. by inversion H. }
    simpl. unfold RateLimiter.is_allowed. rewrite Hts, filter_keeps_recorded by exact Hnew_now.
    set (old' := List.filter _ old).
    destruct (Z.leb_spec (RateLimit.requests limit) (Z.of_nat (length (old' ++ new))))
      as [Hfull | Hroom].
    + destruct (RateLimiter.checks rest key limit _) as [bs s'] eqn:E. simpl.
      pose proof (IH (RateLimiter.mk (<[key := old' ++ new]> (RateLimiter.requests self)))
                    old' new (timestamps_insert _ _ _) Hnew_rest Hrest Hlen) as H.
      rewrite E in H. exact H.
    + destruct (RateLimiter.checks rest key limit _) as [bs s'] eqn:E. simpl.
      pose proof (IH (RateLimiter.mk
                        (<[key := (old' ++ new) ++ [now]]>
                           (RateLimiter.requests
                              (RateLimiter.mk (<[key := old' ++ new]>
                                                 (RateLimiter.requests self))))))
                    old' (new ++ [now])) as H.
      rewrite E in H. simpl in H. rewrite length_app in H. simpl in H.
      rewrite length_app in Hroom.
      assert (Hgoal : (Z.of_nat (length new + 1 +
                         length (List.filter (fun b : bool => b) bs))
                       <= Z.max 0 (RateLimit.requests limit))%Z).
      { apply H.
        - rewrite timestamps_insert. by rewrite <- app_assoc.
        - apply Forall_app. split; [exact Hnew_rest |]. constructor; [| constructor].
          exact Hnow.
        - exact Hrest.
        - lia. }
      lia.
Qed.

End LimiterFacts.

(** X6. A check for one key reads and writes the list of that key only:
    the list kept for any other key is left as it was. *)
Theorem check_leaves_other_keys
    (now : Q) (key other : string) (limit : RateLimit.t) (self : RateLimiter.t) :
  other <> key ->
  RateLimiter.requests (snd (RateLimiter.is_allowed now key limit self)) !! other
    = RateLimiter.requests self !! other /\
  fst (RateLimiter.is_allowed now key limit self)
    = fst (RateLimiter.is_allowed now key limit
             (RateLimiter.mk (<[other := []]> (RateLimiter.requests self)))).
Proof.
  intros Hne. unfold RateLimiter.is_allowed, RateLimiter.timestamps. simpl.
  rewrite (lookup_insert_ne (RateLimiter.requests self) other key) by done.
  split.
  - destruct (_ <=? _)%Z; simpl; by rewrite ?lookup_insert_ne by done.
  - by destruct (_ <=? _)%Z.
Qed.

Lemma check_leaves_other_keys_witness :
  RateLimiter.requests
    (snd (RateLimiter.is_allowed 5 "a" (RateLimit.mk 2 1 "ip")
            (RateLimiter.mk {[ "b" := [4%Q] ]}))) !! "b" = Some [4%Q].
Proof.
  destruct (check_leaves_other_keys 5 "a" "b" (RateLimit.mk 2 1 "ip")
              (RateLimiter.mk {[ "b" := [4%Q] ]})) as [H _]; [discriminate |].
  rewrite H. reflexivity.
Defined.

(** X7. Whatever the limiter holds, of any run of checks for one key whose
    clock readings all lie within one window of each other, at most [n]
    are allowed ([n] the limit, none when [n] is not positive). *)
Theorem at_most_limit_allowed_per_window
    (limit : RateLimit.t) (key : string) (self : RateLimiter.t) (times : list Q) :
  ForallOrdPairs (fun a b => (b - a < inject_Z (RateLimit.window limit))%Q) times ->
  (Z.of_nat (length (List.filter (fun b : bool => b)
                       (fst (RateLimiter.checks times key limit self))))
   <= Z.max 0 (RateLimit.requests limit))%Z.
Proof.
  intros Hord.
  pose proof (checks_recorded limit key times self (RateLimiter.timestamps self key) [])
    as H.
  simpl in H. apply H; [by rewrite app_nil_r | constructor | exact Hord | lia].
Qed.

Lemma at_most_limit_allowed_per_window_witness :
  fst (RateLimiter.checks [0; 1 # 4; 1 # 2; 3 # 4]%Q "client" (RateLimit.mk 2 1 "ip")
         RateLimiter.init) = [true; true; false; false] /\
  (Z.of_nat (length (List.filter (fun b : bool => b)
                       (fst (RateLimiter.checks [0; 1 # 4; 1 # 2; 3 # 4]%Q "client"
                               (RateLimit.mk 2 1 "ip") RateLimiter.init))))
   <= Z.max 0 2)%Z.
Proof.
  split; [reflexivity |].
  apply (at_most_limit_allowed_per_window (RateLimit.mk 2 1 "ip") "client"
           RateLimiter.init [0; 1 # 4; 1 # 2; 3 # 4]%Q).
  repeat constructor; simpl; lra.
Defined.

(** ** Header dicts *)

Section HeaderFacts.

Lemma dict_set_keys {V} (k : string) (v : V) (d : list (string * V)) :
  ((Py.dict_set k v d).*1 = d.*1) \/
  ((k ∉ d.*1) /\ (Py.dict_set k v d).*1 = d.*1 ++ [k]).
Proof.
  induction d as [| [k' v'] d IH].
  - right. split; [apply not_elem_of_nil | reflexivity].
  - cbn [Py.dict_set]. destruct (String.eqb_spec k k') as [-> | Hne].
    + left. reflexivity.
    + rewrite !fmap_cons. cbn [fst]. destruct IH as [-> | [Hout ->]].
      * left. reflexivity.
      * right. split; [| reflexivity].
        intros [? | ?]%elem_of_cons; contradiction.
Qed.

Lemma dict_set_NoDup {V} (k : string) (v : V) (d : list (string * V)) :
  NoDup d.*1 -> NoDup (Py.dict_set k v d).*1.
Proof.
  intros Hd. destruct (dict_set_keys k v d) as [-> | [Hk ->]]; [exact Hd |].
  apply NoDup_app. split; [exact Hd |]. split; [| apply NoDup_singleton].
  intros x Hx ->%list_elem_of_singleton. contradiction.
Qed.

Lemma dict_set_lowercase {V} (k : string) (v : V) (d : list (string * V)) :
  Py.lower k = k ->
  Forall (fun kv => Py.lower (fst kv) = fst kv) d ->
  Forall (fun kv => Py.lower (fst kv) = fst kv) (Py.dict_set k v d).
Proof.
  intros Hk. induction 1 as [| [k' v'] d Hk' Hd IH]; simpl.
  - by constructor.
  - simpl in Hk'. destruct (String.eqb k k'); constructor; simpl; assumption.
Qed.

Lemma dict_set_keeps {V} (k k' : string) (v : V) (d : list (string * V)) :
  is_Some (Py.dict_get k d) -> is_Some (Py.dict_get k (Py.dict_set k' v d)).
Proof.
  intros H. destruct (String.eqb_spec k k') as [-> | Hne].
  - rewrite dict_get_set_eq. eauto.
  - by rewrite dict_get_set_ne.
Qed.

Lemma lowered_well_formed (data : list (string * string)) :
  forall store,
    well_formed_headers store ->
    well_formed_headers (CaseInsensitiveDict.lowered data store).
Proof.
  unfold CaseInsensitiveDict.lowered.
  induction data as [| [k v] data IH]; intros store [Hlow Hnd]; simpl;
    [by split |].
  apply IH. split.
  - apply dict_set_lowercase; [apply lower_idem | exact Hlow].
  - by apply dict_set_NoDup.
Qed.

Lemma lowered_keeps (k : string) (data : list (string * string)) :
  forall store,
    is_Some (Py.dict_get k store) ->
    is_Some (Py.dict_get k (CaseInsensitiveDict.lowered data store)).
Proof.
  unfold CaseInsensitiveDict.lowered.
  induction data as [| [k' v] data IH]; intros store H; simpl; [exact H |].
  apply IH. by apply dict_set_keeps.
Qed.

(** A well-formed dict is its own lowercased copy. *)
Lemma lowered_copy (data : list (string * string)) :
  forall store,
    Forall (fun kv => Py.lower (fst kv) = fst kv) data ->
    NoDup (store.*1 ++ data.*1) ->
    CaseInsensitiveDict.lowered data store = store ++ data.
Proof.
  unfold CaseInsensitiveDict.lowered.
  induction data as [| [k v] data IH]; intros store Hlow Hnd; simpl.
  - by rewrite app_nil_r.
  - inversion Hlow as [| ? ? Hk Hrest]; subst. simpl in Hk. rewrite Hk.
    rewrite fmap_cons in Hnd. simpl in Hnd.
    rewrite dict_set_fresh.
    + rewrite IH; [by rewrite <- app_assoc | exact Hrest |].
      rewrite fmap_app, <- app_assoc. exact Hnd.
    + apply dict_get_absent. apply NoDup_app in Hnd as (_ & Hdisj & _).
      intros Hin. apply (Hdisj k Hin). by left.
Qed.

Lemma prepared_well_formed (headers : list (string * string)) :
  Forall (fun kv => Py.lower (fst kv) = fst kv) headers ->
  Response.prepared headers = headers.
Proof.
  unfold Response.prepared.
  induction 1 as [| [k v] d Hk _ IH]; simpl; [reflexivity |].
  simpl in Hk. by rewrite Hk, IH.
Qed.

(** A run of [add_header] calls on a response in the store. *)
Lemma add_headers_run (r : nat) (adds : list (string * string)) :
  forall (o : Store.response) (s : Store.t),
    Store.responses s !! r = Some o ->
    exists s',
      M.for_each adds (fun kv => Response.add_header r (fst kv) (snd kv)) s
        = (M.Ok tt, s') /\
      Store.responses s' !! r =
        Some (Store.mk_response (Store.content o) (Store.status_code o)
                (CaseInsensitiveDict.lowered adds (Store._headers o))).
Proof.
  induction adds as [| [k v] adds IH]; intros o s Hr; simpl.
  - exists s. split; [reflexivity |]. rewrite Hr. by destruct o.
  - rewrite bind_run.
    unfold Response.add_header at 1. unfold Response.deref, Response.assign, M.modify.
    rewrite bind_run, Hr. simpl.
    match goal with |- context [M.for_each _ _ ?s1] =>
      destruct (IH (Store.mk_response (Store.content o) (Store.status_code o)
                      (Py.dict_set (Py.lower k) v (Store._headers o))) s1)
        as (s' & Hrun & Hr')
    end.
    { simpl. apply list_lookup_insert_eq. eapply lookup_lt_Some. exact Hr. }
    exists s'. split; [exact Hrun | exact Hr'].
Qed.

(** What a view of a response with well-formed stored headers answers. *)
Lemma view_get (r : nat) (o : Store.response) (s : Store.t) (key : string) :
  Store.responses s !! r = Some o ->
  well_formed_headers (Store._headers o) ->
  exists s',
    (view <- Response.headers r ;; CaseInsensitiveDict.get view key) s
      = (M.Ok (Py.dict_get (Py.lower key) (Store._headers o)), s') /\
    Store.responses s' = Store.responses s.
Proof.
  intros Hr [Hlow Hnd].
  destruct (headers_alloc r o s Hr) as (s1 & Hh & Hresp1 & _ & Hviews1).
  rewrite bind_run, Hh.
  unfold CaseInsensitiveDict.get, CaseInsensitiveDict.getitem,
    CaseInsensitiveDict.deref, M.try_.
  rewrite bind_run, bind_run.
  rewrite Hviews1, lookup_app_r, Nat.sub_diag by lia. simpl.
  rewrite (lowered_copy (Store._headers o) [] Hlow Hnd). simpl.
  destruct (Py.dict_get (Py.lower key) (Store._headers o)) as [v |]; simpl;
    eexists; (split; [reflexivity | exact Hresp1]).
Qed.

End HeaderFacts.

(** X8. A response as its constructor builds it, after any run of
    [add_header] calls, stores its headers under lowercase names, one
    entry to a name, with a content type among them; the header list of
    its start message is then the stored list itself. *)
Theorem response_headers_well_formed
    (content : Json.t) (status : Z) (headers : list (string * string))
    (media_type : option string) (adds : list (string * string)) (s : Store.t) :
  exists s' o,
    (r <- Response.init content status headers media_type ;;
     (M.for_each adds (fun kv => Response.add_header r (fst kv) (snd kv)) ;;
      M.ret r)) s
      = (M.Ok (length (Store.responses s)), s') /\
    Store.responses s' !! length (Store.responses s) = Some o /\
    Store.content o = content /\
    Store.status_code o = status /\
    well_formed_headers (Store._headers o) /\
    is_Some (Py.dict_get "content-type" (Store._headers o)) /\
    Response.prepared (Store._headers o) = Store._headers o.
Proof.
  rewrite bind_run. unfold Response.init at 1.
  match goal with |- context [M.bind _ _ ?s1] =>
    destruct (add_headers_run (length (Store.responses s)) adds
                (Store.mk_response content status
                   (Response.init_headers headers media_type)) s1)
      as (s' & Hrun & Hr')
  end.
  { simpl. by rewrite lookup_app_r, Nat.sub_diag by lia. }
  exists s', (Store.mk_response content status
                (CaseInsensitiveDict.lowered adds
                   (Response.init_headers headers media_type))).
  assert (Hwf : well_formed_headers
                  (CaseInsensitiveDict.lowered adds
                     (Response.init_headers headers media_type))).
  { apply lowered_well_formed. apply (lowered_well_formed headers).
    split; [by repeat constructor |]. simpl. apply NoDup_singleton. }
  split; [rewrite bind_run, Hrun; reflexivity |].
  split; [exact Hr' |]. split; [reflexivity |]. split; [reflexivity |].
  split; [exact Hwf |].
  split; [| apply prepared_well_formed, Hwf].
  apply lowered_keeps. apply (lowered_keeps "content-type" headers).
  simpl. eauto.
Qed.

(** X9. On a response whose stored headers are well formed, a header
    added under one spelling of a name is read back through the [headers]
    view under every spelling of it, and the answer for any other name is
    the one stored before. *)
Theorem added_header_is_read_back
    (r : nat) (o : Store.response) (s : Store.t) (key value asked : string) :
  Store.responses s !! r = Some o ->
  well_formed_headers (Store._headers o) ->
  exists s',
    (Response.add_header r key value ;;
     (view <- Response.headers r ;; CaseInsensitiveDict.get view asked)) s
      = (M.Ok (if String.eqb (Py.lower asked) (Py.lower key) then Some value
               else Py.dict_get (Py.lower asked) (Store._headers o)), s').
Proof.
  intros Hr Hwf. rewrite bind_run.
  unfold Response.add_header at 1. unfold Response.deref, Response.assign, M.modify.
  rewrite bind_run, Hr. simpl.
  match goal with |- context [M.bind _ _ ?s1] =>
    destruct (view_get r (Store.mk_response (Store.content o) (Store.status_code o)
                            (Py.dict_set (Py.lower key) value (Store._headers o)))
                s1 asked) as (s' & Hget & _)
  end.
  { simpl. apply list_lookup_insert_eq. eapply lookup_lt_Some. exact Hr. }
  { destruct Hwf as [Hlow Hnd]. split.
    - apply dict_set_lowercase; [apply lower_idem | exact Hlow].
    - by apply dict_set_NoDup. }
  exists s'. rewrite Hget. simpl.
  destruct (String.eqb_spec (Py.lower asked) (Py.lower key)) as [-> | Hne].
  - by rewrite dict_get_set_eq.
  - by rewrite dict_get_set_ne.
Qed.

Lemma added_header_is_read_back_witness :
  exists s',
    (Response.add_header 0 "X-Trace" "abc" ;;
     (view <- Response.headers 0 ;; CaseInsensitiveDict.get view "x-TRACE"))
      (Store.mk [Store.mk_response Json.Null 200 [("content-type", "text/plain")]]
                [] ∅ ∅ [] [])
      = (M.Ok (Some "abc"), s').
Proof.
  apply (added_header_is_read_back 0
           (Store.mk_response Json.Null 200 [("content-type", "text/plain")])
           (Store.mk [Store.mk_response Json.Null 200 [("content-type", "text/plain")]]
                     [] ∅ ∅ [] [])
           "X-Trace" "abc" "x-TRACE").
  - reflexivity.
  - split; [by repeat constructor | simpl; apply NoDup_singleton].
Defined.

(** X10. On a [CaseInsensitiveDict], an item assigned under one spelling
    of a key is read back under every spelling of it and other keys
    answer as before; what [update] is given is not seen by [get],
    [in] or indexing, which answer as before the call. *)
Theorem view_assignment_and_update
    (view : nat) (o : Store.ci_dict) (s : Store.t)
    (key value asked : string) (other : list (string * string)) :
  Store.views s !! view = Some o ->
  (exists s',
      (CaseInsensitiveDict.setitem view key value ;;
       CaseInsensitiveDict.get view asked) s
        = (M.Ok (if String.eqb (Py.lower asked) (Py.lower key) then Some value
                 else Py.dict_get (Py.lower asked) (Store._store o)), s')) /\
  (exists s',
      (CaseInsensitiveDict.update view other ;;
       CaseInsensitiveDict.get view asked) s
        = (M.Ok (Py.dict_get (Py.lower asked) (Store._store o)), s')) /\
  (exists s',
      (CaseInsensitiveDict.update view other ;;
       CaseInsensitiveDict.contains view asked) s
        = (M.Ok (bool_decide (is_Some (Py.dict_get (Py.lower asked) (Store._store o)))),
           s')).
Proof.
  intros Hv.
  assert (Hlt : view < length (Store.views s)) by (eapply lookup_lt_Some; exact Hv).
  split; [| split].
  - rewrite bind_run.
    unfold CaseInsensitiveDict.setitem, CaseInsensitiveDict.get,
      CaseInsensitiveDict.getitem, CaseInsensitiveDict.deref,
      CaseInsensitiveDict.assign, M.modify, M.try_.
    rewrite bind_run, Hv. simpl. rewrite !bind_run. simpl.
    rewrite list_lookup_insert_eq by exact Hlt. simpl.
    destruct (String.eqb_spec (Py.lower asked) (Py.lower key)) as [-> | Hne].
    + rewrite dict_get_set_eq. simpl. eauto.
    + rewrite dict_get_set_ne by exact Hne.
      destruct (Py.dict_get (Py.lower asked) (Store._store o)); simpl; eauto.
  - rewrite bind_run.
    unfold CaseInsensitiveDict.update, CaseInsensitiveDict.get,
      CaseInsensitiveDict.getitem, CaseInsensitiveDict.deref,
      CaseInsensitiveDict.assign, M.modify, M.try_.
    rewrite bind_run, Hv. simpl. rewrite !bind_run. simpl.
    rewrite list_lookup_insert_eq by exact Hlt. simpl.
    destruct (Py.dict_get (Py.lower asked) (Store._store o)); simpl; eauto.
  - rewrite bind_run.
    unfold CaseInsensitiveDict.update, CaseInsensitiveDict.contains,
      CaseInsensitiveDict.deref, CaseInsensitiveDict.assign, M.modify.
    rewrite bind_run, Hv. simpl. rewrite !bind_run. simpl.
    rewrite list_lookup_insert_eq by exact Hlt. simpl. eauto.
Qed.

Lemma view_assignment_and_update_witness :
  exists s',
    (CaseInsensitiveDict.update 0 [("X-Frame-Options", "DENY")] ;;
     CaseInsensitiveDict.get 0 "X-Frame-Options")
      (Store.mk [] [Store.mk_ci_dict [("content-type", "text/plain")] []] ∅ ∅ [] [])
      = (M.Ok None, s').
Proof.
  destruct (view_assignment_and_update 0
              (Store.mk_ci_dict [("content-type", "text/plain")] [])
              (Store.mk [] [Store.mk_ci_dict [("content-type", "text/plain")] []]
                        ∅ ∅ [] [])
              "a" "b" "X-Frame-Options" [("X-Frame-Options", "DENY")] eq_refl)
    as (_ & H & _).
  exact H.
Defined.

(** ** Body models *)

Section ValidationFacts.

Lemma dict_update_absent {V} (k : string) (other : list (string * V)) :
  k ∉ other.*1 ->
  forall d, Py.dict_get k d = None -> Py.dict_get k (Py.dict_update other d) = None.
Proof.
  unfold Py.dict_update.
  induction other as [| [k' v'] other IH]; intros Hk d Hd; simpl; [exact Hd |].
  rewrite fmap_cons in Hk. apply not_elem_of_cons in Hk as [Hne Hk].
  apply IH; [exact Hk |]. by rewrite dict_get_set_ne.
Qed.

(** The loop over the signature stops at the first unbound model
    parameter whose validation fails, before anything is called. *)
Lemma add_body_params_fails (request : Request.t) (parameters : list Handler.param) :
  forall (handler_params : list (string * Value.t)) (s : Store.t)
         (p : Handler.param) (validate : string -> Json.t + string) (detail : string),
    NoDup (map Handler.name parameters) ->
    Forall (fun q => Handler.annotation q <> Annotation.NotAClass) parameters ->
    p ∈ parameters ->
    Handler.annotation p = Annotation.Model validate ->
    validate (Request.body request) = inr detail ->
    Py.dict_get (Handler.name p) handler_params = None ->
    exists q validate' detail',
      q ∈ parameters /\
      Handler.annotation q = Annotation.Model validate' /\
      validate' (Request.body request) = inr detail' /\
      Router.add_body_params request parameters handler_params s
        = (M.Raise (Exn.ValidationError detail'), s).
Proof.
  induction parameters as [| p0 rest IH];
    intros hp s p validate detail Hnd Hcls Hp Hann Hfail Hfree.
  - by apply elem_of_nil in Hp.
  - simpl in Hnd. apply NoDup_cons in Hnd as [Hp0 Hnd].
    apply Forall_cons in Hcls as [Hcls0 Hcls].
    assert (Hrest : forall hp',
               p <> p0 -> Py.dict_get (Handler.name p) hp' = None ->
               exists q validate' detail',
                 q ∈ p0 :: rest /\
                 Handler.annotation q = Annotation.Model validate' /\
                 validate' (Request.body request) = inr detail' /\
                 Router.add_body_params request rest hp' s
                   = (M.Raise (Exn.ValidationError detail'), s)).
    { intros hp' Hne Hfree'.
      apply elem_of_cons in Hp as [-> | Hp]; [done |].
      destruct (IH hp' s p validate detail Hnd Hcls Hp Hann Hfail Hfree')
        as (q & v' & d' & Hq & Hqa & Hqf & Hrun).
      exists q, v', d'. repeat split; try assumption. by right. }
    cbn [Router.add_body_params]. case_bool_decide as Hbound.
    + apply Hrest; [| exact Hfree].
      intros ->. rewrite Hfree in Hbound. by destruct Hbound.
    + destruct (Handler.annotation p0) as [| | | | | | v0 |] eqn:E0;
        try (apply Hrest; [intros ->; congruence | exact Hfree]); [| done].
      unfold Router._extract_body_params. rewrite bind_run.
      destruct (v0 (Request.body request)) as [model | d0] eqn:Ev0.
      * cbn [M.ret]. apply Hrest.
        -- intros ->. rewrite E0 in Hann. injection Hann as <-. congruence.
        -- rewrite dict_get_set_ne; [exact Hfree |].
           intros Heq. apply elem_of_cons in Hp as [-> | Hp].
           ++ rewrite E0 in Hann. injection Hann as <-. congruence.
           ++ apply Hp0. rewrite <- Heq. apply list_elem_of_fmap. eauto.
      * exists p0, v0, d0. split; [by left |]. split; [exact E0 |].
        split; [exact Ev0 | reflexivity].
Qed.

End ValidationFacts.

(** X11. When the handler of the matched route declares a body model
    that is bound by no path parameter and the request body fails its
    validation, the answer is the 422 JSON response carrying the error
    text of a failing model of the signature, and the handler is not
    entered. (No annotation of the signature is a non-class, for which
    [issubclass] raises.) *)
Theorem failed_validation_is_answered_422
    (route : Route.t) (params : list (string * PathValue.t)) (request : Request.t)
    (s : Store.t) (p : Handler.param) (validate : string -> Json.t + string)
    (detail : string) :
  NoDup (map Handler.name (Handler.parameters (Route.handler route))) ->
  Forall (fun q => Handler.annotation q <> Annotation.NotAClass)
         (Handler.parameters (Route.handler route)) ->
  p ∈ Handler.parameters (Route.handler route) ->
  Handler.annotation p = Annotation.Model validate ->
  validate (Request.body request) = inr detail ->
  Handler.name p ∉ params.*1 ->
  Handler.name p <> "ctx" ->
  Handler.name p <> "request" ->
  exists q validate' detail' s',
    q ∈ Handler.parameters (Route.handler route) /\
    Handler.annotation q = Annotation.Model validate' /\
    validate' (Request.body request) = inr detail' /\
    Router.process route params request s = (M.Ok (length (Store.responses s)), s') /\
    Store.responses s' =
      Store.responses s ++
      [Store.mk_response (Json.Obj [("error", Json.Str detail')]) 422
         [("content-type", "application/json")]] /\
    Store.calls s' = Store.calls s /\
    Store.sent s' = Store.sent s.
Proof.
  intros Hnd Hcls Hp Hann Hfail Hfree Hctx Hreq.
  set (kwargs0 := Py.dict_update (map (fun kv => (fst kv, Value.Path (snd kv))) params) []).
  assert (H0 : Py.dict_get (Handler.name p) kwargs0 = None).
  { apply dict_update_absent; [| reflexivity].
    rewrite <- list_fmap_compose. exact Hfree. }
  set (kwargs :=
         if Handler.has_parameter (Route.handler route) "ctx"
         then Py.dict_set "ctx" (Value.Context request) kwargs0
         else if Handler.has_parameter (Route.handler route) "request"
         then Py.dict_set "request" (Value.TheRequest request) kwargs0
         else kwargs0).
  assert (H1 : Py.dict_get (Handler.name p) kwargs = None).
  { unfold kwargs.
    destruct (Handler.has_parameter _ "ctx"); [by rewrite dict_get_set_ne |].
    destruct (Handler.has_parameter _ "request"); [by rewrite dict_get_set_ne |].
    exact H0. }
  destruct (add_body_params_fails request _ kwargs
              (Store.set_path_params
                 (fun m => <[Request.id request := params]> m) s)
              p validate detail Hnd Hcls Hp Hann Hfail H1)
    as (q & v' & d' & Hq & Hqa & Hqf & Hrun).
  exists q, v', d'. eexists.
  split; [exact Hq |]. split; [exact Hqa |]. split; [exact Hqf |].
  unfold Router.process, Router.set_path_params, M.modify.
  rewrite bind_run. cbv zeta. unfold M.try_. rewrite bind_run.
  fold kwargs0. fold kwargs. rewrite Hrun.
  unfold Response.JSONResponse, Response.init. cbn [Exn.str Store.responses Store.set_path_params].
  split; [reflexivity |]. repeat split.
Qed.

Lemma failed_validation_is_answered_422_witness :
  exists s',
    Router.process Sample.create_route [] (Request.mk 0 "POST" "/items" [] "" "{}")
      Store.empty = (M.Ok 0, s') /\
    Store.responses s' =
      [Store.mk_response (Json.Obj [("error", Json.Str "Field required")]) 422
         [("content-type", "application/json")]] /\
    Store.calls s' = [].
Proof.
  destruct (failed_validation_is_answered_422 Sample.create_route []
              (Request.mk 0 "POST" "/items" [] "" "{}") Store.empty
              (Handler.mk_param "item" (Annotation.Model Sample.item_model) false)
              Sample.item_model "Field required")
    as (q & v & d & s' & Hq & Hqa & Hqf & Hrun & Hresp & Hcalls & _).
  - simpl. apply NoDup_singleton.
  - repeat constructor. discriminate.
  - apply list_elem_of_singleton. reflexivity.
  - reflexivity.
  - reflexivity.
  - apply not_elem_of_nil.
  - discriminate.
  - discriminate.
  - exists s'. split; [exact Hrun |]. split; [| exact Hcalls].
    rewrite Hresp. simpl in Hq. apply list_elem_of_singleton in Hq. subst q.
    simpl in Hqa. injection Hqa as <-. simpl in Hqf. injection Hqf as <-. reflexivity.
Defined.

(** ** One HTTP request, end to end *)

Section HttpFacts.

Lemma call_ok_inv (r : nat) (s s' : Store.t) :
  Response.call r s = (M.Ok tt, s') ->
  exists o,
    Store.responses s !! r = Some o /\
    Store.sent s' = Store.sent s ++
      [Message.Start (Store.status_code o) (Response.prepared (Store._headers o));
       Message.Body (Store.content o) false].
Proof.
  destruct (Store.responses s !! r) as [o |] eqn:Hr.
  - destruct (call_sends r o s Hr) as (s1 & Hc & _ & Hs). rewrite Hc.
    intros [= <-]. eauto.
  - unfold Response.call, Response.deref. rewrite bind_run, Hr. discriminate.
Qed.

(** Sending a response enters no user callable. *)
Lemma call_calls (r : nat) (s : Store.t) :
  Store.calls (snd (Response.call r s)) = Store.calls s.
Proof.
  unfold Response.call, Response._prepare_headers, Response.deref, Response.send,
    M.modify, M.bind, M.ret, dangling, M.raise.
  destruct (Store.responses s !! r) as [o |] eqn:Hr; simpl; [| reflexivity].
  rewrite Hr. reflexivity.
Qed.

(** The error response of [_handle_http] is built and sent in any state. *)
Lemma error_response_sent (content : Json.t) (s : Store.t) :
  exists s',
    (error_response <- Response.JSONResponse content 500 [] ;;
     Response.call error_response) s = (M.Ok tt, s') /\
    Store.sent s' = Store.sent s ++
      [Message.Start 500 [("content-type", "application/json")];
       Message.Body content false] /\
    Store.calls s' = Store.calls s.
Proof.
  rewrite bind_run. unfold Response.JSONResponse, Response.init.
  match goal with |- context [Response.call ?r ?s1] =>
    destruct (call_sends r (Store.mk_response content 500
                              (Response.init_headers [] (Some "application/json"))) s1)
      as (s' & Hc & _ & Hs);
    [| pose proof (call_calls r s1) as Hcalls ]
  end.
  { simpl. by rewrite lookup_app_r, Nat.sub_diag by lia. }
  exists s'. split; [exact Hc |]. rewrite Hs. split; [reflexivity |].
  rewrite Hc in Hcalls. exact Hcalls.
Qed.

End HttpFacts.

(** X12. Within these bounds: what handlers, middlewares and hooks raise
    is an [Exception] (the exceptions of [Exn.t]; [SystemExit],
    [KeyboardInterrupt] and [asyncio.CancelledError] pass
    [except Exception] and are not modelled), the response objects are of
    the classes that send with [Response.__call__] ([Response],
    [JSONResponse], [HTMLResponse]; not [StreamingResponse], which sends
    chunks), and [send] does not fail. Then [_handle_http] returns
    normally whatever the router, the middlewares, the plugins and the
    handlers do, and the last two messages it leaves with the transport
    are the start and the complete body of one response. *)
Theorem http_request_is_answered
    (app : Application.t) (request : Request.t) (s : Store.t) :
  exists s' earlier status headers content,
    Application._handle_http app request s = (M.Ok tt, s') /\
    Store.sent s' =
      earlier ++ [Message.Start status headers; Message.Body content false].
Proof.
  unfold Application._handle_http, M.try_.
  match goal with |- context [match ?body s with _ => _ end] =>
    destruct (body s) as [[[] | e] s1] eqn:E
  end.
  - apply bind_ok in E as (? & s2 & _ & E).
    apply bind_ok in E as (response & s3 & _ & E).
    apply bind_ok in E as (? & s4 & _ & E).
    apply call_ok_inv in E as (o & _ & Hs).
    exists s1, (Store.sent s4). eauto.
  - match goal with |- context [Response.JSONResponse ?content 500 []] =>
      destruct (error_response_sent content s1) as (s' & Hrun & Hs & _)
    end.
    exists s', (Store.sent s1). eauto.
Qed.

(** X13. With plugins disabled, an exception that leaves the router
    reaches the client as a JSON response. An [HTTPException] gives its
    own status, detail and headers (under lowercase names, after the
    content type). Any other exception gives status 500 with the path,
    and its text is passed on in debug mode only: otherwise the message
    is "Internal Server Error". No middleware runs. *)
Theorem dispatch_error_reaches_client
    (app : Application.t) (router : Router.t) (request : Request.t)
    (s s1 : Store.t) (e : Exn.t) :
  Application._plugins_enabled app = false ->
  Application.router app = Some router ->
  Router.handle_request router request s = (M.Raise e, s1) ->
  exists s',
    Application._handle_http app request s = (M.Ok tt, s') /\
    Store.calls s' = Store.calls s1 /\
    Store.sent s' = Store.sent s1 ++
      (if Exn.is_http e then
         [Message.Start (Application.status_of e)
            (Response.init_headers (Application.headers_of e) (Some "application/json"));
          Message.Body
            (Json.Obj [("error", Json.Str (Application.detail_of e));
                       ("status_code", Json.Int (Application.status_of e))]) false]
       else
         [Message.Start 500 [("content-type", "application/json")];
          Message.Body
            (Json.Obj [("error", Json.Str (if Application.debug app then Exn.str e
                                           else "Internal Server Error"));
                       ("status_code", Json.Int 500);
                       ("path", Json.Str (Request.path request))]) false]).
Proof.
  intros Hplug Hrouter Hrun.
  assert (Hdispatch :
            Application.handle_request app request s =
            if Exn.is_http e then
              Response.JSONResponse
                (Json.Obj [("error", Json.Str (Application.detail_of e));
                           ("status_code", Json.Int (Application.status_of e))])
                (Application.status_of e) (Application.headers_of e) s1
            else
              (M.Raise (Exn.InternalServerError
                          (if Application.debug app then Some (Exn.str e) else None)),
               s1)).
  { unfold Application.handle_request, M.try_. rewrite Hrouter, bind_ret, bind_run, Hrun.
    destruct (Exn.is_http e); reflexivity. }
  unfold Application._handle_http, M.try_. rewrite Hplug, bind_ret, bind_run, Hdispatch.
  destruct (Exn.is_http e).
  - unfold Response.JSONResponse, Response.init. rewrite bind_ret.
    match goal with |- context [Response.call ?r ?s2] =>
      destruct (call_sends r
                  (Store.mk_response
                     (Json.Obj [("error", Json.Str (Application.detail_of e));
                                ("status_code", Json.Int (Application.status_of e))])
                     (Application.status_of e)
                     (Response.init_headers (Application.headers_of e)
                        (Some "application/json"))) s2)
        as (s' & Hc & Hr & Hs);
      [| pose proof (call_calls r s2) as Hcalls ]
    end.
    { simpl. by rewrite lookup_app_r, Nat.sub_diag by lia. }
    exists s'. rewrite Hc. split; [reflexivity |].
    split; [rewrite Hc in Hcalls; exact Hcalls |].
    rewrite Hs. simpl. rewrite prepared_well_formed; [reflexivity |].
    apply (lowered_well_formed (Application.headers_of e)).
    split; [by repeat constructor | simpl; apply NoDup_singleton].
  - match goal with |- context [Response.JSONResponse ?content 500 []] =>
      pose proof (error_response_sent content s1) as (s' & Hc & Hs & Hcalls)
    end.
    exists s'. rewrite Hc. split; [reflexivity |]. split; [exact Hcalls |].
    rewrite Hs. destruct (Application.debug app); reflexivity.
Qed.

Lemma dispatch_error_reaches_client_witness :
  exists s',
    Application._handle_http
      (Application.set_router
         (registered [Sample.failing_route; Sample.teapot_route])
         (Application.init false false))
      (Fixture.request 0 "GET" "/fail" []) Store.empty = (M.Ok tt, s') /\
    Store.sent s' =
      [Message.Start 500 [("content-type", "application/json")];
       Message.Body
         (Json.Obj [("error", Json.Str "Internal Server Error");
                    ("status_code", Json.Int 500);
                    ("path", Json.Str "/fail")]) false].
Proof.
  destruct (dispatch_error_reaches_client
              (Application.set_router
                 (registered [Sample.failing_route; Sample.teapot_route])
                 (Application.init false false))
              (registered [Sample.failing_route; Sample.teapot_route])
              (Fixture.request 0 "GET" "/fail" []) Store.empty
              (Store.mk [] [] ∅ {[ 0 := [] ]} [Store.mk_call 31 []] [])
              (Exn.Other "ValueError" "boom") eq_refl eq_refl)
    as (s' & Hrun & _ & Hsent).
  - vm_compute. reflexivity.
  - exists s'. split; [exact Hrun | exact Hsent].
Defined.

(** ** Startup and shutdown with failing handlers *)

Section FailingHandlers.

Lemma for_each_app_swallow {A} (xs : list A) (hook : A -> M.t unit) :
  forall s, exists s',
    M.for_each xs (fun x => Application.swallow (hook x)) s = (M.Ok tt, s').
Proof. exact (for_each_swallow xs hook). Qed.

Lemma for_each_stops {A} (f : A -> M.t unit) (before after : list A) (x : A)
    (e : Exn.t) :
  forall s s1 s2,
    M.for_each before f s = (M.Ok tt, s1) ->
    f x s1 = (M.Raise e, s2) ->
    M.for_each (before ++ x :: after) (fun y => Application.logged (f y)) s
      = (M.Raise e, s2).
Proof.
  induction before as [| b before IH]; intros s s1 s2 Hbefore Hx; simpl in *.
  - injection Hbefore as <-. rewrite bind_run. unfold Application.logged, M.try_.
    rewrite Hx. reflexivity.
  - apply bind_ok in Hbefore as ([] & s0 & Hb & Hrest).
    rewrite bind_run. unfold Application.logged at 1. unfold M.try_. rewrite Hb.
    exact (IH s0 s1 s2 Hrest Hx).
Qed.

End FailingHandlers.

(** X14. [shutdown()] is best effort for every [Exception]: whichever of
    the shutdown handlers, the plugins' shutdown hooks and the lifespan
    manager raise an exception derived from [Exception] (the exceptions of
    [Exn.t]), it returns normally with [_shutdown_complete] set. What is
    not derived from [Exception] ([SystemExit], [KeyboardInterrupt],
    [asyncio.CancelledError]) passes the [except Exception] clauses and
    is not modelled: nothing is stated of it. (The plugin manager exists
    when plugins are enabled, as the constructor has it.) *)
Theorem shutdown_survives_exceptions (app : Application.t) (s : Store.t) :
  (Application._plugins_enabled app = true ->
   is_Some (Application.plugin_manager app)) ->
  exists app' s',
    Application.shutdown app s = (M.Ok app', s') /\
    Application._shutdown_complete app' = true /\
    Application._startup_complete app' = Application._startup_complete app /\
    Application._shutdown_handlers app' = Application._shutdown_handlers app.
Proof.
  intros Hmanager. unfold Application.shutdown.
  destruct (Application._shutdown_complete app) eqn:Hflag.
  { exists app, s. repeat split. exact Hflag. }
  unfold Application.logged, M.try_. rewrite bind_run.
  destruct (for_each_app_swallow (Application._shutdown_handlers app)
              Application.run_handler s) as [s1 ->].
  rewrite bind_run.
  assert (Hplugins : exists s2,
             (if Application._plugins_enabled app
              then Application.with_plugin_manager app PluginManager.shutdown
              else M.ret tt) s1 = (M.Ok tt, s2)).
  { destruct (Application._plugins_enabled app); [| by exists s1].
    destruct (Hmanager eq_refl) as [manager Hm].
    unfold Application.with_plugin_manager. rewrite Hm.
    apply (for_each_swallow (PluginManager.plugins manager) Plugin.on_shutdown). }
  destruct Hplugins as [s2 ->]. rewrite bind_run.
  destruct (Application._lifespan_manager app) as [manager |].
  - destruct (swallow_ok (Application.aexit manager) s2) as [s3 H3].
    change (PluginManager.swallow (Application.aexit manager))
      with (Application.swallow (Application.aexit manager)) in H3.
    rewrite H3. eexists _, s3. split; [reflexivity |]. repeat split.
  - eexists _, s2. split; [reflexivity |]. repeat split.
Qed.

Lemma shutdown_survives_exceptions_witness :
  exists app' s',
    Application.shutdown Sample.broken_app Store.empty = (M.Ok app', s') /\
    Application._shutdown_complete app' = true /\
    Store.calls s' = [Store.mk_call 23 []; Store.mk_call 21 []].
Proof.
  destruct (shutdown_survives_exceptions Sample.broken_app Store.empty)
    as (app' & s' & Hrun & Hflag & _); [discriminate |].
  exists app', s'. split; [exact Hrun |]. split; [exact Hflag |].
  vm_compute in Hrun. injection Hrun as _ <-. reflexivity.
Defined.

(** X15. [startup()] fails fast: when a startup handler raises after the
    handlers before it returned, the same exception leaves [startup()]
    from the state that handler left, so neither a later handler, nor the
    plugins' startup hooks, nor the lifespan manager has run. *)
Theorem startup_fails_fast
    (app : Application.t) (before after : list Application.event_handler)
    (failing : Application.event_handler) (e : Exn.t) (s s1 s2 : Store.t) :
  Application._startup_complete app = false ->
  Application._startup_handlers app = before ++ failing :: after ->
  M.for_each before Application.run_handler s = (M.Ok tt, s1) ->
  Application.run_handler failing s1 = (M.Raise e, s2) ->
  Application.startup app s = (M.Raise e, s2).
Proof.
  intros Hflag Hhandlers Hbefore Hfailing.
  unfold Application.startup. rewrite Hflag, Hhandlers.
  unfold Application.logged at 1. unfold M.try_. rewrite bind_run.
  rewrite (for_each_stops Application.run_handler before after failing e s s1 s2
             Hbefore Hfailing).
  reflexivity.
Qed.

Lemma startup_fails_fast_witness :
  Application.startup Sample.broken_app Store.empty
  = (M.Raise (Exn.Other "RuntimeError" "no database"),
     Store.mk [] [] ∅ ∅ [Store.mk_call 20 []; Store.mk_call 22 []] []).
Proof.
  apply (startup_fails_fast Sample.broken_app [Fixture.on_startup] [Sample.late_startup]
           Sample.broken_startup (Exn.Other "RuntimeError" "no database")
           Store.empty (Store.mk [] [] ∅ ∅ [Store.mk_call 20 []] [])
           (Store.mk [] [] ∅ ∅ [Store.mk_call 20 []; Store.mk_call 22 []] []));
    reflexivity.
Defined.

(** ** Plugin hooks *)

Section HookFacts.

Lemma for_each_snoc_swallow {A} (xs : list A) (x : A) (hook : A -> M.t unit) :
  forall s,
    M.for_each (xs ++ [x]) (fun y => PluginManager.swallow (hook y)) s
    = PluginManager.swallow (hook x)
        (snd (M.for_each xs (fun y => PluginManager.swallow (hook y)) s)).
Proof.
  induction xs as [| y xs IH]; intros s; simpl.
  - rewrite bind_run. destruct (swallow_ok (hook x) s) as [s' ->]. reflexivity.
  - rewrite !bind_run. destruct (swallow_ok (hook y) s) as [s1 ->]. apply IH.
Qed.

End HookFacts.

(** X16. The hooks of the registered plugins are isolated from one
    another as far as exceptions derived from [Exception] go (the
    exceptions of [Exn.t]; [SystemExit], [KeyboardInterrupt] and
    [asyncio.CancelledError] pass [except Exception] and are not
    modelled): each of the four manager calls returns normally whichever
    hooks raise such an exception, and the hook of a plugin registered
    last runs after all the others, from the state they leave, whether or
    not they raised one. *)
Theorem plugin_hooks_are_isolated
    (manager : PluginManager.t) (plugin : Plugin.t) (request : Request.t)
    (response : nat) (s : Store.t) :
  (exists s1 s2 s3,
      PluginManager.run_post_request manager request response s = (M.Ok tt, s1) /\
      PluginManager.startup manager s = (M.Ok tt, s2) /\
      PluginManager.shutdown manager s = (M.Ok tt, s3)) /\
  PluginManager.run_pre_request (PluginManager.register plugin manager) request s
    = PluginManager.swallow (Plugin.pre_request plugin request)
        (snd (PluginManager.run_pre_request manager request s)) /\
  PluginManager.run_post_request (PluginManager.register plugin manager) request response s
    = PluginManager.swallow (Plugin.post_request plugin request response)
        (snd (PluginManager.run_post_request manager request response s)) /\
  PluginManager.startup (PluginManager.register plugin manager) s
    = PluginManager.swallow (Plugin.on_startup plugin)
        (snd (PluginManager.startup manager s)) /\
  PluginManager.shutdown (PluginManager.register plugin manager) s
    = PluginManager.swallow (Plugin.on_shutdown plugin)
        (snd (PluginManager.shutdown manager s)).
Proof.
  split.
  - destruct (for_each_swallow (PluginManager.plugins manager)
                (fun p => Plugin.post_request p request response) s) as [s1 H1].
    destruct (for_each_swallow (PluginManager.plugins manager) Plugin.on_startup s)
      as [s2 H2].
    destruct (for_each_swallow (PluginManager.plugins manager) Plugin.on_shutdown s)
      as [s3 H3].
    exists s1, s2, s3. auto.
  - unfold PluginManager.run_pre_request, PluginManager.run_post_request,
      PluginManager.startup, PluginManager.shutdown, PluginManager.register.
    cbn [PluginManager.plugins].
    split; [apply (for_each_snoc_swallow _ plugin
                     (fun p => Plugin.pre_request p request)) |].
    split; [apply (for_each_snoc_swallow _ plugin
                     (fun p => Plugin.post_request p request response)) |].
    split; [apply (for_each_snoc_swallow _ plugin Plugin.on_startup) |].
    apply (for_each_snoc_swallow _ plugin Plugin.on_shutdown).
Qed.

(** ** The cache plugin *)

Section CacheFacts.

Lemma dict_set_length {V} (k : string) (v : V) (d : list (string * V)) :
  length (Py.dict_set k v d) <= S (length d).
Proof.
  induction d as [| [k' v'] d IH]; simpl; [lia |].
  destruct (String.eqb k k'); simpl; lia.
Qed.

End CacheFacts.

(** X17. With a size limit of at least one, the cache of the cache
    plugin never grows beyond the limit: a post hook on a cache within the
    limit leaves it within the limit. It stores the response of a GET
    answered 200 under the key of the request and changes nothing for any
    other request. A later GET with that key does not get the stored
    response: the pre hook raises [AttributeError], a request having no
    [state]. *)
Theorem cache_stays_within_max_size
    (self : CachePlugin.t) (request : Request.t) (response : nat)
    (o : Store.response) (s : Store.t) :
  (1 <= CachePlugin.max_size self)%Z ->
  (Z.of_nat (length (CachePlugin.cache self)) <= CachePlugin.max_size self)%Z ->
  Store.responses s !! response = Some o ->
  exists self',
    CachePlugin.post_request self request response s = (M.Ok self', s) /\
    CachePlugin.max_size self' = CachePlugin.max_size self /\
    (Z.of_nat (length (CachePlugin.cache self')) <= CachePlugin.max_size self)%Z /\
    if String.eqb (Request.method request) "GET" && (Store.status_code o =? 200)%Z
    then
      Py.dict_get (CachePlugin._get_cache_key request) (CachePlugin.cache self')
        = Some response /\
      forall t, exists e,
        CachePlugin.pre_request self' request t = (M.Raise e, t) /\
        Exn.is_a "AttributeError" e = true
    else self' = self.
Proof.
  intros Hmax Hlen Hr. unfold CachePlugin.post_request.
  destruct (String.eqb (Request.method request) "GET") eqn:Hget; simpl;
    [| exists self; repeat split; exact Hlen].
  unfold Response.status_code, Response.deref. rewrite !bind_run, Hr.
  cbn [M.ret Store.status_code].
  destruct (Store.status_code o =? 200)%Z eqn:Hstatus;
    [| exists self; repeat split; exact Hlen].
  rewrite bind_run.
  assert (Hpopped : exists cache1,
             (if (CachePlugin.max_size self <=? Z.of_nat (length (CachePlugin.cache self)))%Z
              then CachePlugin.pop_first (CachePlugin.cache self)
              else M.ret (CachePlugin.cache self)) s = (M.Ok cache1, s) /\
             (Z.of_nat (length cache1) < CachePlugin.max_size self)%Z).
  { destruct (Z.leb_spec (CachePlugin.max_size self)
                (Z.of_nat (length (CachePlugin.cache self)))) as [Hfull | Hroom].
    - destruct (CachePlugin.cache self) as [| first rest] eqn:Hcache;
        [simpl in Hfull; lia |].
      exists rest. split; [reflexivity |]. simpl in Hlen. lia.
    - exists (CachePlugin.cache self). split; [reflexivity | exact Hroom]. }
  destruct Hpopped as (cache1 & -> & Hlen1).
  eexists. split; [reflexivity |]. cbn [CachePlugin.max_size CachePlugin.cache].
  split; [reflexivity |].
  split.
  { pose proof (dict_set_length (CachePlugin._get_cache_key request) response cache1).
    lia. }
  split; [apply dict_get_set_eq |].
  intros t. unfold CachePlugin.pre_request. rewrite Hget.
  cbn [CachePlugin.cache]. rewrite dict_get_set_eq.
  rewrite bool_decide_eq_true_2 by eauto.
  eexists. split; reflexivity.
Qed.

Lemma cache_stays_within_max_size_witness :
  exists self',
    CachePlugin.post_request (CachePlugin.mk [("GET:/a", 0)] 1)
      (Fixture.request 1 "GET" "/b" []) 1
      (Store.mk [Store.mk_response Json.Null 200 []; Store.mk_response Json.Null 200 []]
                [] ∅ ∅ [] [])
    = (M.Ok self',
       Store.mk [Store.mk_response Json.Null 200 []; Store.mk_response Json.Null 200 []]
                [] ∅ ∅ [] []) /\
    CachePlugin.cache self' = [("GET:/b", 1)].
Proof.
  destruct (cache_stays_within_max_size (CachePlugin.mk [("GET:/a", 0)] 1)
              (Fixture.request 1 "GET" "/b" []) 1 (Store.mk_response Json.Null 200 [])
              (Store.mk [Store.mk_response Json.Null 200 []; Store.mk_response Json.Null 200 []]
                        [] ∅ ∅ [] []))
    as (self' & Hrun & _); [simpl; lia | simpl; lia | reflexivity |].
  exists self'. split; [exact Hrun |].
  vm_compute in Hrun. injection Hrun as <-. reflexivity.
Defined.

(** ** The CORS middleware *)

Section CorsFacts.

Lemma add_header_ok (r : nat) (o : Store.response) (s : Store.t) (key value : string) :
  Store.responses s !! r = Some o ->
  exists s',
    Response.add_header r key value s = (M.Ok tt, s') /\
    Store.responses s' !! r =
      Some (Store.mk_response (Store.content o) (Store.status_code o)
              (Py.dict_set (Py.lower key) value (Store._headers o))).
Proof.
  intros Hr. unfold Response.add_header, Response.deref, Response.assign, M.modify.
  rewrite bind_run, Hr. eexists. split; [reflexivity |]. simpl.
  apply list_lookup_insert_eq. eapply lookup_lt_Some. exact Hr.
Qed.

End CorsFacts.

(** X18. What the CORS middleware makes of the response of [call_next].
    A preflight request (OPTIONS) always gets an allow-origin header: the
    wildcard when it is configured, otherwise the request's own [Origin]
    whether or not it is among the configured origins (the empty string
    without one). Any other request gets the wildcard when it is
    configured, its own origin when that is configured, and otherwise the
    allow-origin header the response already had, if any. Status and
    content are those of the response. *)
Theorem cors_allow_origin
    (self : CORSMiddleware.t) (request : Request.t)
    (call_next : Request.t -> M.t nat) (s s1 : Store.t) (r : nat) (o : Store.response) :
  call_next request s = (M.Ok r, s1) ->
  Store.responses s1 !! r = Some o ->
  exists s2 o',
    CORSMiddleware.call self request call_next s = (M.Ok r, s2) /\
    Store.responses s2 !! r = Some o' /\
    Store.content o' = Store.content o /\
    Store.status_code o' = Store.status_code o /\
    Py.dict_get "access-control-allow-origin" (Store._headers o') =
      if String.eqb (Request.method request) "OPTIONS" then
        Some (if bool_decide ("*" ∈ CORSMiddleware.allow_origins self) then "*"
              else default "" (CORSMiddleware.origin_of request))
      else if bool_decide ("*" ∈ CORSMiddleware.allow_origins self) then Some "*"
      else
        match CORSMiddleware.origin_of request with
        | Some origin =>
            if negb (String.eqb origin "") &&
               bool_decide (origin ∈ CORSMiddleware.allow_origins self)
            then Some origin
            else Py.dict_get "access-control-allow-origin" (Store._headers o)
        | None => Py.dict_get "access-control-allow-origin" (Store._headers o)
        end.
Proof.
  intros Hnext Hr. unfold CORSMiddleware.call. rewrite bind_run, Hnext. cbv zeta.
  destruct (String.eqb (Request.method request) "OPTIONS").
  - rewrite bind_run.
    destruct (add_header_ok r o s1 "access-control-allow-origin"
                (if bool_decide ("*" ∈ CORSMiddleware.allow_origins self) then "*"
                 else default "" (CORSMiddleware.origin_of request)) Hr)
      as (t1 & -> & H1).
    rewrite bind_run.
    destruct (add_header_ok r _ t1 "access-control-allow-methods"
                "GET, POST, PUT, DELETE, PATCH, OPTIONS" H1) as (t2 & -> & H2).
    rewrite bind_run.
    destruct (add_header_ok r _ t2 "access-control-allow-headers"
                "Content-Type, Authorization" H2) as (t3 & -> & H3).
    rewrite bind_run.
    destruct (add_header_ok r _ t3 "access-control-max-age" "3600" H3)
      as (t4 & -> & H4).
    eexists t4, _. split; [reflexivity |]. split; [exact H4 |].
    cbn [Store.content Store.status_code Store._headers].
    split; [reflexivity |]. split; [reflexivity |].
    rewrite !dict_get_set_ne by (vm_compute; discriminate).
    change (Py.lower "access-control-allow-origin") with "access-control-allow-origin".
    apply dict_get_set_eq.
  - destruct (bool_decide ("*" ∈ CORSMiddleware.allow_origins self)).
    + rewrite bind_run.
      destruct (add_header_ok r o s1 "access-control-allow-origin" "*" Hr)
        as (t1 & -> & H1).
      eexists t1, _. split; [reflexivity |]. split; [exact H1 |].
      cbn [Store.content Store.status_code Store._headers].
      split; [reflexivity |]. split; [reflexivity |].
      change (Py.lower "access-control-allow-origin") with "access-control-allow-origin".
      apply dict_get_set_eq.
    + destruct (CORSMiddleware.origin_of request) as [origin |];
        [| exists s1, o; repeat split; assumption].
      destruct (negb (String.eqb origin "") &&
                bool_decide (origin ∈ CORSMiddleware.allow_origins self));
        [| exists s1, o; repeat split; assumption].
      rewrite bind_run.
      destruct (add_header_ok r o s1 "access-control-allow-origin" origin Hr)
        as (t1 & -> & H1).
      rewrite bind_run.
      destruct (add_header_ok r _ t1 "vary" "Origin" H1) as (t2 & -> & H2).
      eexists t2, _. split; [reflexivity |]. split; [exact H2 |].
      cbn [Store.content Store.status_code Store._headers].
      split; [reflexivity |]. split; [reflexivity |].
      rewrite dict_get_set_ne by (vm_compute; discriminate).
      change (Py.lower "access-control-allow-origin") with "access-control-allow-origin".
      apply dict_get_set_eq.
Qed.

(** A preflight from an origin that is not configured is answered with
    that origin allowed. *)
Lemma cors_allow_origin_witness :
  exists s2 o',
    CORSMiddleware.call (CORSMiddleware.init ["https://app.example"])
      (Fixture.request 0 "OPTIONS" "/" [("Origin", "https://evil.test")])
      (fun _ => M.ret 0)
      (Store.mk [Store.mk_response Json.Null 200 [("content-type", "text/plain")]]
                [] ∅ ∅ [] [])
      = (M.Ok 0, s2) /\
    Store.responses s2 !! 0 = Some o' /\
    Py.dict_get "access-control-allow-origin" (Store._headers o')
      = Some "https://evil.test".
Proof.
  destruct (cors_allow_origin (CORSMiddleware.init ["https://app.example"])
              (Fixture.request 0 "OPTIONS" "/" [("Origin", "https://evil.test")])
              (fun _ => M.ret 0)
              (Store.mk [Store.mk_response Json.Null 200 [("content-type", "text/plain")]]
                        [] ∅ ∅ [] [])
              (Store.mk [Store.mk_response Json.Null 200 [("content-type", "text/plain")]]
                        [] ∅ ∅ [] [])
              0 (Store.mk_response Json.Null 200 [("content-type", "text/plain")])
              eq_refl eq_refl)
    as (s2 & o' & Hrun & Hr & _ & _ & Horigin).
  exists s2, o'. split; [exact Hrun |]. split; [exact Hr |].
  rewrite Horigin. reflexivity.
Defined.

(** ** Registration with the decorator *)

Section BuildPathFacts.

Lemma join_cons (sep x : string) (xs : list string) :
  exists rest, Py.join sep (x :: xs) = x +:+ rest.
Proof.
  destruct xs as [| y ys]; simpl.
  - exists "". by rewrite str_app_nil_r.
  - eauto.
Qed.

(** With a version, the built path begins with two slashes. *)
Lemma build_path_versioned (self : Router.t) (path v : string) :
  Router.version self = Some v -> v <> "" ->
  exists rest,
    Registration._build_path self path = String "/" (String "/" (String "v" (v +:+ rest))).
Proof.
  intros Hv Hne. unfold Registration._build_path. rewrite Hv.
  apply String.eqb_neq in Hne. rewrite Hne.
  cbn [List.app List.filter]. change ("/v" +:+ v) with (String "/" (String "v" v)).
  cbn [String.eqb negb].
  match goal with |- context [Py.join "/" (?x :: ?xs)] =>
    destruct (join_cons "/" x xs) as [rest ->]
  end.
  exists rest. reflexivity.
Qed.

Lemma match_two_slashes (ts : list PathRegex.token) (p : string)
    (groups : list (string * string)) :
  PathRegex.match_tokens (PathRegex.Lit "/" :: PathRegex.Lit "/" :: ts) p = Some groups ->
  exists p', p = String "/" (String "/" p').
Proof.
  cbn [PathRegex.match_tokens].
  destruct p as [| c p]; [discriminate |].
  destruct (Ascii.eqb "/" c) eqn:Ec; [| discriminate].
  apply Ascii.eqb_eq in Ec as <-.
  destruct p as [| c p]; [discriminate |].
  destruct (Ascii.eqb "/" c) eqn:Ec; [| discriminate].
  apply Ascii.eqb_eq in Ec as <-.
  eauto.
Qed.

(** A pattern that begins with two slashes matches only such paths. *)
Lemma compile_two_slashes (names : list string) (template p : string)
    (regex : string -> option (list (string * string)))
    (groups : list (string * string)) :
  PathRegex.compile names (String "/" (String "/" template)) = Some regex ->
  regex p = Some groups ->
  exists p', p = String "/" (String "/" p').
Proof.
  unfold PathRegex.compile. cbn [PathRegex.scan].
  change (Ascii.eqb "/" "{") with false. change (Ascii.eqb "/" ".") with false.
  change (PathRegex.is_operator "/") with false. cbv iota.
  destruct (PathRegex.scan names PathRegex.Outside template) as [ts |]; [| discriminate].
  cbn [fmap option_fmap option_map mbind option_bind].
  destruct (bool_decide _); [| discriminate].
  intros Hregex Hp.
  assert (Heq : regex = PathRegex.match_tokens
                          (PathRegex.Lit "/" :: PathRegex.Lit "/" :: ts))
    by congruence.
  rewrite Heq in Hp. exact (match_two_slashes ts p groups Hp).
Qed.

End BuildPathFacts.

(** X19. A route registered with the decorator on a router that has a
    version is appended to the router's routes under a path that begins
    with two slashes, ["//v<version>"], and matches only request paths
    that begin with two slashes: a request for ["/v<version>/..."] does
    not reach it. *)
Theorem versioned_route_needs_two_slashes
    (self self' : Router.t) (v path : string) (methods : list string)
    (name : option string) (dependencies : list Depends.t)
    (rate_limit : option RateLimit.t) (handler : Handler.t) :
  Router.version self = Some v ->
  v <> "" ->
  Registration.route path methods name dependencies rate_limit handler self = Some self' ->
  exists route rest,
    Router.routes self' = Router.routes self ++ [route] /\
    Route.handler route = handler /\
    Route.methods route = Registration.route_methods methods /\
    Route.path route = "//v" +:+ v +:+ rest /\
    forall p params,
      Route.match_ route p = Some params -> exists p', p = "//" +:+ p'.
Proof.
  intros Hv Hne Hroute.
  destruct (build_path_versioned self path v Hv Hne) as [rest Hbuilt].
  unfold Registration.route in Hroute. rewrite Hbuilt in Hroute.
  destruct (Route.init _ handler _ _ dependencies rate_limit) as [r |] eqn:Hinit;
    [| discriminate].
  simpl in Hroute. injection Hroute as <-.
  unfold Route.init in Hinit. cbv zeta in Hinit.
  destruct (PathRegex.compile _ _) as [regex |] eqn:Hcompile; [| discriminate].
  simpl in Hinit. injection Hinit as <-.
  eexists _, rest. cbn [Router.add_route Router.routes Route.handler Route.methods
                        Route.path].
  split; [reflexivity |]. split; [reflexivity |]. split; [reflexivity |].
  split; [reflexivity |].
  intros p params. unfold Route.match_. cbn [Route._compiled_regex].
  destruct (regex p) as [groups |] eqn:Hp; [| discriminate].
  intros _. exact (compile_two_slashes _ _ p regex groups Hcompile Hp).
Qed.

Lemma versioned_route_needs_two_slashes_witness :
  exists self',
    Registration.get "/items" Fixture.home (Router.init "" (Some "1")) = Some self' /\
    Route.path <$> Router.routes self' = ["//v1/items"] /\
    fst (Router.handle_request self' (Fixture.request 0 "GET" "/v1/items" []) Store.empty)
      = M.Ok 0 /\
    Store.status_code <$>
      Store.responses
        (snd (Router.handle_request self' (Fixture.request 0 "GET" "/v1/items" [])
                Store.empty)) = [404%Z].
Proof.
  destruct (Registration.get "/items" Fixture.home (Router.init "" (Some "1")))
    as [self' |] eqn:Hget; [| vm_compute in Hget; discriminate].
  destruct (versioned_route_needs_two_slashes (Router.init "" (Some "1")) self' "1"
              "/items" ["GET"] None [] None Fixture.home eq_refl)
    as (route & rest & Hroutes & _ & _ & Hpath & _); [discriminate | exact Hget |].
  exists self'. split; [reflexivity |].
  vm_compute in Hget. injection Hget as <-.
  split; [reflexivity |]. split; vm_compute; reflexivity.
Defined.

(** ** Requests *)

Section RequestFacts.

Lemma lowered_last (k v : string) (after : list (string * string)) :
  forall store,
    Py.dict_get k store = Some v ->
    (forall kv, kv ∈ after -> Py.lower (fst kv) <> k) ->
    Py.dict_get k (CaseInsensitiveDict.lowered after store) = Some v.
Proof.
  unfold CaseInsensitiveDict.lowered.
  induction after as [| [k' v'] after IH]; intros store Hk Hafter; simpl; [exact Hk |].
  apply IH.
  - rewrite dict_get_set_ne; [exact Hk |].
    intros ->. by apply (Hafter (k', v')); [left |].
  - intros kv Hkv. apply Hafter. by right.
Qed.

Lemma read_spec (rest : list RequestBody.message) (last : RequestBody.message)
    (pre : list RequestBody.message) :
  default false (RequestBody.more_body last) = false ->
  Forall (fun m => default false (RequestBody.more_body m) = true) pre ->
  forall body,
    RequestBody.read (pre ++ last :: rest) body
    = Some (body +:+ RequestBody.joined (pre ++ [last]), rest).
Proof.
  intros Hlast. induction 1 as [| m pre Hm _ IH]; intros body; simpl.
  - rewrite Hlast. by rewrite str_app_nil_r.
  - rewrite Hm, IH. by rewrite str_app_assoc.
Qed.

End RequestFacts.

(** X20. The [headers] of a request hold each name once, in lowercase;
    of the headers of the scope that share a name up to case, the last
    one gives the value, and a name that no header of the scope has, up to
    case, is absent. *)
Theorem request_headers_last_wins
    (request : Request.t) (before after : list (string * string))
    (name value : string) :
  Request.scope_headers request = before ++ (name, value) :: after ->
  (forall kv, kv ∈ after -> Py.lower (fst kv) <> Py.lower name) ->
  Py.dict_get (Py.lower name) (Request.headers request) = Some value /\
  well_formed_headers (Request.headers request) /\
  (forall asked,
      (forall kv, kv ∈ Request.scope_headers request ->
                  Py.lower (fst kv) <> Py.lower asked) ->
      Py.dict_get (Py.lower asked) (Request.headers request) = None).
Proof.
  intros Hscope Hafter.
  change (Request.headers request)
    with (CaseInsensitiveDict.lowered (Request.scope_headers request) []).
  split; [| split].
  - rewrite Hscope. unfold CaseInsensitiveDict.lowered. rewrite fold_left_app.
    cbn [fold_left fst snd].
    apply (lowered_last (Py.lower name) value after); [apply dict_get_set_eq | exact Hafter].
  - apply lowered_well_formed. split; [constructor | apply NoDup_nil_2].
  - intros asked Habsent. apply lowered_absent; [exact Habsent | reflexivity].
Qed.

Lemma request_headers_last_wins_witness :
  Py.dict_get "host" (Request.headers
                        (Fixture.request 0 "GET" "/"
                           [("Host", "a.example"); ("Accept", "*/*"); ("HOST", "b.example")]))
  = Some "b.example".
Proof.
  apply (request_headers_last_wins
           (Fixture.request 0 "GET" "/"
              [("Host", "a.example"); ("Accept", "*/*"); ("HOST", "b.example")])
           [("Host", "a.example"); ("Accept", "*/*")] [] "HOST" "b.example").
  - reflexivity.
  - intros kv Hkv. by apply elem_of_nil in Hkv.
Defined.

(** X21. The body of a request is read once. The first [body()] takes
    the messages up to the first one that announces no more, joins their
    chunks and keeps the result; a further [body()] returns the same bytes
    and takes no message. *)
Theorem body_is_read_once
    (self : RequestBody.t) (pre rest : list RequestBody.message)
    (last : RequestBody.message) :
  RequestBody._body self = None ->
  RequestBody.incoming self = pre ++ last :: rest ->
  Forall (fun m => default false (RequestBody.more_body m) = true) pre ->
  default false (RequestBody.more_body last) = false ->
  RequestBody.body self
    = Some (RequestBody.joined (pre ++ [last]),
            RequestBody.mk rest (Some (RequestBody.joined (pre ++ [last])))) /\
  RequestBody.body (RequestBody.mk rest (Some (RequestBody.joined (pre ++ [last]))))
    = Some (RequestBody.joined (pre ++ [last]),
            RequestBody.mk rest (Some (RequestBody.joined (pre ++ [last])))).
Proof.
  intros Hnone Hincoming Hpre Hlast. split; [| reflexivity].
  unfold RequestBody.body. rewrite Hnone, Hincoming.
  rewrite (read_spec rest last pre Hlast Hpre ""). reflexivity.
Qed.

Lemma body_is_read_once_witness :
  RequestBody.body
    (RequestBody.mk [RequestBody.mk_message (Some "name=") (Some true);
                     RequestBody.mk_message (Some "keev") None;
                     RequestBody.mk_message (Some "next") None] None)
  = Some ("name=keev",
          RequestBody.mk [RequestBody.mk_message (Some "next") None]
                         (Some "name=keev")).
Proof.
  apply (body_is_read_once
           (RequestBody.mk [RequestBody.mk_message (Some "name=") (Some true);
                            RequestBody.mk_message (Some "keev") None;
                            RequestBody.mk_message (Some "next") None] None)
           [RequestBody.mk_message (Some "name=") (Some true)]
           [RequestBody.mk_message (Some "next") None]
           (RequestBody.mk_message (Some "keev") None)).
  - reflexivity.
  - reflexivity.
  - repeat constructor.
  - reflexivity.
Defined.
